(** * feelnet: the ensemble sentiment engine, embedded and verified

    A shallow embedding of the classification core of feelnet
    (src/preprocessing/text_preprocessor.py and src/analyzers/*.py).

    Conventions of the embedding.
    - A Python [str] is a [string]: one [ascii] per code point, code points
      0..255 (Latin-1).  The tables for [str.lower], [str.isspace] and the
      regular-expression classes [\s] and [\w] are those of Python 3 on
      that range.
    - A Python [float] is a rational number ([Q]); comparisons are exact and
      equalities between computed values are stated with [==].  The code
      rounds where the rationals do not, so what is stated of a computed
      sum of scores is that it is 1.0 within 1e-6 ([about_one]), and
      orders between computed scores are stated non-strictly.
    - Code that can raise returns [Res]; [try ... except Exception] is a
      match on [Raise].
    - Third-party libraries (VADER, TextBlob, the Hugging Face pipeline,
      NLTK) and the wall clock are the fields of [Libraries]; every
      theorem holds for all of them. *)

From Stdlib Require Import List Bool Arith ZArith QArith Qabs Lia Lqa.
From Stdlib Require Import Ascii String DecimalString.
Import ListNotations.

Local Open Scope list_scope.
Local Open Scope string_scope.

(** ** Exceptions *)

Inductive Exn : Type :=
| ValueError (msg : string)
| IndexError
| LibraryError (msg : string).

Inductive Res (A : Type) : Type :=
| Ok (a : A)
| Raise (e : Exn).

Arguments Ok {A} a.
Arguments Raise {A} e.

Definition bind {A B : Type} (m : Res A) (f : A -> Res B) : Res B :=
  match m with
  | Ok a => f a
  | Raise e => Raise e
  end.

Notation "x <- m ;; k" := (bind m (fun x => k))
  (at level 61, m at next level, right associativity).

(** ** Python strings *)

Module PyStr.

Definition code (c : ascii) : nat := nat_of_ascii c.

Definition in_range (lo hi : nat) (c : ascii) : bool :=
  (lo <=? code c)%nat && (code c <=? hi)%nat.

Definition is_code (n : nat) (c : ascii) : bool := (code c =? n)%nat.

Fixpoint one_of (chars : string) (c : ascii) : bool :=
  match chars with
  | EmptyString => false
  | String d rest => Ascii.eqb c d || one_of rest c
  end.

(** [str.isspace] on one character; also the class [\s]. *)
Definition isspace (c : ascii) : bool :=
  in_range 9 13 c || in_range 28 32 c || is_code 133 c || is_code 160 c.

Definition is_upper (c : ascii) : bool :=
  in_range 65 90 c || (in_range 192 222 c && negb (is_code 215 c)).

Definition is_ascii_letter (c : ascii) : bool :=
  in_range 65 90 c || in_range 97 122 c.

Definition is_digit (c : ascii) : bool := in_range 48 57 c.

(** The class [\w] of a str pattern: alphanumeric or underscore. *)
Definition is_word (c : ascii) : bool :=
  is_ascii_letter c || is_digit c || is_code 95 c
  || is_code 170 c || is_code 178 c || is_code 179 c || is_code 181 c
  || is_code 185 c || is_code 186 c || in_range 188 190 c
  || in_range 192 214 c || in_range 216 246 c || in_range 248 255 c.

Definition lower_char (c : ascii) : ascii :=
  if is_upper c then ascii_of_nat (code c + 32) else c.

(** [s.lower()] *)
Fixpoint lower (s : string) : string :=
  match s with
  | EmptyString => EmptyString
  | String c rest => String (lower_char c) (lower rest)
  end.

(** [sub in s] *)
Fixpoint contains (sub s : string) : bool :=
  if prefix sub s then true
  else match s with
       | EmptyString => false
       | String _ rest => contains sub rest
       end.

(** [s.split()], splitting on runs of whitespace; [cur] is the word being
    read. *)
Fixpoint split_from (cur : option string) (s : string) : list string :=
  match s with
  | EmptyString =>
      match cur with Some w => [w] | None => [] end
  | String c rest =>
      if isspace c then
        match cur with
        | Some w => w :: split_from None rest
        | None => split_from None rest
        end
      else
        let w := match cur with Some w => w | None => EmptyString end in
        split_from (Some (w ++ String c EmptyString)) rest
  end.

Definition split (s : string) : list string := split_from None s.

Fixpoint lstrip (s : string) : string :=
  match s with
  | EmptyString => EmptyString
  | String c rest => if isspace c then lstrip rest else s
  end.

Fixpoint rstrip (s : string) : string :=
  match s with
  | EmptyString => EmptyString
  | String c rest =>
      match rstrip rest with
      | EmptyString => if isspace c then EmptyString else String c EmptyString
      | r => String c r
      end
  end.

(** [s.strip()] *)
Definition strip (s : string) : string := rstrip (lstrip s).

(** [s[:n]] *)
Definition slice_to (n : nat) (s : string) : string := substring 0 n s.

(** [sep.join(words)] *)
Fixpoint join (sep : string) (words : list string) : string :=
  match words with
  | [] => EmptyString
  | [w] => w
  | w :: rest => w ++ sep ++ join sep rest
  end.

Definition head (s : string) : option ascii :=
  match s with
  | EmptyString => None
  | String c _ => Some c
  end.

End PyStr.

(** ** Regular expressions of Python's [re] module

    The constructs used by the preprocessor, with the backtracking
    semantics of [re]: alternatives are tried left to right, repetitions are
    greedy, and the first successful way of matching wins. *)

Module Re.

Inductive regex : Type :=
| Cls (p : ascii -> bool)      (* a character class *)
| Lit (s : string)             (* literal text *)
| Cat (r1 r2 : regex)          (* r1 r2 *)
| Alt (r1 r2 : regex)          (* r1|r2 *)
| Rep (lo : nat) (r : regex)   (* r{lo,}, greedy; r+ is Rep 1 *)
| Opt (r : regex)              (* r?, greedy *)
| WordBoundary.                (* \b *)

(** A position of the scan: the character before it, if any, and the text
    from it on. *)
Definition Pos : Type := (option ascii * string)%type.

Definition Cont : Type := option ascii -> string -> option Pos.

Definition word_at (c : option ascii) : bool :=
  match c with
  | Some c => PyStr.is_word c
  | None => false
  end.

Fixpoint match_lit (lit : string) (prev : option ascii) (s : string)
         (k : Cont) : option Pos :=
  match lit with
  | EmptyString => k prev s
  | String d lit' =>
      match s with
      | String c s' =>
          if Ascii.eqb c d then match_lit lit' (Some c) s' k else None
      | EmptyString => None
      end
  end.

(** The loop of a greedy repetition [r{lo,}]: [m] matches the body once.
    An iteration that consumes nothing is refused, so [fuel], one more
    than the length of the text, is never used up. *)
Section Repetition.
Variable m : option ascii -> string -> Cont -> option Pos.
Variable k : Cont.

Fixpoint rep_loop (fuel lo : nat) (prev : option ascii) (s : string)
         {struct fuel} : option Pos :=
  let stop := match lo with O => k prev s | S _ => None end in
  match fuel with
  | O => stop
  | S fuel' =>
      match m prev s
              (fun prev' s' =>
                 if (length s' <? length s)%nat
                 then rep_loop fuel' (pred lo) prev' s'
                 else None) with
      | Some p => Some p
      | None => stop
      end
  end.
End Repetition.

(** [rmatch r prev s k]: match [r] at the start of [s], then continue with
    [k]; [None] when every way of matching fails. *)
Fixpoint rmatch (r : regex) (prev : option ascii) (s : string) (k : Cont)
         {struct r} : option Pos :=
  match r with
  | Cls p =>
      match s with
      | String c s' => if p c then k (Some c) s' else None
      | EmptyString => None
      end
  | Lit lit => match_lit lit prev s k
  | Cat r1 r2 => rmatch r1 prev s (fun prev' s' => rmatch r2 prev' s' k)
  | Alt r1 r2 =>
      match rmatch r1 prev s k with
      | Some p => Some p
      | None => rmatch r2 prev s k
      end
  | Opt r1 =>
      match rmatch r1 prev s k with
      | Some p => Some p
      | None => k prev s
      end
  | Rep lo r1 => rep_loop (rmatch r1) k (S (length s)) lo prev s
  | WordBoundary =>
      if xorb (word_at prev) (word_at (PyStr.head s)) then k prev s else None
  end.

Definition match_here (r : regex) (prev : option ascii) (s : string)
  : option Pos :=
  rmatch r prev s (fun prev' s' => Some (prev', s')).

(** [re.sub]: the leftmost non-overlapping matches, scanned left to right,
    are replaced by [repl].  No pattern of this file matches the empty
    string; a match that consumes nothing is skipped. *)
Fixpoint sub_from (fuel : nat) (r : regex) (repl : string)
         (prev : option ascii) (s : string) : string :=
  match fuel with
  | O => s
  | S fuel' =>
      let copy :=
        match s with
        | EmptyString => EmptyString
        | String c s' => String c (sub_from fuel' r repl (Some c) s')
        end in
      match match_here r prev s with
      | Some (prev', rest) =>
          if (length rest <? length s)%nat
          then repl ++ sub_from fuel' r repl prev' rest
          else copy
      | None => copy
      end
  end.

Definition sub (r : regex) (repl : string) (s : string) : string :=
  sub_from (S (length s)) r repl None s.

End Re.

(** ** Floats *)

Definition Qlt_bool (x y : Q) : bool := negb (Qle_bool y x).

(** [min(a, b)] and [max(a, b)] of two numbers: the first argument wins a
    tie. *)
Definition py_min (a b : Q) : Q := if Qlt_bool b a then b else a.
Definition py_max (a b : Q) : Q := if Qlt_bool a b then b else a.

(** [sum(xs)] *)
Definition py_sum (xs : list Q) : Q := fold_left Qplus xs 0%Q.

Definition Q_of_nat (n : nat) : Q := inject_Z (Z.of_nat n).

(** ** Data model *)

(** [class SentimentLabel(Enum)] *)
Inductive SentimentLabel : Type := POSITIVE | NEGATIVE | NEUTRAL.

Definition value (l : SentimentLabel) : string :=
  match l with
  | POSITIVE => "positive"
  | NEGATIVE => "negative"
  | NEUTRAL => "neutral"
  end.

Definition SentimentLabel_eqb (a b : SentimentLabel) : bool :=
  match a, b with
  | POSITIVE, POSITIVE | NEGATIVE, NEGATIVE | NEUTRAL, NEUTRAL => true
  | _, _ => false
  end.

(** A scores dict: every one in the analyzers is built with the keys
    'positive', 'negative', 'neutral', in this order.  A key is written as
    the label whose value it is. *)
Record Scores : Type := mkScores {
  positive : Q;
  negative : Q;
  neutral : Q
}.

(** [scores.items()], in the dict's order. *)
Definition items (d : Scores) : list (SentimentLabel * Q) :=
  [(POSITIVE, positive d); (NEGATIVE, negative d); (NEUTRAL, neutral d)].

(** [scores[key]] *)
Definition get (d : Scores) (key : SentimentLabel) : Q :=
  match key with
  | POSITIVE => positive d
  | NEGATIVE => negative d
  | NEUTRAL => neutral d
  end.

(** [scores[key] = v] *)
Definition set (d : Scores) (key : SentimentLabel) (v : Q) : Scores :=
  match key with
  | POSITIVE => mkScores v (negative d) (neutral d)
  | NEGATIVE => mkScores (positive d) v (neutral d)
  | NEUTRAL => mkScores (positive d) (negative d) v
  end.

(** [sum(scores.values())] *)
Definition sum_values (d : Scores) : Q := py_sum (map snd (items d)).

(** [{k: f(v) for k, v in scores.items()}] *)
Definition map_values (f : Q -> Q) (d : Scores) : Scores :=
  mkScores (f (positive d)) (f (negative d)) (f (neutral d)).

(** [max(scores, key=scores.get)]: the first key, in the dict's order, whose
    value no later key exceeds; [best] is replaced only by a strictly
    greater value. *)
Fixpoint max_from (best : SentimentLabel * Q)
         (rest : list (SentimentLabel * Q)) : SentimentLabel * Q :=
  match rest with
  | [] => best
  | kv :: rest' =>
      if Qlt_bool (snd best) (snd kv) then max_from kv rest'
      else max_from best rest'
  end.

Definition max_key (d : Scores) : SentimentLabel :=
  fst (max_from (POSITIVE, positive d)
         [(NEGATIVE, negative d); (NEUTRAL, neutral d)]).

(** The dict an analyzer returns; the keys that no caller in the package
    reads (raw_scores, compound, polarity, subjectivity, raw_results,
    fallback) are left out. *)
Record AnalyzerResult : Type := mkResult {
  sentiment : SentimentLabel;
  confidence : Q;
  scores : Scores
}.

Definition Analyzer : Type := string -> Res AnalyzerResult.

(** [dict.get(key)] and [dict.get(key, default)] on a dict in insertion
    order. *)
Fixpoint dict_get {A : Type} (d : list (string * A)) (key : string)
  : option A :=
  match d with
  | [] => None
  | (k, v) :: rest => if String.eqb k key then Some v else dict_get rest key
  end.

Definition dict_get_default {A : Type} (d : list (string * A))
           (key : string) (default : A) : A :=
  match dict_get d key with
  | Some v => v
  | None => default
  end.

(** ** Third-party libraries *)

(** What [SentimentIntensityAnalyzer.polarity_scores] returns. *)
Record VaderScores : Type := mkVader {
  neg : Q;
  neu : Q;
  pos : Q;
  compound : Q
}.

Record Libraries : Type := mkLibraries {
  (* nltk: whether the import succeeded, the tokenizer, membership in the
     English stop-word set, the WordNet lemmatizer, the Porter stemmer *)
  NLTK_AVAILABLE : bool;
  word_tokenize : string -> list string;
  stop_words : string -> bool;
  lemmatizer_lemmatize : string -> string;
  stemmer_stem : string -> string;
  (* vaderSentiment *)
  polarity_scores : string -> Res VaderScores;
  (* textblob: TextBlob(text).sentiment, (polarity, subjectivity) *)
  blob_sentiment : string -> Res (Q * Q);
  (* transformers: the pipeline that was loaded, None when loading failed;
     a call returns one list of (label, score) per input text *)
  pipeline : option (string -> Res (list (list (string * Q))));
  (* time.time(), by the number of readings taken so far *)
  time_time : nat -> Q
}.

(** ** src/preprocessing/text_preprocessor.py *)

Module TextPreprocessor.
Import Re.

Record t : Type := mk {
  remove_urls : bool;
  remove_emails : bool;
  remove_html : bool;
  remove_special_chars : bool;
  lowercase : bool;
  remove_stopwords : bool;
  lemmatize : bool;
  stem : bool
}.

(** [r'<[^>]+>'] *)
Definition html_pattern : regex :=
  Cat (Lit "<") (Cat (Rep 1 (Cls (fun c => negb (Ascii.eqb c ">")))) (Lit ">")).

(** The class [[$-_@.&+]]: the range from [$] to [_], and [@], [.], [&],
    [+]. *)
Definition url_punct (c : ascii) : bool :=
  PyStr.in_range 36 95 c || PyStr.one_of "@.&+" c.

(** The class [[!*\\(\\),]]: [!], [*], backslash, [(], [)], [,]. *)
Definition url_extra (c : ascii) : bool :=
  PyStr.one_of "!*(),"  c || PyStr.is_code 92 c.

Definition hex_digit (c : ascii) : bool :=
  PyStr.is_digit c || PyStr.in_range 97 102 c || PyStr.in_range 65 70 c.

(** [r'http[s]?://(?:[a-zA-Z]|[0-9]|[$-_@.&+]|[!*\\(\\),]|(?:%[0-9a-fA-F][0-9a-fA-F]))+'] *)
Definition url_pattern : regex :=
  Cat (Lit "http")
    (Cat (Opt (Cls (PyStr.one_of "s")))
       (Cat (Lit "://")
          (Rep 1
             (Alt (Cls PyStr.is_ascii_letter)
                (Alt (Cls PyStr.is_digit)
                   (Alt (Cls url_punct)
                      (Alt (Cls url_extra)
                         (Cat (Lit "%") (Cat (Cls hex_digit) (Cls hex_digit)))))))))).

Definition email_local (c : ascii) : bool :=
  PyStr.is_ascii_letter c || PyStr.is_digit c || PyStr.one_of "._%+-" c.

Definition email_domain (c : ascii) : bool :=
  PyStr.is_ascii_letter c || PyStr.is_digit c || PyStr.one_of ".-" c.

(** The class [[A-Z|a-z]]: the letters and the bar. *)
Definition email_tld (c : ascii) : bool :=
  PyStr.is_ascii_letter c || PyStr.one_of "|" c.

(** [r'\b[A-Za-z0-9._%+-]+@[A-Za-z0-9.-]+\.[A-Z|a-z]{2,}\b'] *)
Definition email_pattern : regex :=
  Cat WordBoundary
    (Cat (Rep 1 (Cls email_local))
       (Cat (Lit "@")
          (Cat (Rep 1 (Cls email_domain))
             (Cat (Lit ".")
                (Cat (Rep 2 (Cls email_tld)) WordBoundary))))).

(** The characters kept by the negated class of [_remove_special_characters]:
    ASCII letters and digits, whitespace, and the punctuation
    . , ! ? ; : - ' ( ) and the double quote (code 34). *)
Definition basic_char (c : ascii) : bool :=
  PyStr.is_ascii_letter c || PyStr.is_digit c || PyStr.isspace c
  || PyStr.one_of ".,!?;:-'()" c || PyStr.is_code 34 c.

Definition special_pattern : regex := Cls (fun c => negb (basic_char c)).

(** [r'\s+'] *)
Definition whitespace_pattern : regex := Rep 1 (Cls PyStr.isspace).

Definition _remove_html_tags (text : string) : string :=
  sub html_pattern "" text.

Definition _remove_urls (text : string) : string :=
  sub url_pattern "" text.

Definition _remove_emails (text : string) : string :=
  sub email_pattern "" text.

Definition _remove_special_characters (text : string) : string :=
  sub special_pattern "" text.

Section WithLibraries.
Variable env : Libraries.

(** [__init__]: without NLTK the three token stages are switched off. *)
Definition init (remove_urls remove_emails remove_html
                   remove_special_chars lowercase remove_stopwords
                   lemmatize stem : bool) : t :=
  if NLTK_AVAILABLE env then
    mk remove_urls remove_emails remove_html remove_special_chars
       lowercase remove_stopwords lemmatize stem
  else
    mk remove_urls remove_emails remove_html remove_special_chars
       lowercase false false false.

(** [TextPreprocessor()] *)
Definition default : t :=
  init true true true false true false false false.

(** [_setup_nltk] sets [stop_words], [lemmatizer] and [stemmer] whenever
    their toggle is on, so the [hasattr] tests of the source hold. *)
Definition _apply_nltk_preprocessing (self : t) (text : string) : string :=
  let tokens := word_tokenize env text in
  let tokens :=
    if remove_stopwords self
    then filter (fun token => negb (stop_words env (PyStr.lower token))) tokens
    else tokens in
  let tokens :=
    if lemmatize self then map (lemmatizer_lemmatize env) tokens else tokens in
  let tokens :=
    if stem self then map (stemmer_stem env) tokens else tokens in
  PyStr.join " " tokens.

Definition preprocess (self : t) (text : string) : string :=
  match text with
  | EmptyString => EmptyString
  | _ =>
      let processed_text := text in
      let processed_text :=
        if remove_html self then _remove_html_tags processed_text
        else processed_text in
      let processed_text :=
        if remove_urls self then _remove_urls processed_text
        else processed_text in
      let processed_text :=
        if remove_emails self then _remove_emails processed_text
        else processed_text in
      let processed_text :=
        if remove_special_chars self
        then _remove_special_characters processed_text
        else processed_text in
      let processed_text :=
        if lowercase self then PyStr.lower processed_text
        else processed_text in
      let processed_text :=
        if NLTK_AVAILABLE env
           && (remove_stopwords self || lemmatize self || stem self)
        then _apply_nltk_preprocessing self processed_text
        else processed_text in
      PyStr.strip (sub whitespace_pattern " " processed_text)
  end.
(** [preprocess_batch] *)
Definition preprocess_batch (self : t) (texts : list string) : list string :=
  map (preprocess self) texts.
End WithLibraries.

Definition newline : string := String (ascii_of_nat 10) EmptyString.

(** [r'[ \t]+']: spaces and tabs. *)
Definition blanks_pattern : regex :=
  Rep 1 (Cls (fun c => PyStr.is_code 32 c || PyStr.is_code 9 c)).

(** [r'\n\s*\n'] *)
Definition blank_lines_pattern : regex :=
  Cat (Lit newline) (Cat (Rep 0 (Cls PyStr.isspace)) (Lit newline)).

(** [clean_for_analysis] *)
Definition clean_for_analysis (text : string) : string :=
  match text with
  | EmptyString => EmptyString
  | _ =>
      let text := _remove_html_tags text in
      let text := _remove_urls text in
      let text := _remove_emails text in
      let text := sub blanks_pattern " " text in
      let text := sub blank_lines_pattern (newline ++ newline) text in
      PyStr.strip text
  end.

End TextPreprocessor.


(** ** src/analyzers/vader_analyzer.py *)

Module VaderAnalyzer.

(** The body of [analyze] after the call of the library. *)
Definition from_scores (scores : VaderScores) : AnalyzerResult :=
  let compound := compound scores in
  let '(sentiment, confidence) :=
    if Qle_bool 0.05 compound then (POSITIVE, pos scores)
    else if Qle_bool compound (-0.05) then (NEGATIVE, neg scores)
    else (NEUTRAL, neu scores) in
  let sentiment_scores := mkScores (pos scores) (neg scores) (neu scores) in
  mkResult sentiment confidence sentiment_scores.

Section WithLibraries.
Variable env : Libraries.

Definition analyze (text : string) : Res AnalyzerResult :=
  scores <- polarity_scores env text ;;
  Ok (from_scores scores).
End WithLibraries.
End VaderAnalyzer.

(** ** src/analyzers/textblob_analyzer.py *)

Module TextBlobAnalyzer.

(** The body of [analyze] after the call of the library. *)
Definition from_polarity (polarity : Q) : AnalyzerResult :=
  let '(sentiment, confidence) :=
    if Qlt_bool 0.1 polarity then (POSITIVE, polarity)
    else if Qlt_bool polarity (-0.1) then (NEGATIVE, Qabs polarity)
    else (NEUTRAL, 1 - Qabs polarity) in
  let normalized_polarity := (polarity + 1) / 2 in
  let '(pos_score, neg_score, neu_score) :=
    if Qlt_bool 0 polarity then
      (normalized_polarity, 1 - normalized_polarity,
       (1 - Qabs polarity) * 0.5)
    else if Qlt_bool polarity 0 then
      (normalized_polarity, 1 - normalized_polarity,
       (1 - Qabs polarity) * 0.5)
    else (0.33, 0.33, 0.34) in
  let total := pos_score + neg_score + neu_score in
  let '(pos_score, neg_score, neu_score) :=
    if Qlt_bool 0 total
    then (pos_score / total, neg_score / total, neu_score / total)
    else (pos_score, neg_score, neu_score) in
  mkResult sentiment confidence (mkScores pos_score neg_score neu_score).

Section WithLibraries.
Variable env : Libraries.

Definition analyze (text : string) : Res AnalyzerResult :=
  blob <- blob_sentiment env text ;;
  let polarity := fst blob in
  Ok (from_polarity polarity).
End WithLibraries.
End TextBlobAnalyzer.

(** ** src/analyzers/transformer_analyzer.py *)

Module TransformerAnalyzer.

(** The branch of [_parse_results] taken for a lower-cased label: the
    score key it assigns, if any. *)
Definition label_key (label : string) : option SentimentLabel :=
  if PyStr.contains "pos" label || String.eqb label "label_2" then Some POSITIVE
  else if PyStr.contains "neg" label || String.eqb label "label_0" then Some NEGATIVE
  else if PyStr.contains "neu" label || String.eqb label "label_1" then Some NEUTRAL
  else if String.eqb label "positive" then Some POSITIVE
  else if String.eqb label "negative" then Some NEGATIVE
  else if String.eqb label "neutral" then Some NEUTRAL
  else None.

(** The [for result in results] loop of [_parse_results]. *)
Definition assign_labels (results : list (string * Q)) : Scores :=
  fold_left
    (fun sentiment_scores (result : string * Q) =>
       let label := PyStr.lower (fst result) in
       let score := snd result in
       match label_key label with
       | Some key => set sentiment_scores key score
       | None => sentiment_scores
       end)
    results (mkScores 0.0 0.0 0.0).

Definition _parse_results (results : list (string * Q)) : Scores :=
  let sentiment_scores := assign_labels results in
  if Qeq_bool (neutral sentiment_scores) 0.0 then
    let total := positive sentiment_scores + negative sentiment_scores in
    if Qlt_bool 0 total then
      let neutral_component := 0.1 in
      mkScores (positive sentiment_scores * (1 - neutral_component))
               (negative sentiment_scores * (1 - neutral_component))
               neutral_component
    else sentiment_scores
  else sentiment_scores.

Definition positive_words : list string :=
  ["good"; "great"; "excellent"; "amazing"; "wonderful";
   "fantastic"; "love"; "like"; "best"; "awesome"].

Definition negative_words : list string :=
  ["bad"; "terrible"; "awful"; "horrible"; "hate";
   "worst"; "poor"; "disappointing"; "sad"; "angry"].

(** [sum(1 for word in words if word in text_lower)] *)
Definition count_hits (words : list string) (text_lower : string) : nat :=
  List.length (filter (fun word => PyStr.contains word text_lower) words).

Definition _fallback_analysis (text : string) : AnalyzerResult :=
  let text_lower := PyStr.lower text in
  let pos_count := count_hits positive_words text_lower in
  let neg_count := count_hits negative_words text_lower in
  let total_words := List.length (PyStr.split text) in
  let '(sentiment, confidence) :=
    if (neg_count <? pos_count)%nat then
      (POSITIVE,
       py_min 0.8 (Q_of_nat pos_count / py_max (Q_of_nat total_words * 0.1) 1))
    else if (pos_count <? neg_count)%nat then
      (NEGATIVE,
       py_min 0.8 (Q_of_nat neg_count / py_max (Q_of_nat total_words * 0.1) 1))
    else (NEUTRAL, 0.6) in
  let scores :=
    match sentiment with
    | POSITIVE =>
        mkScores confidence ((1 - confidence) * 0.3) ((1 - confidence) * 0.7)
    | NEGATIVE =>
        mkScores ((1 - confidence) * 0.3) confidence ((1 - confidence) * 0.7)
    | NEUTRAL => mkScores 0.3 0.3 0.4
    end in
  mkResult sentiment confidence scores.

Definition max_length : nat := 512.

(** The text handed to the model: [text[:max_length]] when it is longer
    than [max_length]. *)
Definition truncate (text : string) : string :=
  if (max_length <? String.length text)%nat then PyStr.slice_to max_length text
  else text.

(** [xs[0]] *)
Definition first {A : Type} (xs : list A) : Res A :=
  match xs with
  | x :: _ => Ok x
  | [] => Raise IndexError
  end.

Section WithLibraries.
Variable env : Libraries.

(** The body of the [try] block of [analyze], on the truncated text. *)
Definition infer (pipe : string -> Res (list (list (string * Q))))
           (text : string) : Res AnalyzerResult :=
  outputs <- pipe text ;;
  results <- first outputs ;;
  let sentiment_scores := _parse_results results in
  let primary_sentiment := max_key sentiment_scores in
  let confidence := get sentiment_scores primary_sentiment in
  Ok (mkResult primary_sentiment confidence sentiment_scores).

Definition analyze (text : string) : Res AnalyzerResult :=
  match pipeline env with
  | None => Ok (_fallback_analysis text)
  | Some pipe =>
      let text := truncate text in
      match infer pipe text with
      | Ok result => Ok result
      | Raise e => Ok (_fallback_analysis text)
      end
  end.
End WithLibraries.
End TransformerAnalyzer.

(** ** The ensemble loop

    [EnsembleAnalyzer.analyze] and [SentimentAnalyzer._ensemble_analyze] run
    the same loop over their analyzers; they differ in where a weight comes
    from. *)

Record EnsembleResult : Type := mkEnsemble {
  e_sentiment : SentimentLabel;
  e_confidence : Q;
  e_scores : Scores;
  individual_results : list (string * AnalyzerResult)
}.

(** [for sentiment, score in result['scores'].items():
       combined_scores[sentiment] += score * weight] *)
Definition add_weighted (combined_scores : Scores) (result : AnalyzerResult)
           (weight : Q) : Scores :=
  fold_left
    (fun combined (item : SentimentLabel * Q) =>
       set combined (fst item) (get combined (fst item) + snd item * weight))
    (items (scores result)) combined_scores.

(** The [for name, analyzer in self.analyzers.items()] loop: an analyzer
    that raises is skipped and leaves both accumulators as they were. *)
Fixpoint run_analyzers (weight_of : string -> Q)
         (analyzers : list (string * Analyzer)) (text : string)
         (individual : list (string * AnalyzerResult))
         (combined_scores : Scores)
  : list (string * AnalyzerResult) * Scores :=
  match analyzers with
  | [] => (individual, combined_scores)
  | (name, analyzer) :: rest =>
      match analyzer text with
      | Ok result =>
          run_analyzers weight_of rest text
            (individual ++ [(name, result)])%list
            (add_weighted combined_scores result (weight_of name))
      | Raise e =>
          run_analyzers weight_of rest text individual combined_scores
      end
  end.

(** The statements after the loop: normalize, pick the label. *)
Definition finish (individual : list (string * AnalyzerResult))
           (combined_scores : Scores) : EnsembleResult :=
  let total := sum_values combined_scores in
  let combined_scores :=
    if Qlt_bool 0 total
    then map_values (fun v => v / total) combined_scores
    else combined_scores in
  let final_sentiment := max_key combined_scores in
  let confidence := get combined_scores final_sentiment in
  mkEnsemble final_sentiment confidence combined_scores individual.

Definition combine (weight_of : string -> Q)
           (analyzers : list (string * Analyzer)) (text : string)
  : EnsembleResult :=
  let '(individual, combined_scores) :=
    run_analyzers weight_of analyzers text [] (mkScores 0.0 0.0 0.0) in
  finish individual combined_scores.

(** [combined_scores] as the loop leaves it, before it is normalized. *)
Definition accumulated (weight_of : string -> Q)
           (analyzers : list (string * Analyzer)) (text : string) : Scores :=
  snd (run_analyzers weight_of analyzers text [] (mkScores 0.0 0.0 0.0)).

(** ** src/analyzers/ensemble_analyzer.py *)

Module EnsembleAnalyzer.

Record t : Type := mk {
  analyzers : list (string * Analyzer);
  weights : list (string * Q)
}.

Section WithLibraries.
Variable env : Libraries.

Definition init (use_vader use_textblob use_transformer : bool)
           (vader_weight textblob_weight transformer_weight : Q) : t :=
  let entries :=
    ((if use_vader
      then [("vader", VaderAnalyzer.analyze env, vader_weight)] else [])
     ++ (if use_textblob
         then [("textblob", TextBlobAnalyzer.analyze env, textblob_weight)]
         else [])
     ++ (if use_transformer
         then [("transformer", TransformerAnalyzer.analyze env,
                transformer_weight)]
         else []))%list in
  let analyzers := map (fun e => (fst (fst e), snd (fst e))) entries in
  let weights := map (fun e => (fst (fst e), snd e)) entries in
  let total_weight := py_sum (map snd weights) in
  let weights :=
    if Qlt_bool 0 total_weight
    then map (fun kv => (fst kv, snd kv / total_weight)) weights
    else weights in
  mk analyzers weights.

(** [EnsembleAnalyzer()] *)
Definition default : t := init true true true 0.4 0.3 0.3.
End WithLibraries.

(** [self.weights.get(name, 0.0)] *)
Definition weight_of (self : t) (name : string) : Q :=
  dict_get_default (weights self) name 0.0.

Definition analyze (self : t) (text : string) : Res EnsembleResult :=
  match analyzers self with
  | [] => Raise (ValueError "No analyzers configured")
  | _ => Ok (combine (weight_of self) (analyzers self) text)
  end.

End EnsembleAnalyzer.

(** ** src/analyzers/sentiment_analyzer.py *)

(** [@dataclass class SentimentResult] *)
Record SentimentResult : Type := mkSentimentResult {
  r_text : string;
  r_sentiment : SentimentLabel;
  r_confidence : Q;
  r_scores : Scores;
  r_method : string;
  processing_time : Q
}.

(** The dict of [get_statistics]. *)
Record Statistics : Type := mkStatistics {
  total_analyzed : nat;
  sentiment_distribution : Scores;
  average_confidence : Q;
  total_processing_time : Q;
  average_processing_time : Q
}.

Module SentimentAnalyzer.

Record t : Type := mk {
  method : string;
  preprocess : bool;
  preprocessor : option TextPreprocessor.t;
  analyzers : list (string * Analyzer)
}.

Definition _get_analyzer_weight (analyzer_name : string) : Q :=
  let weights := [("vader", 0.4); ("textblob", 0.3); ("transformer", 0.3)] in
  dict_get_default weights analyzer_name 0.33.

Definition _ensemble_analyze (self : t) (text : string) : EnsembleResult :=
  combine _get_analyzer_weight (analyzers self) text.

(** The result appended by [analyze_batch] when [analyze] raises. *)
Definition error_result (self : t) (text : string) : SentimentResult :=
  mkSentimentResult text NEUTRAL 0.0 (mkScores 0.0 0.0 1.0) (method self) 0.0.

(** [sentiments.count(label)] *)
Definition count (label : SentimentLabel) (sentiments : list SentimentLabel)
  : nat :=
  List.length (filter (SentimentLabel_eqb label) sentiments).

(** [get_statistics]; [None] is the empty dict returned for no results. *)
Definition get_statistics (results : list SentimentResult)
  : option Statistics :=
  match results with
  | [] => None
  | _ =>
      let sentiments := map r_sentiment results in
      let confidences := map r_confidence results in
      let processing_times := map processing_time results in
      Some (mkStatistics
              (List.length results)
              (mkScores
                 (Q_of_nat (count POSITIVE sentiments) / Q_of_nat (List.length sentiments))
                 (Q_of_nat (count NEGATIVE sentiments) / Q_of_nat (List.length sentiments))
                 (Q_of_nat (count NEUTRAL sentiments) / Q_of_nat (List.length sentiments)))
              (py_sum confidences / Q_of_nat (List.length confidences))
              (py_sum processing_times)
              (py_sum processing_times / Q_of_nat (List.length processing_times)))
  end.

Section WithLibraries.
Variable env : Libraries.

Definition init (method : string) (preprocess : bool) : t :=
  mk method preprocess
     (if preprocess then Some (TextPreprocessor.default env) else None)
     [("vader", VaderAnalyzer.analyze env);
      ("textblob", TextBlobAnalyzer.analyze env);
      ("transformer", TransformerAnalyzer.analyze env)].

(** The text handed to the analyzers. *)
Definition processed (self : t) (text : string) : string :=
  match preprocess self, preprocessor self with
  | true, Some p => TextPreprocessor.preprocess env p text
  | _, _ => text
  end.

(** [analyze]; [clock] counts the readings of [time.time()] taken so
    far and is returned advanced.  Logging is not modelled. *)
Definition analyze (self : t) (text : string) (clock : nat)
  : Res SentimentResult * nat :=
  let start_time := time_time env clock in
  let clock := S clock in
  let processed_text := processed self text in
  let result :=
    if String.eqb (method self) "ensemble" then
      let r := _ensemble_analyze self processed_text in
      Ok (mkResult (e_sentiment r) (e_confidence r) (e_scores r))
    else
      match dict_get (analyzers self) (method self) with
      | None =>
          Raise (ValueError ("Unknown analysis method: " ++ method self))
      | Some analyzer => analyzer processed_text
      end in
  match result with
  | Raise e => (Raise e, clock)
  | Ok result =>
      let processing_time := time_time env clock - start_time in
      (Ok (mkSentimentResult text (sentiment result) (confidence result)
             (scores result) (method self) processing_time),
       S clock)
  end.

Fixpoint analyze_batch (self : t) (texts : list string) (clock : nat)
  : list SentimentResult * nat :=
  match texts with
  | [] => ([], clock)
  | text :: rest =>
      let '(outcome, clock) := analyze self text clock in
      let result :=
        match outcome with
        | Ok result => result
        | Raise e => error_result self text
        end in
      let '(results, clock) := analyze_batch self rest clock in
      (result :: results, clock)
  end.
End WithLibraries.

End SentimentAnalyzer.

(** ** [EnsembleAnalyzer.get_analyzer_performance] *)

Module Performance.

(** What the [try] block of one analyzer can raise: an exception of the
    analyzer, or the division by [len(confidences)] when there is no
    text. *)
Inductive Failure : Type :=
| Raised (e : Exn)
| ZeroDivisionError.

(** The entry stored under an analyzer's name: the metrics, or
    [{'error': str(e)}]. *)
Inductive Entry : Type :=
| Metrics (average_confidence : Q) (sentiment_distribution : Scores)
          (total_analyzed : nat)
| Error (e : Failure).

(** [for text in texts: results.append(analyzer.analyze(text))]: the first
    exception ends the loop. *)
Fixpoint analyze_all (analyzer : Analyzer) (texts : list string)
  : Res (list AnalyzerResult) :=
  match texts with
  | [] => Ok []
  | text :: rest =>
      result <- analyzer text ;;
      results <- analyze_all analyzer rest ;;
      Ok (result :: results)
  end.

(** The body of the loop over the analyzers. *)
Definition measure (analyzer : Analyzer) (texts : list string) : Entry :=
  match analyze_all analyzer texts with
  | Raise e => Error (Raised e)
  | Ok results =>
      let confidences := map confidence results in
      match confidences with
      | [] => Error ZeroDivisionError
      | _ =>
          let avg_confidence :=
            py_sum confidences / Q_of_nat (List.length confidences) in
          let sentiments := map sentiment results in
          let n := Q_of_nat (List.length sentiments) in
          Metrics avg_confidence
            (mkScores
               (Q_of_nat (SentimentAnalyzer.count POSITIVE sentiments) / n)
               (Q_of_nat (SentimentAnalyzer.count NEGATIVE sentiments) / n)
               (Q_of_nat (SentimentAnalyzer.count NEUTRAL sentiments) / n))
            (List.length results)
      end
  end.

Definition get_analyzer_performance (self : EnsembleAnalyzer.t)
           (texts : list string) : list (string * Entry) :=
  map (fun entry => (fst entry, measure (snd entry) texts))
      (EnsembleAnalyzer.analyzers self).

End Performance.

(** ** src/utils/helpers.py *)

Module Helpers.

(** The dict of [validate_text_input]: [{'valid': False, 'error': ...}] or
    [{'valid': True, 'cleaned_text': ..., 'length': ...}]. *)
Inductive Validation : Type :=
| Rejected (error : string)
| Accepted (cleaned_text : string) (length : nat).

(** [str(n)] of a natural number. *)
Definition decimal (n : nat) : string :=
  NilZero.string_of_uint (Nat.to_uint n).

Definition validate_text_input (text : string) (max_length : nat)
  : Validation :=
  match text with
  | EmptyString => Rejected "Text is required"
  | _ =>
      let text := PyStr.strip text in
      if (String.length text =? 0)%nat then Rejected "Text cannot be empty"
      else if (max_length <? String.length text)%nat
      then Rejected ("Text too long. Max " ++ decimal max_length ++ " chars")
      else Accepted text (String.length text)
  end.

End Helpers.

(** ** Vocabulary of the statements *)

(** Every analyzer of the dict raises on [text]. *)
Definition all_raise (analyzers : list (string * Analyzer)) (text : string)
  : Prop :=
  Forall (fun entry => exists e, snd entry text = Raise e) analyzers.

(** The place of a key in the iteration order of a scores dict. *)
Definition rank (l : SentimentLabel) : nat :=
  match l with
  | POSITIVE => 0
  | NEGATIVE => 1
  | NEUTRAL => 2
  end.

(** [l] holds a greatest value of [d], and no key before [l] holds as
    much. *)
Definition first_argmax (d : Scores) (l : SentimentLabel) : Prop :=
  (forall k, get d k <= get d l) /\
  (forall k, get d k == get d l -> (rank l <= rank k)%nat).

(** What the ensemble returns when no analyzer contributed. *)
Definition nothing_combined : EnsembleResult :=
  mkEnsemble POSITIVE 0.0 (mkScores 0.0 0.0 0.0) [].

(** The string-valued fields of a [SentimentResult]. *)
Definition string_fields (r : SentimentResult) : list string :=
  [r_text r; r_method r].

(** The whitespace stage of [preprocess], as a scan: a run of whitespace
    becomes one space; [in_run] tells that the previous character was
    whitespace. *)
Fixpoint collapse (in_run : bool) (s : string) : string :=
  match s with
  | EmptyString => EmptyString
  | String c rest =>
      if PyStr.isspace c then
        if in_run then collapse true rest
        else String " " (collapse true rest)
      else String c (collapse false rest)
  end.

Definition starts_with_space (s : string) : bool :=
  match s with
  | EmptyString => false
  | String c _ => PyStr.isspace c
  end.

(** Every whitespace character is a space and stands alone. *)
Fixpoint single_spaced (s : string) : bool :=
  match s with
  | EmptyString => true
  | String c rest =>
      (if PyStr.isspace c
       then Ascii.eqb c " " && negb (starts_with_space rest)
       else true)
      && single_spaced rest
  end.

Fixpoint all_chars (p : ascii -> bool) (s : string) : bool :=
  match s with
  | EmptyString => true
  | String c rest => p c && all_chars p rest
  end.

Definition lower_fixed (c : ascii) : bool := Ascii.eqb (PyStr.lower_char c) c.

(** [env] with another pipeline. *)
Definition with_pipeline (env : Libraries)
           (pipe : option (string -> Res (list (list (string * Q)))))
  : Libraries :=
  mkLibraries (NLTK_AVAILABLE env) (word_tokenize env) (stop_words env)
              (lemmatizer_lemmatize env) (stemmer_stem env)
              (polarity_scores env) (blob_sentiment env) pipe (time_time env).

(** What [analyze_batch] appends for [text]: the result of [analyze], or the
    neutral stand-in when it raises. *)
Definition batch_entry (sa : SentimentAnalyzer.t) (text : string)
           (outcome : Res SentimentResult) : SentimentResult :=
  match outcome with
  | Ok result => result
  | Raise _ => SentimentAnalyzer.error_result sa text
  end.

(** [c not in s] *)
Definition lacks (c : ascii) (s : string) : bool :=
  all_chars (fun d => negb (Ascii.eqb d c)) s.

(** The characters of [s] that satisfy [p], in order. *)
Fixpoint filter_chars (p : ascii -> bool) (s : string) : string :=
  match s with
  | EmptyString => EmptyString
  | String c rest =>
      if p c then String c (filter_chars p rest) else filter_chars p rest
  end.

(** The analyzer of [entry] returns on [text]. *)
Definition succeeds (text : string) (entry : string * Analyzer) : bool :=
  match snd entry text with
  | Ok _ => true
  | Raise _ => false
  end.

(** Two scores dicts hold equal numbers. *)
Definition scores_eq (a b : Scores) : Prop :=
  positive a == positive b /\ negative a == negative b
  /\ neutral a == neutral b.

Definition nonneg (d : Scores) : Prop :=
  0 <= positive d /\ 0 <= negative d /\ 0 <= neutral d.

(** No value of [d] lies outside [0, 1]. *)
Definition within_unit (d : Scores) : Prop :=
  forall k, 0 <= get d k /\ get d k <= 1.

(** [x] is 1.0 within 1e-6. *)
Definition about_one (x : Q) : Prop := Qabs (x - 1) <= 0.000001.

(** [a] is [b] with some characters deleted. *)
Inductive Subsequence : string -> string -> Prop :=
| sub_nil : Subsequence EmptyString EmptyString
| sub_keep (c : ascii) (a b : string) :
    Subsequence a b -> Subsequence (String c a) (String c b)
| sub_drop (c : ascii) (a b : string) :
    Subsequence a b -> Subsequence a (String c b).

(** [t] is what is left of [s] after some of its first characters. *)
Definition Suffix (t s : string) : Prop := exists pre, s = pre ++ t.

(** Whatever [m] hands to its continuation is a suffix of the text it was
    given. *)
Definition hands_on_suffix
           (m : option ascii -> string -> Re.Cont -> option Re.Pos) : Prop :=
  forall prev s k res,
    m prev s k = Some res ->
    exists prev' s', Suffix s' s /\ k prev' s' = Some res.

(** [s] without its leading characters in the class [p]. *)
Fixpoint drop_while (p : ascii -> bool) (s : string) : string :=
  match s with
  | EmptyString => EmptyString
  | String c rest => if p c then drop_while p rest else s
  end.

(** ** Sample libraries and inputs *)

Module Sample.

(** A stand-in for VADER: three fixed answers, and, when [quirk] is set,
    an exception on the empty string. *)
Definition vader (quirk : bool) (text : string) : Res VaderScores :=
  if quirk && String.eqb text "" then Raise (LibraryError "empty text")
  else if PyStr.contains "love" (PyStr.lower text)
  then Ok (mkVader 0.0 0.192 0.808 0.6696)
  else if PyStr.contains "worst" (PyStr.lower text)
  then Ok (mkVader 0.804 0.196 0.0 (-0.8074))
  else Ok (mkVader 0.0 1.0 0.0 0.0).

(** A stand-in for TextBlob. *)
Definition textblob (text : string) : Res (Q * Q) :=
  if PyStr.contains "love" (PyStr.lower text) then Ok (0.625, 0.6)
  else if PyStr.contains "worst" (PyStr.lower text) then Ok (-1, 1)
  else Ok (0.0, 0.0).

Definition broken {A : Type} (text : string) : Res A :=
  Raise (LibraryError "unavailable").

(** A loaded two-label model that answers every text alike. *)
Definition sst2 (text : string) : Res (list (list (string * Q))) :=
  Ok [[("NEGATIVE", 0.25); ("POSITIVE", 0.75)]].

Definition clock (n : nat) : Q := Q_of_nat n * 0.5.

Definition libraries (vader : string -> Res VaderScores)
           (textblob : string -> Res (Q * Q))
           (pipeline : option (string -> Res (list (list (string * Q)))))
  : Libraries :=
  mkLibraries false PyStr.split (fun _ => false) (fun w => w) (fun w => w)
              vader textblob pipeline clock.

(** VADER and TextBlob answer; NLTK is not installed and the model did not
    load. *)
Definition healthy : Libraries := libraries (vader false) textblob None.

(** VADER raises on the empty string. *)
Definition quirky : Libraries := libraries (vader true) textblob None.

(** VADER and TextBlob raise on every text. *)
Definition failing : Libraries := libraries broken broken None.

(** The model loaded and raises on every text. *)
Definition model_raises : Libraries :=
  libraries (vader false) textblob (Some broken).

Definition model_loaded : Libraries :=
  libraries (vader false) textblob (Some sst2).

Definition batch : list string :=
  ["I love this!"; ""; "Terrible, worst ever."].

(** 650 characters, 130 words. *)
Definition long_text : string :=
  String.concat "" (repeat "good " 130).

(** Only the case and whitespace stages. *)
Definition case_and_whitespace : TextPreprocessor.t :=
  TextPreprocessor.mk false false false false true false false false.

End Sample.

(** * Theorems *)

(** ** Comparisons and sums of floats *)

Lemma Qlt_bool_iff (x y : Q) : Qlt_bool x y = true <-> x < y.
Proof.
  unfold Qlt_bool. rewrite negb_true_iff. split.
  - intros H. apply Qnot_le_lt. intros Hle.
    apply Qle_bool_iff in Hle. congruence.
  - intros H. destruct (Qle_bool y x) eqn:E; [|reflexivity].
    apply Qle_bool_iff in E. exfalso. apply (Qlt_not_le _ _ H E).
Qed.

Lemma Qlt_bool_spec (x y : Q) : reflect (x < y) (Qlt_bool x y).
Proof. apply iff_reflect. symmetry. apply Qlt_bool_iff. Qed.

Lemma Qle_bool_spec (x y : Q) : reflect (x <= y) (Qle_bool x y).
Proof. apply iff_reflect. symmetry. apply Qle_bool_iff. Qed.

Lemma sum_values_eq (d : Scores) :
  sum_values d == positive d + negative d + neutral d.
Proof. unfold sum_values, py_sum. simpl. ring. Qed.

Lemma Qabs_nonneg_eq (x : Q) : 0 <= x -> Qabs x == x.
Proof. apply Qabs_pos. Qed.

Lemma Qabs_nonpos_eq (x : Q) : x <= 0 -> Qabs x == - x.
Proof. apply Qabs_neg. Qed.

(** Case analysis on Python's [if]s over floats. *)
Ltac by_comparisons :=
  repeat match goal with
    | |- context [Qlt_bool ?x ?y] => destruct (Qlt_bool_spec x y)
    | |- context [Qle_bool ?x ?y] => destruct (Qle_bool_spec x y)
    end.

(** ** The analyzers *)

Lemma vader_analyze_eq (env : Libraries) (text : string) :
  VaderAnalyzer.analyze env text =
  match polarity_scores env text with
  | Ok vs => Ok (VaderAnalyzer.from_scores vs)
  | Raise e => Raise e
  end.
Proof. reflexivity. Qed.

Lemma textblob_analyze_eq (env : Libraries) (text : string) :
  TextBlobAnalyzer.analyze env text =
  match blob_sentiment env text with
  | Ok blob => Ok (TextBlobAnalyzer.from_polarity (fst blob))
  | Raise e => Raise e
  end.
Proof. reflexivity. Qed.

(** C3 (as stated, refuted): the TextBlob analyzer does not label a polarity
    of 0.07 positive, although 0.07 >= 0.05; it labels it neutral. *)
Lemma C3_textblob_polarity_007_is_neutral :
  ~ (forall polarity : Q,
        0.05 <= polarity ->
        sentiment (TextBlobAnalyzer.from_polarity polarity) = POSITIVE).
Proof.
  intros H. specialize (H 0.07).
  assert (Hle : 0.05 <= 0.07) by (unfold Qle; simpl; lia).
  specialize (H Hle). vm_compute in H. discriminate H.
Qed.

(** C3 (amended): the VADER analyzer labels by its compound score with the
    closed thresholds +0.05 and -0.05 (positive if compound >= 0.05,
    negative if compound <= -0.05, neutral strictly between); the TextBlob
    analyzer labels by its polarity with the open thresholds +0.1 and -0.1
    (positive if polarity > 0.1, negative if polarity < -0.1, neutral from
    -0.1 to 0.1, both ends included); the transformer's fallback labels by
    comparing its two hit counts, without a polarity score. *)
Theorem C3_label_thresholds (vs : VaderScores) (polarity : Q) (text : string) :
  let vader := sentiment (VaderAnalyzer.from_scores vs) in
  let textblob := sentiment (TextBlobAnalyzer.from_polarity polarity) in
  let fallback := sentiment (TransformerAnalyzer._fallback_analysis text) in
  let text_lower := PyStr.lower text in
  let pos_count :=
    TransformerAnalyzer.count_hits TransformerAnalyzer.positive_words text_lower in
  let neg_count :=
    TransformerAnalyzer.count_hits TransformerAnalyzer.negative_words text_lower in
  (vader = POSITIVE <-> 0.05 <= compound vs) /\
  (vader = NEGATIVE <-> compound vs <= -0.05) /\
  (vader = NEUTRAL <-> -0.05 < compound vs /\ compound vs < 0.05) /\
  (textblob = POSITIVE <-> 0.1 < polarity) /\
  (textblob = NEGATIVE <-> polarity < -0.1) /\
  (textblob = NEUTRAL <-> -0.1 <= polarity /\ polarity <= 0.1) /\
  (fallback = POSITIVE <-> (neg_count < pos_count)%nat) /\
  (fallback = NEGATIVE <-> (pos_count < neg_count)%nat) /\
  (fallback = NEUTRAL <-> pos_count = neg_count).
Proof.
  cbv zeta.
  repeat match goal with |- _ /\ _ => split end.
  1-3: unfold VaderAnalyzer.from_scores; by_comparisons; simpl;
       (split; [intros H; try discriminate H; try split; lra
               | intros H; try reflexivity; exfalso; lra]).
  1-3: unfold TextBlobAnalyzer.from_polarity; cbv zeta;
       destruct (Qlt_bool_spec 0.1 polarity) as [H1|H1];
       [|destruct (Qlt_bool_spec polarity (-0.1)) as [H2|H2]];
       match goal with
       | |- context [let '(_, _) := ?p in _] => destruct p as [[? ?] ?]
       end;
       match goal with
       | |- context [let '(_, _) := ?p in _] => destruct p as [[? ?] ?]
       end; simpl;
       (split; [intros H; try discriminate H; try split; lra
               | intros H; try reflexivity; exfalso; lra]).
  all: unfold TransformerAnalyzer._fallback_analysis; cbv zeta;
       destruct (Nat.ltb_spec
                   (TransformerAnalyzer.count_hits
                      TransformerAnalyzer.negative_words (PyStr.lower text))
                   (TransformerAnalyzer.count_hits
                      TransformerAnalyzer.positive_words (PyStr.lower text)));
       [|destruct (Nat.ltb_spec
                   (TransformerAnalyzer.count_hits
                      TransformerAnalyzer.positive_words (PyStr.lower text))
                   (TransformerAnalyzer.count_hits
                      TransformerAnalyzer.negative_words (PyStr.lower text)))];
       cbn [sentiment];
       (split; [intros H'; try discriminate H'; lia
               | intros H'; try reflexivity; exfalso; lia]).
Qed.

Lemma Qdiv_pos_iff (x t : Q) : 0 < t -> (0 < x / t <-> 0 < x).
Proof.
  intros Ht. split; intros H.
  - assert (E : x == (x / t) * t) by (field; lra).
    rewrite E. apply Qmult_lt_0_compat; assumption.
  - apply Qlt_shift_div_l; [assumption|]. lra.
Qed.

Lemma Qdiv_nonneg (x t : Q) : 0 < t -> 0 <= x -> 0 <= x / t.
Proof.
  intros Ht Hx. apply Qle_shift_div_l; [assumption|]. lra.
Qed.

Lemma Qabs_cases (x : Q) :
  (0 <= x /\ Qabs x == x) \/ (x <= 0 /\ Qabs x == - x).
Proof.
  destruct (Qlt_le_dec x 0) as [H|H].
  - right. split; [lra|]. apply Qabs_neg. lra.
  - left. split; [assumption|]. apply Qabs_pos. assumption.
Qed.

(** The scores of the TextBlob analyzer on a polarity other than zero. *)
Lemma textblob_scores_nonzero (polarity : Q) :
  -1 <= polarity -> polarity <= 1 -> ~ polarity == 0 ->
  let total := 1 + (1 - Qabs polarity) * 0.5 in
  let s := scores (TextBlobAnalyzer.from_polarity polarity) in
  positive s == ((polarity + 1) / 2) / total /\
  negative s == (1 - (polarity + 1) / 2) / total /\
  neutral s == ((1 - Qabs polarity) * 0.5) / total.
Proof.
  intros Hlo Hhi Hnz. cbv zeta.
  unfold TextBlobAnalyzer.from_polarity. cbv zeta.
  destruct (Qabs_cases polarity) as [[Hs Ha]|[Hs Ha]];
    set (a := Qabs polarity) in *.
  all: assert (Ha1 : a <= 1) by lra.
  all: destruct (Qlt_bool_spec 0 polarity) as [Hp|Hp];
    [|destruct (Qlt_bool_spec polarity 0) as [Hn|Hn];
      [|exfalso; apply Hnz; lra]].
  all: match goal with
       | |- context [if ?b then (POSITIVE, _) else _] =>
           destruct b
       end;
    try match goal with
       | |- context [if ?b then (NEGATIVE, _) else _] =>
           destruct b
       end.
  all: match goal with
       | |- context [Qlt_bool 0 ?t] =>
           destruct (Qlt_bool_spec 0 t) as [Ht|Ht]; [|exfalso; apply Ht; lra]
       end.
  all: cbn [scores positive negative neutral];
    repeat split; field; lra.
Qed.

Lemma textblob_scores_zero (polarity : Q) :
  polarity == 0 ->
  let s := scores (TextBlobAnalyzer.from_polarity polarity) in
  positive s == 0.33 /\ negative s == 0.33 /\ neutral s == 0.34.
Proof.
  intros Hz. cbv zeta.
  unfold TextBlobAnalyzer.from_polarity. cbv zeta.
  destruct (Qlt_bool_spec 0 polarity) as [Hp|Hp]; [exfalso; lra|].
  destruct (Qlt_bool_spec polarity 0) as [Hn|Hn]; [exfalso; lra|].
  match goal with
  | |- context [if ?b then (POSITIVE, _) else _] => destruct b
  end;
    try match goal with
      | |- context [if ?b then (NEGATIVE, _) else _] => destruct b
      end.
  all: match goal with
       | |- context [Qlt_bool 0 ?t] =>
           destruct (Qlt_bool_spec 0 t) as [Ht|Ht]; [|exfalso; apply Ht; lra]
       end.
  all: cbn [scores positive negative neutral];
    repeat split; field.
Qed.

(** C7 (as stated, refuted): at polarity 1 the neutral component of the
    TextBlob analyzer is zero. *)
Lemma C7_polarity_one_leaves_no_neutral :
  ~ (forall polarity : Q,
        -1 <= polarity -> polarity <= 1 ->
        0 < neutral (scores (TextBlobAnalyzer.from_polarity polarity))).
Proof.
  intros H. specialize (H 1).
  assert (H1 : -1 <= 1) by lra. assert (H2 : 1 <= 1) by lra.
  specialize (H H1 H2). vm_compute in H. discriminate H.
Qed.

(** C7 (amended): for a polarity in [-1, 1] the neutral component of the
    TextBlob analyzer is never negative and is strictly positive exactly
    when the polarity lies strictly between -1 and 1; for a polarity other
    than zero it is (1 - |polarity|) * 0.5 divided by the total
    1 + (1 - |polarity|) * 0.5, and for polarity zero it is 0.34.  At
    polarity 1 and -1 it is zero. *)
Theorem C7_textblob_neutral_component (polarity : Q) :
  -1 <= polarity -> polarity <= 1 ->
  let neu := neutral (scores (TextBlobAnalyzer.from_polarity polarity)) in
  0 <= neu /\
  (0 < neu <-> -1 < polarity /\ polarity < 1) /\
  (~ polarity == 0 ->
   neu == ((1 - Qabs polarity) * 0.5) / (1 + (1 - Qabs polarity) * 0.5)) /\
  (polarity == 0 -> neu == 0.34).
Proof.
  intros Hlo Hhi. cbv zeta.
  destruct (Qeq_dec polarity 0) as [Hz|Hnz].
  - destruct (textblob_scores_zero polarity Hz) as (_ & _ & Hneu).
    rewrite Hneu. repeat split; lra.
  - destruct (textblob_scores_nonzero polarity Hlo Hhi Hnz) as (_ & _ & Hneu).
    cbv zeta in Hneu. rewrite Hneu.
    destruct (Qabs_cases polarity) as [[Hs Ha]|[Hs Ha]];
      set (a := Qabs polarity) in *.
    all: assert (Ht : 0 < 1 + (1 - a) * 0.5) by lra.
    all: split; [apply Qdiv_nonneg; lra|].
    all: split; [rewrite (Qdiv_pos_iff _ _ Ht); split; intros; try split; lra|].
    all: split; [reflexivity|intros H; exfalso; apply Hnz, H].
Qed.

Lemma C7_textblob_neutral_component_witness :
  0 <= neutral (scores (TextBlobAnalyzer.from_polarity 0.5)) /\
  neutral (scores (TextBlobAnalyzer.from_polarity 0.5)) == 0.2.
Proof.
  assert (Hlo : -1 <= 0.5) by lra.
  assert (Hhi : 0.5 <= 1) by lra.
  destruct (C7_textblob_neutral_component 0.5 Hlo Hhi) as (H0 & _ & Hneu & _).
  split; [exact H0|].
  rewrite Hneu; [reflexivity | intros H; vm_compute in H; discriminate H].
Defined.

Lemma textblob_sum (polarity : Q) :
  -1 <= polarity -> polarity <= 1 ->
  sum_values (scores (TextBlobAnalyzer.from_polarity polarity)) == 1.
Proof.
  intros Hlo Hhi. rewrite sum_values_eq.
  destruct (Qeq_dec polarity 0) as [Hz|Hnz].
  - destruct (textblob_scores_zero polarity Hz) as (Hp & Hn & Hu).
    rewrite Hp, Hn, Hu. reflexivity.
  - destruct (textblob_scores_nonzero polarity Hlo Hhi Hnz) as (Hp & Hn & Hu).
    cbv zeta in Hp, Hn, Hu. rewrite Hp, Hn, Hu.
    destruct (Qabs_cases polarity) as [[Hs Ha]|[Hs Ha]];
      set (a := Qabs polarity) in *; field; lra.
Qed.

Lemma fallback_sum (text : string) :
  sum_values (scores (TransformerAnalyzer._fallback_analysis text)) == 1.
Proof.
  rewrite sum_values_eq. unfold TransformerAnalyzer._fallback_analysis.
  cbv zeta.
  match goal with
  | |- context [if ?b then (POSITIVE, _) else _] => destruct b
  end;
    try match goal with
      | |- context [if ?b then (NEGATIVE, _) else _] => destruct b
      end.
  all: cbn [scores positive negative neutral]; ring.
Qed.

Lemma about_one_iff (x : Q) :
  about_one x <-> 1 - 0.000001 <= x /\ x <= 1 + 0.000001.
Proof.
  unfold about_one. rewrite Qabs_Qle_condition.
  split; intros [H1 H2]; split; lra.
Qed.

Lemma about_one_of_eq (x : Q) : x == 1 -> about_one x.
Proof. intros H. apply about_one_iff. split; lra. Qed.

Lemma parse_results_sum (results : list (string * Q)) :
  about_one (sum_values (TransformerAnalyzer.assign_labels results)) ->
  about_one (sum_values (TransformerAnalyzer._parse_results results)).
Proof.
  unfold TransformerAnalyzer._parse_results. cbv zeta.
  set (s := TransformerAnalyzer.assign_labels results).
  rewrite !about_one_iff, sum_values_eq. intros Hs.
  destruct (Qeq_bool (neutral s) 0.0) eqn:E.
  - apply Qeq_bool_iff in E.
    destruct (Qlt_bool_spec 0 (positive s + negative s)) as [Ht|Ht].
    + rewrite sum_values_eq. cbn [positive negative neutral]. lra.
    + exfalso. apply Ht. lra.
  - rewrite sum_values_eq. exact Hs.
Qed.

Lemma combine_eq (weight_of : string -> Q)
      (analyzers : list (string * Analyzer)) (text : string) :
  combine weight_of analyzers text =
  finish (fst (run_analyzers weight_of analyzers text [] (mkScores 0.0 0.0 0.0)))
         (accumulated weight_of analyzers text).
Proof.
  unfold combine, accumulated.
  destruct (run_analyzers weight_of analyzers text [] (mkScores 0.0 0.0 0.0)).
  reflexivity.
Qed.

(** Once the accumulated total is positive, the normalized scores sum
    to one. *)
Lemma finish_sum (individual : list (string * AnalyzerResult))
      (combined_scores : Scores) :
  0 < sum_values combined_scores ->
  sum_values (e_scores (finish individual combined_scores)) == 1.
Proof.
  intros Ht. unfold finish. cbv zeta.
  destruct (Qlt_bool_spec 0 (sum_values combined_scores)) as [_|Hn];
    [|contradiction].
  cbn [e_scores]. rewrite sum_values_eq. unfold map_values.
  cbn [positive negative neutral].
  set (t := sum_values combined_scores) in *.
  assert (E : positive combined_scores + negative combined_scores
              + neutral combined_scores == t)
    by (subst t; symmetry; apply sum_values_eq).
  assert (Hnz : ~ t == 0) by lra.
  setoid_replace (positive combined_scores / t + negative combined_scores / t
                  + neutral combined_scores / t)
    with ((positive combined_scores + negative combined_scores
           + neutral combined_scores) / t) by (field; exact Hnz).
  rewrite E. field. exact Hnz.
Qed.

(** C2 (as stated, refuted): an ensemble whose only analyzer (TextBlob) has
    weight 0 returns, although that analyzer succeeded, the scores
    0, 0, 0, whose sum is not within 1e-6 of 1. *)
Lemma C2_zero_weight_ensemble_sums_to_zero :
  exists r,
    EnsembleAnalyzer.analyze
      (EnsembleAnalyzer.init Sample.healthy false true false 0.4 0.0 0.3)
      "It arrived on Tuesday." = Ok r /\
    List.length (individual_results r) = 1%nat /\
    sum_values (e_scores r) == 0 /\
    ~ Qabs (sum_values (e_scores r) - 1) <= 0.000001.
Proof.
  eexists. split; [vm_compute; reflexivity|].
  split; [reflexivity|]. split; [reflexivity|].
  intros H. vm_compute in H. apply H. reflexivity.
Qed.

(** C2 (amended): within 1e-6, the scores of the TextBlob analyzer
    (polarity in [-1, 1]) and of the transformer's keyword fallback sum to
    1.0; so do the scores of the VADER analyzer when the library's own pos,
    neg and neu do, and the transformer's parsed scores when the scores the
    model assigned do; and so do the ensemble's combined scores whenever the
    total accumulated by the loop is strictly positive. *)
Theorem C2_scores_sum_to_one (vs : VaderScores) (polarity : Q)
        (text : string) (results : list (string * Q))
        (weight_of : string -> Q) (analyzers : list (string * Analyzer)) :
  about_one (pos vs + neg vs + neu vs) ->
  -1 <= polarity -> polarity <= 1 ->
  about_one (sum_values (TransformerAnalyzer.assign_labels results)) ->
  0 < sum_values (accumulated weight_of analyzers text) ->
  about_one (sum_values (scores (VaderAnalyzer.from_scores vs))) /\
  about_one (sum_values (scores (TextBlobAnalyzer.from_polarity polarity))) /\
  about_one
    (sum_values (scores (TransformerAnalyzer._fallback_analysis text))) /\
  about_one (sum_values (TransformerAnalyzer._parse_results results)) /\
  about_one (sum_values (e_scores (combine weight_of analyzers text))).
Proof.
  intros Hvader Hlo Hhi Hassigned Htotal.
  split; [|split; [|split; [|split]]].
  - apply about_one_iff in Hvader. apply about_one_iff.
    rewrite sum_values_eq. unfold VaderAnalyzer.from_scores.
    by_comparisons; cbn [scores positive negative neutral]; lra.
  - apply about_one_of_eq, textblob_sum; assumption.
  - apply about_one_of_eq, fallback_sum.
  - apply parse_results_sum; assumption.
  - apply about_one_of_eq. rewrite combine_eq. apply finish_sum. assumption.
Qed.

Lemma C2_scores_sum_to_one_witness :
  about_one (sum_values (scores (TextBlobAnalyzer.from_polarity 0.625))) /\
  about_one
    (sum_values
       (TransformerAnalyzer._parse_results
          [("NEGATIVE", 0.25); ("POSITIVE", 0.75)])) /\
  about_one
    (sum_values
       (e_scores
          (combine SentimentAnalyzer._get_analyzer_weight
             (SentimentAnalyzer.analyzers
                (SentimentAnalyzer.init Sample.model_loaded "ensemble" true))
             "I love this!"))).
Proof.
  assert (Hvader : about_one (pos (mkVader 0.0 0.192 0.808 0.6696)
                              + neg (mkVader 0.0 0.192 0.808 0.6696)
                              + neu (mkVader 0.0 0.192 0.808 0.6696)))
    by (intros H; vm_compute in H; discriminate H).
  assert (Hlo : -1 <= 0.625) by lra.
  assert (Hhi : 0.625 <= 1) by lra.
  assert (Hassigned :
            about_one
              (sum_values
                 (TransformerAnalyzer.assign_labels
                    [("NEGATIVE", 0.25); ("POSITIVE", 0.75)])))
    by (intros H; vm_compute in H; discriminate H).
  assert (Htotal :
            0 < sum_values
                  (accumulated SentimentAnalyzer._get_analyzer_weight
                     (SentimentAnalyzer.analyzers
                        (SentimentAnalyzer.init Sample.model_loaded
                           "ensemble" true))
                     "I love this!"))
    by (vm_compute; reflexivity).
  destruct (C2_scores_sum_to_one
              (mkVader 0.0 0.192 0.808 0.6696) 0.625 "I love this!"
              [("NEGATIVE", 0.25); ("POSITIVE", 0.75)]
              SentimentAnalyzer._get_analyzer_weight
              (SentimentAnalyzer.analyzers
                 (SentimentAnalyzer.init Sample.model_loaded "ensemble" true))
              Hvader Hlo Hhi Hassigned Htotal) as (_ & Htb & _ & Hp & Hens).
  split; [|split]; assumption.
Defined.

(** ** The ensemble *)

Lemma run_analyzers_all_raise (weight_of : string -> Q)
      (analyzers : list (string * Analyzer)) (text : string) :
  all_raise analyzers text ->
  forall individual combined_scores,
    run_analyzers weight_of analyzers text individual combined_scores
    = (individual, combined_scores).
Proof.
  induction 1 as [|[name analyzer] rest [e He] _ IH]; intros; simpl.
  - reflexivity.
  - simpl in He. rewrite He. apply IH.
Qed.

Lemma combine_all_raise (weight_of : string -> Q)
      (analyzers : list (string * Analyzer)) (text : string) :
  all_raise analyzers text ->
  combine weight_of analyzers text = nothing_combined.
Proof.
  intros H. unfold combine.
  rewrite (run_analyzers_all_raise weight_of analyzers text H).
  reflexivity.
Qed.

(** C1 (as stated, refuted): with VADER and TextBlob configured and both
    raising, [EnsembleAnalyzer.analyze] does not fail; it returns the label
    positive with confidence 0.0. *)
Lemma C1_all_adapters_raise_yet_success :
  let ens := EnsembleAnalyzer.init Sample.failing true true false 0.4 0.3 0.3 in
  List.length (EnsembleAnalyzer.analyzers ens) = 2%nat /\
  all_raise (EnsembleAnalyzer.analyzers ens) "I love this!" /\
  EnsembleAnalyzer.analyze ens "I love this!"
  = Ok (mkEnsemble POSITIVE 0.0 (mkScores 0.0 0.0 0.0) []) /\
  ~ (exists e, EnsembleAnalyzer.analyze ens "I love this!" = Raise e).
Proof.
  cbv zeta. split; [reflexivity|]. split.
  - repeat constructor; eexists; vm_compute; reflexivity.
  - split; [vm_compute; reflexivity|].
    intros [e He]. vm_compute in He. discriminate He.
Qed.

(** C1 (amended): when every configured adapter raises, the ensemble does
    not fail: both [EnsembleAnalyzer.analyze] (with at least one analyzer
    configured) and [SentimentAnalyzer._ensemble_analyze] return a result
    with label positive, confidence 0.0, the scores 0, 0, 0 and no
    individual results.  Only [EnsembleAnalyzer.analyze] with no analyzer
    configured raises, a ValueError. *)
Theorem C1_all_adapters_raise (ens : EnsembleAnalyzer.t)
        (sa : SentimentAnalyzer.t) (text : string) :
  all_raise (EnsembleAnalyzer.analyzers ens) text ->
  all_raise (SentimentAnalyzer.analyzers sa) text ->
  EnsembleAnalyzer.analyze ens text
  = match EnsembleAnalyzer.analyzers ens with
    | [] => Raise (ValueError "No analyzers configured")
    | _ => Ok (mkEnsemble POSITIVE 0.0 (mkScores 0.0 0.0 0.0) [])
    end /\
  SentimentAnalyzer._ensemble_analyze sa text
  = mkEnsemble POSITIVE 0.0 (mkScores 0.0 0.0 0.0) [].
Proof.
  intros Hens Hsa. split.
  - unfold EnsembleAnalyzer.analyze.
    rewrite (combine_all_raise _ _ _ Hens).
    destruct (EnsembleAnalyzer.analyzers ens); reflexivity.
  - unfold SentimentAnalyzer._ensemble_analyze.
    apply combine_all_raise. assumption.
Qed.

Lemma C1_all_adapters_raise_witness :
  EnsembleAnalyzer.analyze
    (EnsembleAnalyzer.init Sample.failing true true false 0.4 0.3 0.3)
    "I love this!"
  = Ok (mkEnsemble POSITIVE 0.0 (mkScores 0.0 0.0 0.0) []) /\
  SentimentAnalyzer._ensemble_analyze
    (SentimentAnalyzer.mk "ensemble" false None
       [("vader", VaderAnalyzer.analyze Sample.failing);
        ("textblob", TextBlobAnalyzer.analyze Sample.failing)])
    "I love this!"
  = mkEnsemble POSITIVE 0.0 (mkScores 0.0 0.0 0.0) [].
Proof.
  apply (C1_all_adapters_raise
           (EnsembleAnalyzer.init Sample.failing true true false 0.4 0.3 0.3)
           (SentimentAnalyzer.mk "ensemble" false None
              [("vader", VaderAnalyzer.analyze Sample.failing);
               ("textblob", TextBlobAnalyzer.analyze Sample.failing)])
           "I love this!").
  - repeat constructor; eexists; vm_compute; reflexivity.
  - repeat constructor; eexists; vm_compute; reflexivity.
Defined.

Lemma max_key_first_argmax (d : Scores) : first_argmax d (max_key d).
Proof.
  unfold first_argmax, max_key, max_from. cbn [snd fst].
  destruct (Qlt_bool_spec (positive d) (negative d)) as [H1|H1];
    cbn [snd fst].
  - destruct (Qlt_bool_spec (negative d) (neutral d)) as [H2|H2];
      cbn [fst]; split; intros [] ; cbn [get rank]; intros; try lra; try lia.
  - destruct (Qlt_bool_spec (positive d) (neutral d)) as [H2|H2];
      cbn [fst]; split; intros [] ; cbn [get rank]; intros; try lra; try lia.
Qed.

Lemma finish_label (individual : list (string * AnalyzerResult))
      (combined_scores : Scores) :
  let r := finish individual combined_scores in
  e_sentiment r = max_key (e_scores r) /\
  e_confidence r = get (e_scores r) (e_sentiment r).
Proof. split; reflexivity. Qed.

(** C8: in both ensembles the combined scores are the scores accumulated
    by the loop, each weighted by its analyzer's weight, divided by their
    total when that total is positive and left as they are otherwise; the
    final label is the argmax of these combined scores, among equal
    greatest values the first in the order positive, negative, neutral;
    and the confidence is the combined score at that label. *)
Theorem C8_final_label_is_first_argmax (ens : EnsembleAnalyzer.t)
        (sa : SentimentAnalyzer.t) (text : string) :
  match EnsembleAnalyzer.analyze ens text with
  | Ok r =>
      let combined_scores :=
        accumulated (EnsembleAnalyzer.weight_of ens)
          (EnsembleAnalyzer.analyzers ens) text in
      let total := sum_values combined_scores in
      e_scores r = (if Qlt_bool 0 total
                    then map_values (fun v => v / total) combined_scores
                    else combined_scores) /\
      e_sentiment r = max_key (e_scores r) /\
      first_argmax (e_scores r) (e_sentiment r) /\
      e_confidence r = get (e_scores r) (e_sentiment r)
  | Raise _ => EnsembleAnalyzer.analyzers ens = []
  end /\
  let r := SentimentAnalyzer._ensemble_analyze sa text in
  let combined_scores :=
    accumulated SentimentAnalyzer._get_analyzer_weight
      (SentimentAnalyzer.analyzers sa) text in
  let total := sum_values combined_scores in
  e_scores r = (if Qlt_bool 0 total
                then map_values (fun v => v / total) combined_scores
                else combined_scores) /\
  e_sentiment r = max_key (e_scores r) /\
  first_argmax (e_scores r) (e_sentiment r) /\
  e_confidence r = get (e_scores r) (e_sentiment r).
Proof.
  assert (G : forall weight_of analyzers,
             let r := combine weight_of analyzers text in
             let combined_scores := accumulated weight_of analyzers text in
             let total := sum_values combined_scores in
             e_scores r = (if Qlt_bool 0 total
                           then map_values (fun v => v / total) combined_scores
                           else combined_scores) /\
             e_sentiment r = max_key (e_scores r) /\
             first_argmax (e_scores r) (e_sentiment r) /\
             e_confidence r = get (e_scores r) (e_sentiment r)).
  { intros weight_of analyzers. cbv zeta. rewrite combine_eq.
    split; [reflexivity|].
    set (r := finish _ _).
    destruct (finish_label
                (fst (run_analyzers weight_of analyzers text []
                        (mkScores 0.0 0.0 0.0)))
                (accumulated weight_of analyzers text)) as [Hl Hc].
    fold r in Hl, Hc. split; [exact Hl|]. split; [|exact Hc].
    rewrite Hl. apply max_key_first_argmax. }
  split.
  - unfold EnsembleAnalyzer.analyze.
    destruct (EnsembleAnalyzer.analyzers ens) eqn:E; [reflexivity|].
    rewrite <- E. apply G.
  - apply G.
Qed.

(** ** The transformer analyzer *)

Lemma slice_to_length (n : nat) (s : string) :
  String.length (PyStr.slice_to n s) = Nat.min n (String.length s).
Proof.
  unfold PyStr.slice_to. revert n.
  induction s as [|c s IH]; intros [|n]; simpl; try reflexivity.
  rewrite IH. reflexivity.
Qed.

Lemma slice_to_prefix (n : nat) (s : string) :
  prefix (PyStr.slice_to n s) s = true.
Proof.
  unfold PyStr.slice_to. revert n.
  induction s as [|c s IH]; intros [|n]; simpl; try reflexivity.
  destruct (ascii_dec c c) as [_|Hc]; [apply IH|contradiction].
Qed.

Lemma prefix_refl (s : string) : prefix s s = true.
Proof.
  induction s as [|c s IH]; simpl; [reflexivity|].
  destruct (ascii_dec c c) as [_|Hc]; [exact IH|contradiction].
Qed.

Lemma truncate_spec (text : string) :
  (String.length (TransformerAnalyzer.truncate text) <= 512)%nat /\
  prefix (TransformerAnalyzer.truncate text) text = true /\
  ((String.length text <= 512)%nat ->
   TransformerAnalyzer.truncate text = text) /\
  ((512 < String.length text)%nat ->
   String.length (TransformerAnalyzer.truncate text) = 512%nat).
Proof.
  unfold TransformerAnalyzer.truncate, TransformerAnalyzer.max_length.
  destruct (Nat.ltb_spec 512 (String.length text)) as [H|H].
  - rewrite slice_to_length. repeat split; try lia. apply slice_to_prefix.
  - repeat split; try lia. apply prefix_refl.
Qed.

(** C4: the transformer analyzer always returns a result.  Without a loaded
    model it returns the keyword fallback on the text.  With a loaded
    model the text is first cut to its first 512 characters (never
    rejected), the model sees only that text, and when the model call, the
    indexing of its output or the parsing raises, the analyzer returns the
    keyword fallback on the cut text. *)
Theorem C4_transformer_never_raises (env : Libraries) (text : string) :
  (exists r, TransformerAnalyzer.analyze env text = Ok r) /\
  (pipeline env = None ->
   TransformerAnalyzer.analyze env text
   = Ok (TransformerAnalyzer._fallback_analysis text)) /\
  (forall pipe, pipeline env = Some pipe ->
     (forall e, pipe (TransformerAnalyzer.truncate text) = Raise e ->
        TransformerAnalyzer.analyze env text
        = Ok (TransformerAnalyzer._fallback_analysis
                (TransformerAnalyzer.truncate text))) /\
     (forall e,
        TransformerAnalyzer.infer pipe (TransformerAnalyzer.truncate text)
        = Raise e ->
        TransformerAnalyzer.analyze env text
        = Ok (TransformerAnalyzer._fallback_analysis
                (TransformerAnalyzer.truncate text))) /\
     (forall r,
        TransformerAnalyzer.infer pipe (TransformerAnalyzer.truncate text)
        = Ok r ->
        TransformerAnalyzer.analyze env text = Ok r)) /\
  (forall pipe pipe',
     pipe (TransformerAnalyzer.truncate text)
     = pipe' (TransformerAnalyzer.truncate text) ->
     TransformerAnalyzer.analyze (with_pipeline env (Some pipe)) text
     = TransformerAnalyzer.analyze (with_pipeline env (Some pipe')) text) /\
  (String.length (TransformerAnalyzer.truncate text) <= 512)%nat /\
  prefix (TransformerAnalyzer.truncate text) text = true /\
  ((String.length text <= 512)%nat ->
   TransformerAnalyzer.truncate text = text).
Proof.
  split; [|split; [|split; [|split]]].
  - unfold TransformerAnalyzer.analyze.
    destruct (pipeline env) as [pipe|]; [|eexists; reflexivity].
    destruct (TransformerAnalyzer.infer pipe _); eexists; reflexivity.
  - intros H. unfold TransformerAnalyzer.analyze. rewrite H. reflexivity.
  - intros pipe H. unfold TransformerAnalyzer.analyze. rewrite H.
    repeat split.
    + intros e He. unfold TransformerAnalyzer.infer. rewrite He. reflexivity.
    + intros e He. rewrite He. reflexivity.
    + intros r Hr. rewrite Hr. reflexivity.
  - intros pipe pipe' H. unfold TransformerAnalyzer.analyze. simpl.
    unfold TransformerAnalyzer.infer. rewrite H. reflexivity.
  - destruct (truncate_spec text) as (H1 & H2 & H3 & _). auto.
Qed.

Lemma C4_transformer_never_raises_witness :
  TransformerAnalyzer.analyze Sample.model_raises Sample.long_text
  = Ok (TransformerAnalyzer._fallback_analysis
          (TransformerAnalyzer.truncate Sample.long_text)) /\
  String.length Sample.long_text = 650%nat /\
  String.length (TransformerAnalyzer.truncate Sample.long_text) = 512%nat.
Proof.
  destruct (C4_transformer_never_raises Sample.model_raises Sample.long_text)
    as (_ & _ & H & _).
  destruct (H Sample.broken eq_refl) as (Hraise & _).
  split; [apply (Hraise (LibraryError "unavailable")); reflexivity|].
  split; vm_compute; reflexivity.
Defined.

(** ** Single texts and batches *)

Lemma analyze_keeps_text (env : Libraries) (sa : SentimentAnalyzer.t)
      (text : string) (clock : nat) (r : SentimentResult) :
  fst (SentimentAnalyzer.analyze env sa text clock) = Ok r ->
  r_text r = text /\ r_method r = SentimentAnalyzer.method sa.
Proof.
  unfold SentimentAnalyzer.analyze. cbv zeta.
  match goal with
  | |- context [match ?res with Ok _ => _ | Raise _ => _ end] =>
      destruct res as [result|e]
  end; cbn [fst]; intros H; [|discriminate H].
  injection H as <-. split; reflexivity.
Qed.

(** C9 (as stated, refuted): the result of analyzing "GOOD Movie" with the
    default ensemble carries the raw text and the method name; neither of
    its two string fields holds the normalized text "good movie" that was
    classified. *)
Lemma C9_result_lacks_normalized_text :
  let sa := SentimentAnalyzer.init Sample.healthy "ensemble" true in
  exists r,
    fst (SentimentAnalyzer.analyze Sample.healthy sa "GOOD Movie" 0) = Ok r /\
    SentimentAnalyzer.processed Sample.healthy sa "GOOD Movie" = "good movie" /\
    string_fields r = ["GOOD Movie"; "ensemble"] /\
    ~ In (SentimentAnalyzer.processed Sample.healthy sa "GOOD Movie")
         (string_fields r).
Proof.
  cbv zeta. eexists. split; [vm_compute; reflexivity|].
  split; [vm_compute; reflexivity|]. split; [reflexivity|].
  intros H. vm_compute in H.
  destruct H as [H|[H|[]]]; discriminate H.
Qed.

(** C9 (amended): every result returned by a single-text analyze call
    carries the original input text in its field [text] and the method name
    in its field [method]; the normalized text that was classified is not
    part of the result, whose fields are text, sentiment, confidence,
    scores, method and processing_time. *)
Theorem C9_result_keeps_original_text (env : Libraries)
        (sa : SentimentAnalyzer.t) (text : string) (clock : nat)
        (r : SentimentResult) :
  fst (SentimentAnalyzer.analyze env sa text clock) = Ok r ->
  r_text r = text /\
  r_method r = SentimentAnalyzer.method sa /\
  string_fields r = [text; SentimentAnalyzer.method sa].
Proof.
  intros H. destruct (analyze_keeps_text env sa text clock r H) as [Ht Hm].
  unfold string_fields. rewrite Ht, Hm. repeat split.
Qed.

Lemma C9_result_keeps_original_text_witness :
  exists r,
    fst (SentimentAnalyzer.analyze Sample.healthy
           (SentimentAnalyzer.init Sample.healthy "ensemble" true)
           "GOOD Movie" 0) = Ok r /\
    r_text r = "GOOD Movie".
Proof.
  eexists. split; [vm_compute; reflexivity|].
  eapply (C9_result_keeps_original_text Sample.healthy
            (SentimentAnalyzer.init Sample.healthy "ensemble" true)
            "GOOD Movie" 0).
  vm_compute. reflexivity.
Defined.

Lemma analyze_batch_cons (env : Libraries) (sa : SentimentAnalyzer.t)
      (text : string) (rest : list string) (clock : nat) :
  fst (SentimentAnalyzer.analyze_batch env sa (text :: rest) clock)
  = batch_entry sa text (fst (SentimentAnalyzer.analyze env sa text clock))
    :: fst (SentimentAnalyzer.analyze_batch env sa rest
              (snd (SentimentAnalyzer.analyze env sa text clock))).
Proof.
  simpl. destruct (SentimentAnalyzer.analyze env sa text clock) as [outcome c].
  cbn [fst snd].
  destruct (SentimentAnalyzer.analyze_batch env sa rest c) as [results c'].
  reflexivity.
Qed.

Lemma batch_entry_text (env : Libraries) (sa : SentimentAnalyzer.t)
      (text : string) (clock : nat) :
  r_text (batch_entry sa text
            (fst (SentimentAnalyzer.analyze env sa text clock))) = text.
Proof.
  destruct (fst (SentimentAnalyzer.analyze env sa text clock)) as [r|e] eqn:E.
  - apply (analyze_keeps_text env sa text clock r E).
  - reflexivity.
Qed.

Lemma analyze_batch_entries (env : Libraries) (sa : SentimentAnalyzer.t)
      (texts : list string) :
  forall clock,
    Forall2
      (fun text r =>
         exists c,
           r = batch_entry sa text
                 (fst (SentimentAnalyzer.analyze env sa text c)))
      texts (fst (SentimentAnalyzer.analyze_batch env sa texts clock)).
Proof.
  induction texts as [|text rest IH]; intros clock.
  - constructor.
  - rewrite analyze_batch_cons. constructor.
    + exists clock. reflexivity.
    + apply IH.
Qed.

Lemma analyze_batch_texts (env : Libraries) (sa : SentimentAnalyzer.t)
      (texts : list string) :
  forall clock,
    map r_text (fst (SentimentAnalyzer.analyze_batch env sa texts clock))
    = texts.
Proof.
  induction texts as [|text rest IH]; intros clock.
  - reflexivity.
  - rewrite analyze_batch_cons. simpl. rewrite batch_entry_text, IH.
    reflexivity.
Qed.

Lemma analyze_batch_length (env : Libraries) (sa : SentimentAnalyzer.t)
      (texts : list string) (clock : nat) :
  List.length (fst (SentimentAnalyzer.analyze_batch env sa texts clock))
  = List.length texts.
Proof.
  rewrite <- (analyze_batch_texts env sa texts clock) at 2.
  symmetry. apply length_map.
Qed.

(** C5 (as stated, refuted): for the empty batch the statistics are the
    empty dict, which holds no count; no count equal to the input length 0
    is returned. *)
Lemma C5_empty_batch_has_no_count :
  let sa := SentimentAnalyzer.init Sample.healthy "ensemble" true in
  let results := fst (SentimentAnalyzer.analyze_batch Sample.healthy sa [] 0) in
  results = [] /\
  SentimentAnalyzer.get_statistics results = None /\
  ~ (exists stats,
        SentimentAnalyzer.get_statistics results = Some stats /\
        total_analyzed stats = List.length (@nil string)).
Proof.
  cbv zeta. split; [reflexivity|]. split; [reflexivity|].
  intros [stats [H _]]. discriminate H.
Qed.

(** C5 (amended): batch analysis returns exactly one result per input text,
    in input order; the result of an item is that of its single-text
    analysis, or, when that raises, a stand-in with the item's text, label
    neutral, confidence 0.0 and scores 0, 0, 1.  For a batch that is not
    empty the statistics count, and the denominator of each fraction of the
    label distribution, is the full input length, stand-ins included.  For
    the empty batch the statistics are the empty dict, without a count. *)
Theorem C5_batch_keeps_every_item (env : Libraries)
        (sa : SentimentAnalyzer.t) (texts : list string) (clock : nat) :
  let results := fst (SentimentAnalyzer.analyze_batch env sa texts clock) in
  let sentiments := map r_sentiment results in
  let n := Q_of_nat (List.length texts) in
  List.length results = List.length texts /\
  map r_text results = texts /\
  Forall2
    (fun text r =>
       exists c,
         match fst (SentimentAnalyzer.analyze env sa text c) with
         | Ok result => r = result
         | Raise _ =>
             r = mkSentimentResult text NEUTRAL 0.0 (mkScores 0.0 0.0 1.0)
                   (SentimentAnalyzer.method sa) 0.0
         end)
    texts results /\
  (texts <> [] ->
   exists stats,
     SentimentAnalyzer.get_statistics results = Some stats /\
     total_analyzed stats = List.length texts /\
     sentiment_distribution stats
     = mkScores
         (Q_of_nat (SentimentAnalyzer.count POSITIVE sentiments) / n)
         (Q_of_nat (SentimentAnalyzer.count NEGATIVE sentiments) / n)
         (Q_of_nat (SentimentAnalyzer.count NEUTRAL sentiments) / n)) /\
  (texts = [] -> SentimentAnalyzer.get_statistics results = None).
Proof.
  cbv zeta.
  pose proof (analyze_batch_length env sa texts clock) as Hlen.
  split; [exact Hlen|]. split; [apply analyze_batch_texts|]. split.
  - eapply Forall2_impl; [|apply analyze_batch_entries].
    intros text r [c Hc]. exists c. rewrite Hc.
    destruct (fst (SentimentAnalyzer.analyze env sa text c)); reflexivity.
  - split.
    + intros Hne.
      destruct (fst (SentimentAnalyzer.analyze_batch env sa texts clock))
        as [|r results] eqn:E.
      * destruct texts; [contradiction|discriminate Hlen].
      * eexists. split; [reflexivity|].
        cbn [total_analyzed sentiment_distribution].
        rewrite length_map, Hlen. split; reflexivity.
    + intros ->. reflexivity.
Qed.

Lemma C5_batch_keeps_every_item_witness :
  let sa := SentimentAnalyzer.init Sample.quirky "vader" true in
  let results :=
    fst (SentimentAnalyzer.analyze_batch Sample.quirky sa Sample.batch 0) in
  (exists e, fst (SentimentAnalyzer.analyze Sample.quirky sa "" 2) = Raise e) /\
  map r_sentiment results = [POSITIVE; NEUTRAL; NEGATIVE] /\
  map r_confidence results = [0.808; 0.0; 0.804] /\
  exists stats,
    SentimentAnalyzer.get_statistics results = Some stats /\
    total_analyzed stats = 3%nat.
Proof.
  cbv zeta.
  split; [eexists; vm_compute; reflexivity|].
  split; [vm_compute; reflexivity|].
  split; [vm_compute; reflexivity|].
  destruct (C5_batch_keeps_every_item Sample.quirky
              (SentimentAnalyzer.init Sample.quirky "vader" true)
              Sample.batch 0) as (_ & _ & _ & Hstats & _).
  destruct Hstats as [stats [Hs [Hn _]]]; [discriminate|].
  exists stats. split; [exact Hs|exact Hn].
Defined.

(** ** The preprocessor *)

Lemma lower_char_idempotent (c : ascii) :
  PyStr.lower_char (PyStr.lower_char c) = PyStr.lower_char c.
Proof. destruct c as [[] [] [] [] [] [] [] []]; reflexivity. Qed.

Lemma lower_is_fixed (s : string) : all_chars lower_fixed (PyStr.lower s) = true.
Proof.
  induction s as [|c s IH]; simpl; [reflexivity|].
  rewrite IH, andb_true_r. unfold lower_fixed.
  rewrite lower_char_idempotent. apply Ascii.eqb_refl.
Qed.

Lemma lower_of_fixed (s : string) :
  all_chars lower_fixed s = true -> PyStr.lower s = s.
Proof.
  induction s as [|c s IH]; simpl; [reflexivity|].
  intros H. apply andb_true_iff in H as [Hc Hs].
  apply Ascii.eqb_eq in Hc. rewrite Hc, (IH Hs). reflexivity.
Qed.

Lemma lstrip_no_space (s : string) :
  starts_with_space s = false -> PyStr.lstrip s = s.
Proof. destruct s as [|c s]; simpl; [reflexivity|]. intros ->. reflexivity. Qed.

Lemma lstrip_starts (s : string) : starts_with_space (PyStr.lstrip s) = false.
Proof.
  induction s as [|c s IH]; simpl; [reflexivity|].
  destruct (PyStr.isspace c) eqn:E; [exact IH|]. simpl. exact E.
Qed.

Lemma lstrip_length (s : string) :
  (String.length (PyStr.lstrip s) <= String.length s)%nat.
Proof.
  induction s as [|c s IH]; simpl; [lia|].
  destruct (PyStr.isspace c); simpl; lia.
Qed.

(** One match of [\s+]: it takes the whole run of whitespace. *)
Lemma whitespace_loop (fuel : nat) :
  forall lo prev s,
    (String.length s < fuel)%nat -> (lo <= 1)%nat ->
    exists prev',
      Re.rep_loop (Re.rmatch (Re.Cls PyStr.isspace))
        (fun p rest => Some (p, rest)) fuel lo prev s
      = if starts_with_space s then Some (prev', PyStr.lstrip s)
        else match lo with O => Some (prev, s) | S _ => None end.
Proof.
  induction fuel as [|fuel IH]; intros lo prev s Hlen Hlo; [lia|].
  destruct s as [|c s]; cbn [Re.rep_loop Re.rmatch starts_with_space].
  - exists prev. reflexivity.
  - destruct (PyStr.isspace c) eqn:Ec.
    + assert (Hlt : (String.length s <? String.length (String c s))%nat = true)
        by (apply Nat.ltb_lt; simpl; lia).
      rewrite Hlt.
      assert (Hs : (String.length s < fuel)%nat) by (simpl in Hlen; lia).
      destruct (IH (pred lo) (Some c) s Hs ltac:(lia)) as [p' Hp'].
      cbn [Re.rmatch] in Hp'. rewrite Hp'. replace (pred lo) with 0%nat by lia.
      cbn [PyStr.lstrip]. rewrite Ec.
      destruct (starts_with_space s) eqn:Es.
      * exists p'. reflexivity.
      * exists (Some c). rewrite (lstrip_no_space s Es). reflexivity.
    + exists prev. reflexivity.
Qed.

Lemma whitespace_match (prev : option ascii) (s : string) :
  exists prev',
    Re.match_here TextPreprocessor.whitespace_pattern prev s
    = if starts_with_space s then Some (prev', PyStr.lstrip s) else None.
Proof.
  unfold Re.match_here, TextPreprocessor.whitespace_pattern.
  cbn [Re.rmatch].
  destruct (whitespace_loop (S (String.length s)) 1 prev s
              ltac:(lia) ltac:(lia)) as [p' Hp'].
  exists p'. exact Hp'.
Qed.

Lemma collapse_true_lstrip (s : string) :
  collapse true s = collapse false (PyStr.lstrip s).
Proof.
  induction s as [|c s IH]; simpl; [reflexivity|].
  destruct (PyStr.isspace c) eqn:E; [exact IH|].
  simpl. rewrite E. reflexivity.
Qed.

(** The whitespace stage of [preprocess] is the scan [collapse]. *)
Lemma sub_from_whitespace (fuel : nat) :
  forall prev s,
    (String.length s < fuel)%nat ->
    Re.sub_from fuel TextPreprocessor.whitespace_pattern " " prev s
    = collapse false s.
Proof.
  induction fuel as [|fuel IH]; intros prev s Hlen; [lia|].
  cbn [Re.sub_from].
  destruct (whitespace_match prev s) as [p' Hm]. rewrite Hm.
  destruct s as [|c s]; [reflexivity|].
  cbn [starts_with_space collapse].
  assert (Hs : (String.length s < fuel)%nat) by (simpl in Hlen; lia).
  destruct (PyStr.isspace c) eqn:Ec.
  - cbn [PyStr.lstrip]. rewrite Ec.
    pose proof (lstrip_length s) as Hl.
    assert (Hlt : (String.length (PyStr.lstrip s)
                   <? String.length (String c s))%nat = true)
      by (apply Nat.ltb_lt; simpl; lia).
    rewrite Hlt. rewrite IH by lia.
    rewrite collapse_true_lstrip. reflexivity.
  - rewrite IH by exact Hs. reflexivity.
Qed.

Lemma sub_whitespace (s : string) :
  Re.sub TextPreprocessor.whitespace_pattern " " s = collapse false s.
Proof. unfold Re.sub. apply sub_from_whitespace. lia. Qed.

Lemma collapse_single_spaced (s : string) :
  (single_spaced (collapse true s) = true
   /\ starts_with_space (collapse true s) = false)
  /\ single_spaced (collapse false s) = true.
Proof.
  induction s as [|c s [[IHt IHs] IHf]]; simpl; [auto|].
  destruct (PyStr.isspace c) eqn:E.
  - split; [split; assumption|].
    simpl. rewrite IHs, IHt. reflexivity.
  - simpl. rewrite E, IHf. auto.
Qed.

Lemma collapse_of_single_spaced (s : string) :
  single_spaced s = true -> collapse false s = s.
Proof.
  induction s as [|c s IH]; simpl; [reflexivity|].
  intros H. apply andb_true_iff in H as [Hc Hs].
  destruct (PyStr.isspace c) eqn:E.
  - apply andb_true_iff in Hc as [Hc Hn].
    apply Ascii.eqb_eq in Hc. apply negb_true_iff in Hn.
    rewrite collapse_true_lstrip, (lstrip_no_space s Hn), (IH Hs), Hc.
    reflexivity.
  - rewrite (IH Hs). reflexivity.
Qed.

Lemma collapse_all_chars (p : ascii -> bool) (s : string) :
  p " "%char = true -> all_chars p s = true ->
  forall b, all_chars p (collapse b s) = true.
Proof.
  intros Hsp. induction s as [|c s IH]; simpl; [reflexivity|].
  intros H b. apply andb_true_iff in H as [Hc Hs].
  destruct (PyStr.isspace c); [destruct b|]; simpl;
    rewrite ?Hsp, ?Hc, ?(IH Hs); reflexivity.
Qed.

Lemma lstrip_single_spaced (s : string) :
  single_spaced s = true -> single_spaced (PyStr.lstrip s) = true.
Proof.
  induction s as [|c s IH]; simpl; [reflexivity|].
  intros H. destruct (PyStr.isspace c) eqn:E.
  - apply andb_true_iff in H as [_ Hs]. apply IH, Hs.
  - simpl. rewrite E. exact H.
Qed.

Lemma lstrip_all_chars (p : ascii -> bool) (s : string) :
  all_chars p s = true -> all_chars p (PyStr.lstrip s) = true.
Proof.
  induction s as [|c s IH]; simpl; [reflexivity|].
  intros H. destruct (PyStr.isspace c).
  - apply andb_true_iff in H as [_ Hs]. apply IH, Hs.
  - exact H.
Qed.

Lemma rstrip_cons (c : ascii) (s : string) :
  PyStr.rstrip (String c s)
  = match PyStr.rstrip s with
    | EmptyString => if PyStr.isspace c then EmptyString else String c EmptyString
    | String d r => String c (String d r)
    end.
Proof. reflexivity. Qed.

Lemma rstrip_starts (s : string) :
  starts_with_space s = false -> starts_with_space (PyStr.rstrip s) = false.
Proof.
  destruct s as [|c s]; [reflexivity|]. rewrite rstrip_cons. simpl.
  intros E. destruct (PyStr.rstrip s); [rewrite E|]; simpl; auto.
Qed.

Lemma rstrip_idempotent (s : string) :
  PyStr.rstrip (PyStr.rstrip s) = PyStr.rstrip s.
Proof.
  induction s as [|c s IH]; [reflexivity|].
  rewrite rstrip_cons.
  destruct (PyStr.rstrip s) as [|d r] eqn:E.
  - destruct (PyStr.isspace c) eqn:Ec; [reflexivity|].
    rewrite rstrip_cons. simpl. rewrite Ec. reflexivity.
  - rewrite rstrip_cons, IH. reflexivity.
Qed.

Lemma rstrip_single_spaced (s : string) :
  single_spaced s = true -> single_spaced (PyStr.rstrip s) = true.
Proof.
  induction s as [|c s IH]; [reflexivity|].
  rewrite rstrip_cons. cbn [single_spaced].
  intros H. apply andb_true_iff in H as [Hc Hs].
  specialize (IH Hs).
  destruct (PyStr.rstrip s) as [|d r] eqn:E.
  - destruct (PyStr.isspace c) eqn:Ec; [reflexivity|].
    simpl. rewrite Ec. reflexivity.
  - cbn [single_spaced] in *. rewrite IH, andb_true_r.
    destruct (PyStr.isspace c) eqn:Ec; [|reflexivity].
    apply andb_true_iff in Hc as [Hc Hn]. rewrite Hc. simpl.
    apply negb_true_iff in Hn. apply rstrip_starts in Hn.
    rewrite E in Hn. simpl in Hn. rewrite Hn. reflexivity.
Qed.

Lemma rstrip_all_chars (p : ascii -> bool) (s : string) :
  all_chars p s = true -> all_chars p (PyStr.rstrip s) = true.
Proof.
  induction s as [|c s IH]; [reflexivity|].
  rewrite rstrip_cons. cbn [all_chars].
  intros H. apply andb_true_iff in H as [Hc Hs]. specialize (IH Hs).
  destruct (PyStr.rstrip s) as [|d r].
  - destruct (PyStr.isspace c); simpl; rewrite ?Hc; reflexivity.
  - cbn [all_chars] in *. rewrite Hc, IH. reflexivity.
Qed.

Lemma strip_idempotent (s : string) :
  PyStr.strip (PyStr.strip s) = PyStr.strip s.
Proof.
  unfold PyStr.strip.
  rewrite (lstrip_no_space (PyStr.rstrip (PyStr.lstrip s))).
  - apply rstrip_idempotent.
  - apply rstrip_starts, lstrip_starts.
Qed.

(** The last stage of [preprocess], after an optional case fold, leaves
    its own output unchanged. *)
Lemma tidy_fixed (fold_case : bool) (x : string) :
  let stage := fun s =>
    PyStr.strip (collapse false (if fold_case then PyStr.lower s else s)) in
  stage (stage x) = stage x.
Proof.
  cbv beta zeta.
  set (x' := if fold_case then PyStr.lower x else x).
  set (y := PyStr.strip (collapse false x')).
  assert (Hss : single_spaced y = true).
  { unfold y, PyStr.strip.
    apply rstrip_single_spaced, lstrip_single_spaced, collapse_single_spaced. }
  assert (Hy : (if fold_case then PyStr.lower y else y) = y).
  { destruct fold_case; [|reflexivity].
    apply lower_of_fixed. unfold y, PyStr.strip.
    apply rstrip_all_chars, lstrip_all_chars, collapse_all_chars;
      [reflexivity|]. apply lower_is_fixed. }
  rewrite Hy, (collapse_of_single_spaced y Hss).
  unfold y. apply strip_idempotent.
Qed.

(** C6 (as stated, refuted): with the default configuration the text
    "HTTP://X.COM" is normalized to "http://x.com" (the URL pattern is
    case-sensitive and runs before the case fold), and normalizing that
    again gives the empty string. *)
Lemma C6_case_fold_exposes_url :
  let normalize :=
    TextPreprocessor.preprocess Sample.healthy
      (TextPreprocessor.default Sample.healthy) in
  normalize "HTTP://X.COM" = "http://x.com" /\
  normalize (normalize "HTTP://X.COM") = "" /\
  normalize (normalize "HTTP://X.COM") <> normalize "HTTP://X.COM".
Proof.
  cbv zeta. split; [vm_compute; reflexivity|].
  split; [vm_compute; reflexivity|].
  vm_compute. discriminate.
Qed.

(** C6 (amended): the case-fold and whitespace stages are idempotent: for
    every string x and every configuration in which markup, URL, email and
    punctuation stripping are off and the token stages do not run,
    normalize(normalize(x)) == normalize(x).  With the stripping stages on,
    a second pass can remove text that the first pass produced. *)
Theorem C6_case_and_whitespace_idempotent (env : Libraries)
        (config : TextPreprocessor.t) (x : string) :
  TextPreprocessor.remove_html config = false ->
  TextPreprocessor.remove_urls config = false ->
  TextPreprocessor.remove_emails config = false ->
  TextPreprocessor.remove_special_chars config = false ->
  NLTK_AVAILABLE env
  && (TextPreprocessor.remove_stopwords config
      || TextPreprocessor.lemmatize config
      || TextPreprocessor.stem config) = false ->
  TextPreprocessor.preprocess env config
    (TextPreprocessor.preprocess env config x)
  = TextPreprocessor.preprocess env config x.
Proof.
  intros Hhtml Hurl Hemail Hspecial Hnltk.
  assert (E : forall s,
             TextPreprocessor.preprocess env config s
             = match s with
               | EmptyString => EmptyString
               | _ => PyStr.strip
                        (collapse false
                           (if TextPreprocessor.lowercase config
                            then PyStr.lower s else s))
               end).
  { intros s. unfold TextPreprocessor.preprocess.
    rewrite Hhtml, Hurl, Hemail, Hspecial, Hnltk.
    destruct s; [reflexivity|]. rewrite sub_whitespace. reflexivity. }
  rewrite !E. destruct x as [|c x]; [reflexivity|].
  pose proof (tidy_fixed (TextPreprocessor.lowercase config) (String c x))
    as H. cbv beta zeta in H.
  set (y := PyStr.strip
              (collapse false
                 (if TextPreprocessor.lowercase config
                  then PyStr.lower (String c x) else String c x))) in *.
  clearbody y. destruct y; [reflexivity|exact H].
Qed.

Lemma C6_case_and_whitespace_idempotent_witness :
  let normalize :=
    TextPreprocessor.preprocess Sample.healthy Sample.case_and_whitespace in
  normalize "  Great   MOVIE " = "great movie" /\
  normalize (normalize "  Great   MOVIE ") = normalize "  Great   MOVIE ".
Proof.
  cbv zeta. split; [vm_compute; reflexivity|].
  apply (C6_case_and_whitespace_idempotent Sample.healthy
           Sample.case_and_whitespace "  Great   MOVIE ");
    reflexivity.
Defined.


(** * Further properties of the code *)

(** ** The preprocessor: what every output looks like *)

Lemma all_chars_lower (p : ascii -> bool) (s : string) :
  (forall c, implb (p c) (p (PyStr.lower_char c)) = true) ->
  all_chars p s = true -> all_chars p (PyStr.lower s) = true.
Proof.
  intros Hp. induction s as [|c s IH]; simpl; [reflexivity|].
  intros H. apply andb_true_iff in H as [Hc Hs].
  specialize (Hp c). rewrite Hc in Hp. simpl in Hp.
  rewrite Hp, (IH Hs). reflexivity.
Qed.

Lemma all_chars_strip (p : ascii -> bool) (s : string) :
  all_chars p s = true -> all_chars p (PyStr.strip s) = true.
Proof.
  intros H. unfold PyStr.strip.
  apply rstrip_all_chars, lstrip_all_chars, H.
Qed.

Lemma all_chars_filter (p : ascii -> bool) (s : string) :
  all_chars p (filter_chars p s) = true.
Proof.
  induction s as [|c s IH]; simpl; [reflexivity|].
  destruct (p c) eqn:E; simpl; rewrite ?E, IH; reflexivity.
Qed.

Lemma filter_chars_fixed (p : ascii -> bool) (s : string) :
  all_chars p s = true -> filter_chars p s = s.
Proof.
  induction s as [|c s IH]; simpl; [reflexivity|].
  intros H. apply andb_true_iff in H as [Hc Hs].
  rewrite Hc, (IH Hs). reflexivity.
Qed.

Lemma filter_chars_keeps (p q : ascii -> bool) (s : string) :
  all_chars q s = true -> all_chars q (filter_chars p s) = true.
Proof.
  induction s as [|c s IH]; simpl; [reflexivity|].
  intros H. apply andb_true_iff in H as [Hc Hs].
  destruct (p c); simpl; rewrite ?Hc, (IH Hs); reflexivity.
Qed.

Lemma strip_of_tidy (z : string) :
  let y := PyStr.strip (collapse false z) in
  PyStr.strip y = y /\ collapse false y = y /\ single_spaced y = true.
Proof.
  cbv zeta.
  assert (Hss : single_spaced (PyStr.strip (collapse false z)) = true).
  { unfold PyStr.strip.
    apply rstrip_single_spaced, lstrip_single_spaced, collapse_single_spaced. }
  split; [apply strip_idempotent|].
  split; [apply collapse_of_single_spaced, Hss|exact Hss].
Qed.

(** The output of [preprocess] is the whitespace stage applied to some
    text. *)
Lemma preprocess_shape (env : Libraries) (config : TextPreprocessor.t)
      (text : string) :
  exists z,
    TextPreprocessor.preprocess env config text
    = PyStr.strip (collapse false z).
Proof.
  unfold TextPreprocessor.preprocess. destruct text as [|c text].
  - exists EmptyString. reflexivity.
  - cbv zeta. rewrite sub_whitespace. eexists. reflexivity.
Qed.

(** X1: whatever the configuration, the output of [preprocess] has no
    leading or trailing whitespace, and its only whitespace characters are
    single spaces between other characters; stripping it or collapsing its
    whitespace again changes nothing. *)
Theorem preprocess_output_is_tidy (env : Libraries)
        (config : TextPreprocessor.t) (text : string) :
  let y := TextPreprocessor.preprocess env config text in
  PyStr.strip y = y /\
  Re.sub TextPreprocessor.whitespace_pattern " " y = y /\
  single_spaced y = true /\
  starts_with_space y = false.
Proof.
  cbv zeta. destruct (preprocess_shape env config text) as [z ->].
  destruct (strip_of_tidy z) as (H1 & H2 & H3). cbv zeta in *.
  rewrite sub_whitespace. repeat split; try assumption.
  unfold PyStr.strip. apply rstrip_starts, lstrip_starts.
Qed.

(** X2: with the case fold on and the token stages not running, the
    output of [preprocess] is case-folded: folding its case again changes
    nothing. *)
Theorem preprocess_folds_case (env : Libraries)
        (config : TextPreprocessor.t) (text : string) :
  TextPreprocessor.lowercase config = true ->
  NLTK_AVAILABLE env
  && (TextPreprocessor.remove_stopwords config
      || TextPreprocessor.lemmatize config
      || TextPreprocessor.stem config) = false ->
  PyStr.lower (TextPreprocessor.preprocess env config text)
  = TextPreprocessor.preprocess env config text.
Proof.
  intros Hlow Hnltk. apply lower_of_fixed.
  unfold TextPreprocessor.preprocess.
  destruct text as [|c text]; [reflexivity|].
  cbv zeta. rewrite Hlow, Hnltk, sub_whitespace.
  apply all_chars_strip, collapse_all_chars; [reflexivity|].
  apply lower_is_fixed.
Qed.

Lemma preprocess_folds_case_witness :
  TextPreprocessor.preprocess Sample.healthy
    (TextPreprocessor.default Sample.healthy)
    "<b>GREAT</b> Movie, see HTTPS://X.org" = "great movie, see https://x.org"
  /\ PyStr.lower
       (TextPreprocessor.preprocess Sample.healthy
          (TextPreprocessor.default Sample.healthy)
          "<b>GREAT</b> Movie, see HTTPS://X.org")
     = TextPreprocessor.preprocess Sample.healthy
         (TextPreprocessor.default Sample.healthy)
         "<b>GREAT</b> Movie, see HTTPS://X.org".
Proof.
  split; [vm_compute; reflexivity|].
  apply (preprocess_folds_case Sample.healthy
           (TextPreprocessor.default Sample.healthy)); reflexivity.
Defined.

(** ** The preprocessor: what the stripping stages leave alone *)

Lemma rmatch_cls (p : ascii -> bool) (prev : option ascii) (s : string)
      (k : Re.Cont) :
  Re.rmatch (Re.Cls p) prev s k
  = match s with
    | String c s' => if p c then k (Some c) s' else None
    | EmptyString => None
    end.
Proof. destruct s; reflexivity. Qed.

Lemma rmatch_lit (lit : string) (prev : option ascii) (s : string)
      (k : Re.Cont) :
  Re.rmatch (Re.Lit lit) prev s k = Re.match_lit lit prev s k.
Proof. reflexivity. Qed.

Lemma rmatch_cat (r1 r2 : Re.regex) (prev : option ascii) (s : string)
      (k : Re.Cont) :
  Re.rmatch (Re.Cat r1 r2) prev s k
  = Re.rmatch r1 prev s (fun prev' s' => Re.rmatch r2 prev' s' k).
Proof. reflexivity. Qed.

Lemma rmatch_opt (r : Re.regex) (prev : option ascii) (s : string)
      (k : Re.Cont) :
  Re.rmatch (Re.Opt r) prev s k
  = match Re.rmatch r prev s k with
    | Some p => Some p
    | None => k prev s
    end.
Proof. reflexivity. Qed.

Lemma rmatch_rep (lo : nat) (r : Re.regex) (prev : option ascii)
      (s : string) (k : Re.Cont) :
  Re.rmatch (Re.Rep lo r) prev s k
  = Re.rep_loop (Re.rmatch r) k (S (String.length s)) lo prev s.
Proof. reflexivity. Qed.

Lemma rmatch_boundary (prev : option ascii) (s : string) (k : Re.Cont) :
  Re.rmatch Re.WordBoundary prev s k
  = if xorb (Re.word_at prev) (Re.word_at (PyStr.head s))
    then k prev s else None.
Proof. reflexivity. Qed.

(** A literal that starts with a character the text lacks does not
    match. *)
Lemma match_lit_lacks (d : ascii) (lit : string) (prev : option ascii)
      (s : string) (k : Re.Cont) :
  lacks d s = true -> Re.match_lit (String d lit) prev s k = None.
Proof.
  destruct s as [|c s]; [reflexivity|]. unfold lacks. simpl.
  intros H. apply andb_true_iff in H as [Hc _].
  apply negb_true_iff in Hc. rewrite Hc. reflexivity.
Qed.

Lemma match_lit_none (q : ascii -> bool) (k : Re.Cont) (lit : string) :
  (forall prev t, all_chars q t = true -> k prev t = None) ->
  forall prev s, all_chars q s = true -> Re.match_lit lit prev s k = None.
Proof.
  intros Hk. induction lit as [|d lit IH]; intros prev s Hs; simpl.
  - apply Hk, Hs.
  - destruct s as [|c s]; [reflexivity|].
    simpl in Hs. apply andb_true_iff in Hs as [_ Hs].
    destruct (Ascii.eqb c d); [apply IH, Hs|reflexivity].
Qed.

Lemma rep_loop_none (q pc : ascii -> bool) (k : Re.Cont) :
  (forall prev t, all_chars q t = true -> k prev t = None) ->
  forall fuel lo prev s,
    all_chars q s = true ->
    Re.rep_loop (Re.rmatch (Re.Cls pc)) k fuel lo prev s = None.
Proof.
  intros Hk. induction fuel as [|fuel IH]; intros lo prev s Hs.
  - simpl. destruct lo; [apply Hk, Hs|reflexivity].
  - cbn [Re.rep_loop]. rewrite rmatch_cls.
    assert (Hstop : match lo with O => k prev s | S _ => None end = None)
      by (destruct lo; [apply Hk, Hs|reflexivity]).
    destruct s as [|c s]; [exact Hstop|].
    simpl in Hs. apply andb_true_iff in Hs as [Hc Hs].
    destruct (pc c); [|rewrite Hstop; reflexivity].
    destruct (String.length s <? String.length (String c s))%nat.
    + rewrite (IH _ _ _ Hs), Hstop. reflexivity.
    + rewrite Hstop. reflexivity.
Qed.

(** Where the pattern matches at no position, [re.sub] returns the text. *)
Lemma sub_from_no_match (r : Re.regex) (repl : string) (q : ascii -> bool) :
  (forall prev t, all_chars q t = true -> Re.match_here r prev t = None) ->
  forall fuel prev s,
    all_chars q s = true -> Re.sub_from fuel r repl prev s = s.
Proof.
  intros Hr. induction fuel as [|fuel IH]; intros prev s Hs; [reflexivity|].
  cbn [Re.sub_from]. rewrite (Hr prev s Hs).
  destruct s as [|c s]; [reflexivity|].
  simpl in Hs. apply andb_true_iff in Hs as [_ Hs].
  rewrite (IH _ _ Hs). reflexivity.
Qed.

Lemma html_needs_bracket (prev : option ascii) (t : string) :
  lacks "<" t = true ->
  Re.match_here TextPreprocessor.html_pattern prev t = None.
Proof.
  intros H. unfold Re.match_here, TextPreprocessor.html_pattern.
  rewrite rmatch_cat, rmatch_lit. apply match_lit_lacks, H.
Qed.

Lemma url_needs_colon (prev : option ascii) (t : string) :
  lacks ":" t = true ->
  Re.match_here TextPreprocessor.url_pattern prev t = None.
Proof.
  intros H. unfold Re.match_here, TextPreprocessor.url_pattern.
  rewrite rmatch_cat, rmatch_lit.
  apply (match_lit_none (fun d => negb (Ascii.eqb d ":"))); [|exact H].
  clear prev t H. intros prev t H.
  rewrite rmatch_cat, rmatch_opt, rmatch_cls.
  assert (Hk : forall p u, lacks ":" u = true ->
                 Re.rmatch
                   (Re.Cat (Re.Lit "://")
                      (Re.Rep 1
                         (Re.Alt (Re.Cls PyStr.is_ascii_letter)
                            (Re.Alt (Re.Cls PyStr.is_digit)
                               (Re.Alt (Re.Cls TextPreprocessor.url_punct)
                                  (Re.Alt (Re.Cls TextPreprocessor.url_extra)
                                     (Re.Cat (Re.Lit "%")
                                        (Re.Cat
                                           (Re.Cls TextPreprocessor.hex_digit)
                                           (Re.Cls TextPreprocessor.hex_digit)))))))))
                   p u (fun prev' s' => Some (prev', s')) = None).
  { intros p u Hu. rewrite rmatch_cat, rmatch_lit.
    apply match_lit_lacks, Hu. }
  rewrite (Hk prev t H).
  destruct t as [|c t]; [reflexivity|].
  simpl in H. apply andb_true_iff in H as [_ H].
  destruct (PyStr.one_of "s" c); [|reflexivity].
  rewrite (Hk (Some c) t H). reflexivity.
Qed.

Lemma email_needs_at (prev : option ascii) (t : string) :
  lacks "@" t = true ->
  Re.match_here TextPreprocessor.email_pattern prev t = None.
Proof.
  intros H. unfold Re.match_here, TextPreprocessor.email_pattern.
  rewrite rmatch_cat, rmatch_boundary.
  destruct (xorb _ _); [|reflexivity].
  rewrite rmatch_cat, rmatch_rep.
  apply (rep_loop_none (fun d => negb (Ascii.eqb d "@"))); [|exact H].
  intros p u Hu. rewrite rmatch_cat, rmatch_lit.
  apply match_lit_lacks, Hu.
Qed.

Lemma remove_html_without_bracket (text : string) :
  lacks "<" text = true -> TextPreprocessor._remove_html_tags text = text.
Proof.
  intros H. unfold TextPreprocessor._remove_html_tags, Re.sub.
  apply (sub_from_no_match _ _ (fun d => negb (Ascii.eqb d "<")));
    [intros; apply html_needs_bracket|]; assumption.
Qed.

Lemma remove_urls_without_colon (text : string) :
  lacks ":" text = true -> TextPreprocessor._remove_urls text = text.
Proof.
  intros H. unfold TextPreprocessor._remove_urls, Re.sub.
  apply (sub_from_no_match _ _ (fun d => negb (Ascii.eqb d ":")));
    [intros; apply url_needs_colon|]; assumption.
Qed.

Lemma remove_emails_without_at (text : string) :
  lacks "@" text = true -> TextPreprocessor._remove_emails text = text.
Proof.
  intros H. unfold TextPreprocessor._remove_emails, Re.sub.
  apply (sub_from_no_match _ _ (fun d => negb (Ascii.eqb d "@")));
    [intros; apply email_needs_at|]; assumption.
Qed.

(** X3: each stripping stage needs its marker: text without [<] passes
    [_remove_html_tags] unchanged, text without [:] passes [_remove_urls]
    unchanged, and text without [@] passes [_remove_emails] unchanged. *)
Theorem removal_needs_its_marker (text : string) :
  (lacks "<" text = true ->
   TextPreprocessor._remove_html_tags text = text) /\
  (lacks ":" text = true ->
   TextPreprocessor._remove_urls text = text) /\
  (lacks "@" text = true ->
   TextPreprocessor._remove_emails text = text).
Proof.
  split; [|split]; intros H.
  - apply remove_html_without_bracket, H.
  - apply remove_urls_without_colon, H.
  - apply remove_emails_without_at, H.
Qed.

Lemma removal_needs_its_marker_witness :
  TextPreprocessor._remove_html_tags "3 > 2, ok" = "3 > 2, ok" /\
  TextPreprocessor._remove_urls "see http//x.org" = "see http//x.org" /\
  TextPreprocessor._remove_emails "me at x.org" = "me at x.org".
Proof.
  split; [|split].
  - apply (removal_needs_its_marker "3 > 2, ok"). reflexivity.
  - apply (removal_needs_its_marker "see http//x.org"). reflexivity.
  - apply (removal_needs_its_marker "me at x.org"). reflexivity.
Defined.

Lemma sub_from_class (q : ascii -> bool) :
  forall fuel prev s,
    (String.length s < fuel)%nat ->
    Re.sub_from fuel (Re.Cls q) "" prev s
    = filter_chars (fun c => negb (q c)) s.
Proof.
  induction fuel as [|fuel IH]; intros prev s Hlen; [lia|].
  cbn [Re.sub_from]. unfold Re.match_here. rewrite rmatch_cls.
  destruct s as [|c s]; [reflexivity|].
  assert (Hs : (String.length s < fuel)%nat) by (simpl in Hlen; lia).
  cbn [filter_chars]. destruct (q c); cbn [negb].
  - assert (Hlt : (String.length s <? String.length (String c s))%nat = true)
      by (apply Nat.ltb_lt; simpl; lia).
    rewrite Hlt. simpl. apply IH, Hs.
  - rewrite (IH _ _ Hs). reflexivity.
Qed.

Lemma filter_chars_ext (p q : ascii -> bool) (s : string) :
  (forall c, p c = q c) -> filter_chars p s = filter_chars q s.
Proof.
  intros H. induction s as [|c s IH]; simpl; [reflexivity|].
  rewrite H, IH. reflexivity.
Qed.

Lemma remove_special_is_filter (text : string) :
  TextPreprocessor._remove_special_characters text
  = filter_chars TextPreprocessor.basic_char text.
Proof.
  unfold TextPreprocessor._remove_special_characters, Re.sub,
    TextPreprocessor.special_pattern.
  rewrite sub_from_class by lia.
  apply filter_chars_ext. intros c. apply negb_involutive.
Qed.

(** X4: [_remove_special_characters] keeps exactly the characters of the
    allowed set, in order: its output holds only allowed characters, text
    made of allowed characters passes unchanged, a second pass changes
    nothing, and the output is never longer than the input. *)
Theorem remove_special_keeps_allowed (text : string) :
  let out := TextPreprocessor._remove_special_characters text in
  out = filter_chars TextPreprocessor.basic_char text /\
  all_chars TextPreprocessor.basic_char out = true /\
  (all_chars TextPreprocessor.basic_char text = true -> out = text) /\
  TextPreprocessor._remove_special_characters out = out /\
  (String.length out <= String.length text)%nat.
Proof.
  cbv zeta. rewrite !remove_special_is_filter.
  split; [reflexivity|]. split; [apply all_chars_filter|].
  split; [apply filter_chars_fixed|].
  split; [apply filter_chars_fixed, all_chars_filter|].
  induction text as [|c text IH]; simpl; [lia|].
  destruct (TextPreprocessor.basic_char c); simpl; lia.
Qed.

Lemma remove_special_keeps_allowed_witness :
  TextPreprocessor._remove_special_characters "good (really) - 10/10!"
  = "good (really) - 1010!" /\
  TextPreprocessor._remove_special_characters "good (really)!"
  = "good (really)!".
Proof.
  split; [vm_compute; reflexivity|].
  destruct (remove_special_keeps_allowed "good (really)!")
    as (_ & _ & Hfixed & _).
  apply Hfixed. reflexivity.
Defined.

(** ** The preprocessor on plain text *)

Lemma lacks_lower (d : ascii) (s : string) :
  (forall c, implb (negb (Ascii.eqb c d))
               (negb (Ascii.eqb (PyStr.lower_char c) d)) = true) ->
  lacks d s = true -> lacks d (PyStr.lower s) = true.
Proof. intros Hd. apply all_chars_lower. exact Hd. Qed.

Lemma lower_keeps_markers_out (c : ascii) :
  implb (negb (Ascii.eqb c "<")) (negb (Ascii.eqb (PyStr.lower_char c) "<"))
  && implb (negb (Ascii.eqb c ":")) (negb (Ascii.eqb (PyStr.lower_char c) ":"))
  && implb (negb (Ascii.eqb c "@")) (negb (Ascii.eqb (PyStr.lower_char c) "@"))
  && implb (TextPreprocessor.basic_char c)
       (TextPreprocessor.basic_char (PyStr.lower_char c)) = true.
Proof. destruct c as [[] [] [] [] [] [] [] []]; reflexivity. Qed.

(** The stages of [preprocess] after the three stripping stages, when the
    token stages do not run. *)
Lemma preprocess_plain (env : Libraries) (config : TextPreprocessor.t)
      (x : string) :
  lacks "<" x = true -> lacks ":" x = true -> lacks "@" x = true ->
  NLTK_AVAILABLE env
  && (TextPreprocessor.remove_stopwords config
      || TextPreprocessor.lemmatize config
      || TextPreprocessor.stem config) = false ->
  let kept :=
    if TextPreprocessor.remove_special_chars config
    then filter_chars TextPreprocessor.basic_char x else x in
  TextPreprocessor.preprocess env config x
  = PyStr.strip
      (collapse false
         (if TextPreprocessor.lowercase config then PyStr.lower kept
          else kept)).
Proof.
  intros Hb Hc Ha Hnltk. cbv zeta.
  pose proof (remove_html_without_bracket x) as Hhtml.
  pose proof (remove_urls_without_colon x) as Hurl.
  pose proof (remove_emails_without_at x) as Hemail.
  unfold TextPreprocessor.preprocess. rewrite Hnltk.
  destruct x as [|c x].
  - destruct (TextPreprocessor.remove_special_chars config),
      (TextPreprocessor.lowercase config); reflexivity.
  - cbv zeta. rewrite sub_whitespace.
    assert (E : (if TextPreprocessor.remove_emails config
                 then TextPreprocessor._remove_emails
                        (if TextPreprocessor.remove_urls config
                         then TextPreprocessor._remove_urls
                                (if TextPreprocessor.remove_html config
                                 then TextPreprocessor._remove_html_tags
                                        (String c x)
                                 else String c x)
                         else if TextPreprocessor.remove_html config
                              then TextPreprocessor._remove_html_tags
                                     (String c x)
                              else String c x)
                 else if TextPreprocessor.remove_urls config
                      then TextPreprocessor._remove_urls
                             (if TextPreprocessor.remove_html config
                              then TextPreprocessor._remove_html_tags
                                     (String c x)
                              else String c x)
                      else if TextPreprocessor.remove_html config
                           then TextPreprocessor._remove_html_tags
                                  (String c x)
                           else String c x) = String c x).
    { rewrite (Hhtml Hb). destruct (TextPreprocessor.remove_html config);
        rewrite (Hurl Hc); destruct (TextPreprocessor.remove_urls config);
        rewrite (Hemail Ha); destruct (TextPreprocessor.remove_emails config);
        reflexivity. }
    rewrite E. rewrite remove_special_is_filter. reflexivity.
Qed.

(** X5: on text without [<], [:] and [@], with the token stages not
    running, [preprocess] is idempotent under every configuration of the
    other toggles. *)
Theorem preprocess_idempotent_on_plain_text (env : Libraries)
        (config : TextPreprocessor.t) (x : string) :
  lacks "<" x = true -> lacks ":" x = true -> lacks "@" x = true ->
  NLTK_AVAILABLE env
  && (TextPreprocessor.remove_stopwords config
      || TextPreprocessor.lemmatize config
      || TextPreprocessor.stem config) = false ->
  TextPreprocessor.preprocess env config
    (TextPreprocessor.preprocess env config x)
  = TextPreprocessor.preprocess env config x.
Proof.
  intros Hb Hc Ha Hnltk.
  pose proof (preprocess_plain env config x Hb Hc Ha Hnltk) as E.
  cbv zeta in E. rewrite E.
  set (kept := if TextPreprocessor.remove_special_chars config
               then filter_chars TextPreprocessor.basic_char x else x) in *.
  set (z := if TextPreprocessor.lowercase config then PyStr.lower kept
            else kept) in *.
  set (y := PyStr.strip (collapse false z)).
  (* every property of [x] that the second pass relies on reaches [y] *)
  assert (Hreach : forall p : ascii -> bool,
             p " "%char = true ->
             (forall c, implb (p c) (p (PyStr.lower_char c)) = true) ->
             all_chars p x = true -> all_chars p y = true).
  { intros p Hsp Hlow Hx. unfold y.
    apply all_chars_strip, collapse_all_chars; [exact Hsp|].
    assert (Hk : all_chars p kept = true).
    { unfold kept. destruct (TextPreprocessor.remove_special_chars config);
        [apply filter_chars_keeps|]; exact Hx. }
    unfold z. destruct (TextPreprocessor.lowercase config);
      [apply all_chars_lower; assumption|exact Hk]. }
  assert (Hyb : lacks "<" y = true).
  { apply Hreach; [reflexivity| |exact Hb]. intros c.
    pose proof (lower_keeps_markers_out c) as H.
    repeat (apply andb_true_iff in H as [H ?]). exact H. }
  assert (Hyc : lacks ":" y = true).
  { apply Hreach; [reflexivity| |exact Hc]. intros c.
    pose proof (lower_keeps_markers_out c) as H.
    repeat (apply andb_true_iff in H as [H ?]). assumption. }
  assert (Hya : lacks "@" y = true).
  { apply Hreach; [reflexivity| |exact Ha]. intros c.
    pose proof (lower_keeps_markers_out c) as H.
    repeat (apply andb_true_iff in H as [H ?]). assumption. }
  rewrite (preprocess_plain env config y Hyb Hyc Hya Hnltk).
  cbv zeta.
  assert (Hkept : (if TextPreprocessor.remove_special_chars config
                   then filter_chars TextPreprocessor.basic_char y else y)
                  = y).
  { destruct (TextPreprocessor.remove_special_chars config) eqn:Es;
      [|reflexivity].
    apply filter_chars_fixed. unfold y.
    apply all_chars_strip, collapse_all_chars; [reflexivity|].
    assert (Hk : all_chars TextPreprocessor.basic_char kept = true)
      by (unfold kept; rewrite ?Es; apply all_chars_filter).
    unfold z. destruct (TextPreprocessor.lowercase config); [|exact Hk].
    apply all_chars_lower; [|exact Hk]. intros c.
    pose proof (lower_keeps_markers_out c) as H.
    apply andb_true_iff in H as [_ H]. exact H. }
  rewrite Hkept.
  assert (Hfold : (if TextPreprocessor.lowercase config then PyStr.lower y
                   else y) = y).
  { destruct (TextPreprocessor.lowercase config) eqn:El; [|reflexivity].
    apply lower_of_fixed. unfold y.
    apply all_chars_strip, collapse_all_chars; [reflexivity|].
    unfold z. rewrite ?El. apply lower_is_fixed. }
  rewrite Hfold.
  destruct (strip_of_tidy z) as (H1 & H2 & _). cbv zeta in H1, H2.
  fold y in H1, H2. rewrite H2. exact H1.
Qed.

Lemma preprocess_idempotent_on_plain_text_witness :
  let normalize :=
    TextPreprocessor.preprocess Sample.healthy
      (TextPreprocessor.mk true true true true true false false false) in
  normalize "  I LOVE it -- 10/10!! " = "i love it -- 1010!!" /\
  normalize (normalize "  I LOVE it -- 10/10!! ")
  = normalize "  I LOVE it -- 10/10!! ".
Proof.
  cbv zeta. split; [vm_compute; reflexivity|].
  apply (preprocess_idempotent_on_plain_text Sample.healthy
           (TextPreprocessor.mk true true true true true false false false)
           "  I LOVE it -- 10/10!! "); reflexivity.
Defined.

(** ** The analyzers: ranges and symmetries *)

Lemma Qdiv_lt_iff (a b t : Q) : 0 < t -> (a / t < b / t <-> a < b).
Proof.
  intros Ht.
  assert (E : (b - a) / t == b / t - a / t) by (field; lra).
  pose proof (Qdiv_pos_iff (b - a) t Ht) as H. rewrite E in H.
  split; intros H'.
  - assert (0 < b - a) by (apply H; lra). lra.
  - assert (0 < b / t - a / t) by (apply H; lra). lra.
Qed.

Lemma Qdiv_le_iff (a b t : Q) : 0 < t -> (a / t <= b / t <-> a <= b).
Proof.
  intros Ht. pose proof (Qdiv_lt_iff b a t Ht) as H.
  split; intros H'.
  - destruct (Qlt_le_dec b a) as [Hlt|Hle]; [|exact Hle].
    apply H in Hlt. lra.
  - destruct (Qlt_le_dec (b / t) (a / t)) as [Hlt|Hle]; [|exact Hle].
    apply H in Hlt. lra.
Qed.

Lemma textblob_confidence (polarity : Q) :
  -1 <= polarity -> polarity <= 1 ->
  0 <= confidence (TextBlobAnalyzer.from_polarity polarity)
  /\ confidence (TextBlobAnalyzer.from_polarity polarity) <= 1.
Proof.
  intros Hlo Hhi. unfold TextBlobAnalyzer.from_polarity. cbv zeta.
  destruct (Qabs_cases polarity) as [[Hs Ha]|[Hs Ha]];
    set (a := Qabs polarity) in *.
  all: destruct (Qlt_bool_spec 0.1 polarity) as [H1|H1];
    [|destruct (Qlt_bool_spec polarity (-0.1)) as [H2|H2]].
  all: repeat match goal with
         | |- context [let '(_, _) := ?p in _] => destruct p as [[? ?] ?]
         end; cbn [confidence]; split; lra.
Qed.

(** X6: for a polarity in [-1, 1] the TextBlob analyzer returns scores that
    are never negative and a confidence in [0, 1]; for a polarity that is
    not negative its positive score is at least its negative score, and for
    a polarity that is not positive at most its negative score. *)
Theorem textblob_scores_follow_polarity (polarity : Q) :
  -1 <= polarity -> polarity <= 1 ->
  let r := TextBlobAnalyzer.from_polarity polarity in
  nonneg (scores r) /\
  0 <= confidence r /\ confidence r <= 1 /\
  (0 <= polarity -> negative (scores r) <= positive (scores r)) /\
  (polarity <= 0 -> positive (scores r) <= negative (scores r)).
Proof.
  intros Hlo Hhi. cbv zeta.
  destruct (textblob_confidence polarity Hlo Hhi) as [Hc0 Hc1].
  unfold nonneg.
  destruct (Qeq_dec polarity 0) as [Hz|Hnz].
  - destruct (textblob_scores_zero polarity Hz) as (Hp & Hn & Hu).
    rewrite Hp, Hn, Hu. repeat split; try assumption; intros; lra.
  - destruct (textblob_scores_nonzero polarity Hlo Hhi Hnz) as (Hp & Hn & Hu).
    cbv zeta in Hp, Hn, Hu. rewrite Hp, Hn, Hu.
    assert (Hhalf : (polarity + 1) / 2 == (polarity + 1) * (1 # 2))
      by field.
    rewrite !Hhalf.
    destruct (Qabs_cases polarity) as [[Hs Ha]|[Hs Ha]];
      set (a := Qabs polarity) in *.
    all: assert (Ht : 0 < 1 + (1 - a) * 0.5) by lra.
    all: rewrite !(Qdiv_le_iff _ _ _ Ht).
    all: repeat split; try assumption;
      try (apply Qdiv_nonneg; [exact Ht|]); intros; lra.
Qed.

Lemma textblob_scores_follow_polarity_witness :
  negative (scores (TextBlobAnalyzer.from_polarity 0.07))
  <= positive (scores (TextBlobAnalyzer.from_polarity 0.07)) /\
  sentiment (TextBlobAnalyzer.from_polarity 0.07) = NEUTRAL.
Proof.
  assert (Hlo : -1 <= 0.07) by lra.
  assert (Hhi : 0.07 <= 1) by lra.
  destruct (textblob_scores_follow_polarity 0.07 Hlo Hhi)
    as (_ & _ & _ & Hpos & _).
  split; [apply Hpos; lra|reflexivity].
Defined.

Lemma py_min_le (a b : Q) : py_min a b <= a.
Proof. unfold py_min. destruct (Qlt_bool_spec b a); lra. Qed.

Lemma py_min_pos (a b : Q) : 0 < a -> 0 < b -> 0 < py_min a b.
Proof. unfold py_min. destruct (Qlt_bool_spec b a); intros; assumption. Qed.

Lemma py_max_ge (a b : Q) : b <= py_max a b.
Proof. unfold py_max. destruct (Qlt_bool_spec a b); lra. Qed.

Lemma Q_of_nat_pos (n : nat) : (0 < n)%nat -> 0 < Q_of_nat n.
Proof.
  intros H. unfold Q_of_nat, Qlt, inject_Z. simpl. lia.
Qed.

Lemma Q_of_nat_nonneg (n : nat) : 0 <= Q_of_nat n.
Proof. unfold Q_of_nat, Qle, inject_Z. simpl. lia. Qed.

(** The confidence the fallback gives to [hits] hits in [words] words. *)
Lemma hit_density_bounds (hits words : nat) :
  (0 < hits)%nat ->
  let c := py_min 0.8 (Q_of_nat hits / py_max (Q_of_nat words * 0.1) 1) in
  0 < c /\ c <= 0.8.
Proof.
  intros Hh. cbv zeta. split; [|apply py_min_le].
  apply py_min_pos; [lra|].
  pose proof (py_max_ge (Q_of_nat words * 0.1) 1) as Hm.
  apply Qdiv_pos_iff; [lra|]. apply Q_of_nat_pos, Hh.
Qed.

(** X7: the keyword fallback always reports a confidence above 0 and at
    most 0.8, and scores that are never negative.  For the labels positive
    and negative the confidence is the score of the label; for neutral the
    confidence is 0.6 while the neutral score is 0.4. *)
Theorem fallback_confidence_bounds (text : string) :
  let r := TransformerAnalyzer._fallback_analysis text in
  0 < confidence r /\ confidence r <= 0.8 /\
  nonneg (scores r) /\
  (sentiment r <> NEUTRAL -> confidence r = get (scores r) (sentiment r)) /\
  (sentiment r = NEUTRAL ->
   confidence r == 0.6 /\ get (scores r) NEUTRAL == 0.4).
Proof.
  cbv zeta. unfold TransformerAnalyzer._fallback_analysis. cbv zeta.
  set (pos_count :=
         TransformerAnalyzer.count_hits TransformerAnalyzer.positive_words _).
  set (neg_count :=
         TransformerAnalyzer.count_hits TransformerAnalyzer.negative_words _).
  set (words := List.length _).
  destruct (Nat.ltb_spec neg_count pos_count) as [H1|H1];
    [|destruct (Nat.ltb_spec pos_count neg_count) as [H2|H2]].
  - destruct (hit_density_bounds pos_count words ltac:(lia)) as [Hc0 Hc1].
    cbv zeta in Hc0, Hc1.
    set (c := py_min 0.8 _) in *. clearbody c.
    cbn [confidence scores sentiment get]. unfold nonneg.
    cbn [positive negative neutral].
    repeat split; intros; try lra; try reflexivity; discriminate.
  - destruct (hit_density_bounds neg_count words ltac:(lia)) as [Hc0 Hc1].
    cbv zeta in Hc0, Hc1.
    set (c := py_min 0.8 _) in *. clearbody c.
    cbn [confidence scores sentiment get]. unfold nonneg.
    cbn [positive negative neutral].
    repeat split; intros; try lra; try reflexivity; discriminate.
  - cbn [confidence scores sentiment get]. unfold nonneg.
    cbn [positive negative neutral].
    repeat split; try lra; try reflexivity.
    intros H. exfalso. apply H. reflexivity.
Qed.

Lemma fallback_confidence_bounds_witness :
  sentiment (TransformerAnalyzer._fallback_analysis "It arrived on Tuesday.")
  = NEUTRAL /\
  confidence (TransformerAnalyzer._fallback_analysis "It arrived on Tuesday.")
  == 0.6 /\
  get (scores (TransformerAnalyzer._fallback_analysis "It arrived on Tuesday."))
      NEUTRAL == 0.4.
Proof.
  split; [reflexivity|].
  destruct (fallback_confidence_bounds "It arrived on Tuesday.")
    as (_ & _ & _ & _ & H).
  apply H. reflexivity.
Defined.

Lemma lower_idempotent (s : string) :
  PyStr.lower (PyStr.lower s) = PyStr.lower s.
Proof.
  induction s as [|c s IH]; simpl; [reflexivity|].
  rewrite lower_char_idempotent, IH. reflexivity.
Qed.

Lemma isspace_lower_char (c : ascii) :
  PyStr.isspace (PyStr.lower_char c) = PyStr.isspace c.
Proof. destruct c as [[] [] [] [] [] [] [] []]; reflexivity. Qed.

(** The number of words does not depend on letter case. *)
Lemma split_from_lower_length (s : string) :
  forall cur cur',
    (cur = None <-> cur' = None) ->
    List.length (PyStr.split_from cur (PyStr.lower s))
    = List.length (PyStr.split_from cur' s).
Proof.
  induction s as [|c s IH]; intros cur cur' H; simpl.
  - destruct cur, cur'; try reflexivity; exfalso.
    + assert (E : Some s = None) by (apply H; reflexivity). discriminate E.
    + assert (E : Some s = None) by (apply H; reflexivity). discriminate E.
  - rewrite isspace_lower_char. destruct (PyStr.isspace c).
    + destruct cur, cur'; simpl.
      * f_equal. apply IH. tauto.
      * exfalso. assert (E : Some s0 = None) by (apply H; reflexivity).
        discriminate E.
      * exfalso. assert (E : Some s0 = None) by (apply H; reflexivity).
        discriminate E.
      * apply IH. tauto.
    + apply IH. split; intros E; discriminate E.
Qed.

Lemma split_lower_length (s : string) :
  List.length (PyStr.split (PyStr.lower s)) = List.length (PyStr.split s).
Proof. apply split_from_lower_length. tauto. Qed.

(** X8: the keyword fallback does not see letter case: two texts with the
    same lower-case form get the same label, confidence and scores. *)
Theorem fallback_ignores_case (text1 text2 : string) :
  PyStr.lower text1 = PyStr.lower text2 ->
  TransformerAnalyzer._fallback_analysis text1
  = TransformerAnalyzer._fallback_analysis text2.
Proof.
  intros H. unfold TransformerAnalyzer._fallback_analysis. cbv zeta.
  rewrite H.
  rewrite <- (split_lower_length text1), <- (split_lower_length text2), H.
  reflexivity.
Qed.

Lemma fallback_ignores_case_witness :
  TransformerAnalyzer._fallback_analysis "I LOVE this, the BEST!"
  = TransformerAnalyzer._fallback_analysis "i love this, the best!".
Proof.
  apply (fallback_ignores_case "I LOVE this, the BEST!"
           "i love this, the best!").
  reflexivity.
Defined.

Lemma assign_binary (n p : Q) :
  TransformerAnalyzer.assign_labels [("NEGATIVE", n); ("POSITIVE", p)]
  = mkScores p n 0.0.
Proof. reflexivity. Qed.

(** X9: with a loaded model that answers a text with the two labels
    NEGATIVE and POSITIVE, scores not negative and summing to 1, the
    transformer analyzer never labels the text neutral: it reserves a
    neutral score of 0.1, scales the two model scores by 0.9, answers
    positive exactly when the positive score is at least the negative one,
    and reports a confidence between 0.45 and 0.9. *)
Theorem binary_model_never_neutral (env : Libraries) (text : string)
        (pipe : string -> Res (list (list (string * Q)))) (n p : Q) :
  pipeline env = Some pipe ->
  pipe (TransformerAnalyzer.truncate text)
  = Ok [[("NEGATIVE", n); ("POSITIVE", p)]] ->
  0 <= n -> 0 <= p -> n + p == 1 ->
  exists r,
    TransformerAnalyzer.analyze env text = Ok r /\
    sentiment r <> NEUTRAL /\
    (sentiment r = POSITIVE <-> n <= p) /\
    positive (scores r) == 0.9 * p /\
    negative (scores r) == 0.9 * n /\
    neutral (scores r) == 0.1 /\
    0.45 <= confidence r /\ confidence r <= 0.9.
Proof.
  intros Hpipe Hout Hn Hp Hsum.
  unfold TransformerAnalyzer.analyze. rewrite Hpipe.
  unfold TransformerAnalyzer.infer. rewrite Hout.
  cbn [bind TransformerAnalyzer.first].
  unfold TransformerAnalyzer._parse_results. rewrite assign_binary.
  cbn [neutral positive negative].
  assert (E0 : Qeq_bool 0.0 0.0 = true) by reflexivity. rewrite E0.
  destruct (Qlt_bool_spec 0 (p + n)) as [_|Hbad]; [|exfalso; apply Hbad; lra].
  eexists. split; [reflexivity|].
  cbn [sentiment confidence scores positive negative neutral].
  unfold max_key, max_from. cbn [fst snd positive negative neutral].
  destruct (Qlt_bool_spec (p * (1 - 0.1)) (n * (1 - 0.1))) as [H1|H1];
    cbn [fst snd].
  - destruct (Qlt_bool_spec (n * (1 - 0.1)) 0.1) as [H2|H2]; cbn [fst get].
    + exfalso. lra.
    + cbn [positive negative neutral].
      repeat split; try lra; try discriminate; intros H; exfalso; lra.
  - destruct (Qlt_bool_spec (p * (1 - 0.1)) 0.1) as [H2|H2]; cbn [fst get].
    + exfalso. lra.
    + cbn [positive negative neutral].
      repeat split; try lra; try discriminate; intros H; reflexivity.
Qed.

Lemma binary_model_never_neutral_witness :
  exists r,
    TransformerAnalyzer.analyze Sample.model_loaded "I love this!" = Ok r /\
    sentiment r = POSITIVE /\ neutral (scores r) == 0.1.
Proof.
  assert (H0 : 0 <= 0.25) by lra.
  assert (H1 : 0 <= 0.75) by lra.
  assert (Hs : 0.25 + 0.75 == 1) by reflexivity.
  destruct (binary_model_never_neutral Sample.model_loaded "I love this!"
              Sample.sst2 0.25 0.75 eq_refl eq_refl H0 H1 Hs)
    as (r & Hr & _ & Hpos & _ & _ & Hneu & _).
  exists r. split; [exact Hr|]. split; [apply Hpos; lra|exact Hneu].
Defined.

(** ** The ensemble: weights, isolation, ranges *)

Lemma Qdiv_unit (w t : Q) :
  0 < t -> 0 <= w -> w <= t -> 0 <= w / t /\ w / t <= 1.
Proof.
  intros Ht Hw Hle. split; [apply Qdiv_nonneg; assumption|].
  assert (E : 1 == t / t) by (field; lra).
  rewrite E. apply Qdiv_le_iff; assumption.
Qed.

(** X10: [EnsembleAnalyzer.__init__] keeps one weight per configured
    analyzer, under the same names in the same order; when the weights of
    the configured analyzers have a positive total each weight is divided
    by that total, and lies in [0, 1] if none of the given weights is
    negative; otherwise the weights are kept as given. *)
Theorem ensemble_init_normalizes_weights (env : Libraries)
        (use_vader use_textblob use_transformer : bool)
        (vader_weight textblob_weight transformer_weight : Q) :
  let ens :=
    EnsembleAnalyzer.init env use_vader use_textblob use_transformer
      vader_weight textblob_weight transformer_weight in
  let given (name : string) (flag : bool) (weight : Q) :=
    if flag then [(name, weight)] else @nil (string * Q) in
  let raw :=
    (given "vader" use_vader vader_weight
     ++ given "textblob" use_textblob textblob_weight
     ++ given "transformer" use_transformer transformer_weight)%list in
  let total := py_sum (map snd raw) in
  map fst (EnsembleAnalyzer.weights ens)
  = map fst (EnsembleAnalyzer.analyzers ens) /\
  map fst (EnsembleAnalyzer.weights ens) = map fst raw /\
  (0 < total ->
   Forall2 (fun kv raw_kv => snd kv == snd raw_kv / total)
     (EnsembleAnalyzer.weights ens) raw /\
   (Forall (fun raw_kv => 0 <= snd raw_kv) raw ->
    Forall (fun kv => 0 <= snd kv /\ snd kv <= 1)
      (EnsembleAnalyzer.weights ens))) /\
  (~ 0 < total -> EnsembleAnalyzer.weights ens = raw).
Proof.
  cbv zeta. unfold EnsembleAnalyzer.init. cbv zeta.
  destruct use_vader, use_textblob, use_transformer;
    cbn [app map fst snd];
    match goal with
    | |- context [Qlt_bool 0 ?t] => destruct (Qlt_bool_spec 0 t) as [Ht|Ht]
    end;
    cbn [map fst snd EnsembleAnalyzer.weights EnsembleAnalyzer.analyzers];
    (split; [reflexivity|]); (split; [reflexivity|]);
    (split; [intros Hpos|intros Hneg; try reflexivity; contradiction]);
    try contradiction;
    (split; [repeat constructor; reflexivity|intros Hraw]);
    repeat match goal with
      | H : Forall _ (_ :: _) |- _ => apply Forall_cons_iff in H as [? H]
      end;
    cbn [snd] in *; unfold py_sum in *; cbn [fold_left map snd] in *;
    repeat constructor; cbn [snd];
    try (apply Qdiv_unit; lra); try (apply Qdiv_unit; lra).
Qed.

Lemma ensemble_init_normalizes_weights_witness :
  EnsembleAnalyzer.weight_of
    (EnsembleAnalyzer.init Sample.healthy true true false 2 6 7) "vader"
  == 0.25 /\
  Forall (fun kv => 0 <= snd kv /\ snd kv <= 1)
    (EnsembleAnalyzer.weights
       (EnsembleAnalyzer.init Sample.healthy true true false 2 6 7)).
Proof.
  split; [vm_compute; reflexivity|].
  destruct (ensemble_init_normalizes_weights Sample.healthy
              true true false 2 6 7) as (_ & _ & H & _).
  cbv zeta in H. destruct H as [_ H]; [vm_compute; reflexivity|].
  apply H. repeat constructor; cbn [snd]; lra.
Defined.

Lemma run_analyzers_survivors (weight_of : string -> Q) (text : string)
      (analyzers : list (string * Analyzer)) :
  forall individual combined_scores,
    run_analyzers weight_of analyzers text individual combined_scores
    = run_analyzers weight_of (filter (succeeds text) analyzers) text
        individual combined_scores.
Proof.
  induction analyzers as [|[name analyzer] rest IH]; intros; [reflexivity|].
  cbn [run_analyzers filter]. unfold succeeds at 1. cbn [snd].
  destruct (analyzer text) as [r|e] eqn:E.
  - cbn [run_analyzers]. rewrite E. apply IH.
  - apply IH.
Qed.

Lemma run_analyzers_names (weight_of : string -> Q) (text : string)
      (analyzers : list (string * Analyzer)) :
  forall individual combined_scores,
    map fst (fst (run_analyzers weight_of analyzers text individual
                    combined_scores))
    = (map fst individual
       ++ map fst (filter (succeeds text) analyzers))%list.
Proof.
  induction analyzers as [|[name analyzer] rest IH]; intros; simpl.
  - rewrite app_nil_r. reflexivity.
  - unfold succeeds at 1. cbn [snd].
    destruct (analyzer text) as [r|e].
    + rewrite IH, map_app, <- app_assoc. reflexivity.
    + apply IH.
Qed.

(** X11: an analyzer that raises is left out of the call and nothing
    else: the ensemble's result is the one computed from the analyzers
    that returned, and its individual results are theirs, in the order of
    the dict. *)
Theorem failing_analyzers_are_left_out (weight_of : string -> Q)
        (analyzers : list (string * Analyzer)) (text : string) :
  combine weight_of analyzers text
  = combine weight_of (filter (succeeds text) analyzers) text /\
  map fst (individual_results (combine weight_of analyzers text))
  = map fst (filter (succeeds text) analyzers).
Proof.
  split.
  - unfold combine. rewrite run_analyzers_survivors. reflexivity.
  - rewrite combine_eq. unfold finish. cbn [individual_results].
    rewrite run_analyzers_names. reflexivity.
Qed.

Lemma add_weighted_values (acc : Scores) (r : AnalyzerResult) (w : Q) :
  add_weighted acc r w
  = mkScores (positive acc + positive (scores r) * w)
             (negative acc + negative (scores r) * w)
             (neutral acc + neutral (scores r) * w).
Proof. reflexivity. Qed.

Lemma add_weighted_nonneg (acc : Scores) (r : AnalyzerResult) (w : Q) :
  nonneg acc -> nonneg (scores r) -> 0 <= w ->
  nonneg (add_weighted acc r w).
Proof.
  intros (Ha1 & Ha2 & Ha3) (Hr1 & Hr2 & Hr3) Hw.
  rewrite add_weighted_values. unfold nonneg. cbn [positive negative neutral].
  pose proof (Qmult_le_0_compat _ _ Hr1 Hw).
  pose proof (Qmult_le_0_compat _ _ Hr2 Hw).
  pose proof (Qmult_le_0_compat _ _ Hr3 Hw).
  repeat split; lra.
Qed.

Lemma run_analyzers_nonneg (weight_of : string -> Q) (text : string)
      (analyzers : list (string * Analyzer)) :
  (forall name analyzer r,
      In (name, analyzer) analyzers -> analyzer text = Ok r ->
      nonneg (scores r) /\ 0 <= weight_of name) ->
  forall individual combined_scores,
    nonneg combined_scores ->
    nonneg (snd (run_analyzers weight_of analyzers text individual
                   combined_scores)).
Proof.
  induction analyzers as [|[name analyzer] rest IH];
    intros Hall individual acc Hacc; [exact Hacc|].
  cbn [run_analyzers].
  assert (Hrest : forall name analyzer r,
             In (name, analyzer) rest -> analyzer text = Ok r ->
             nonneg (scores r) /\ 0 <= weight_of name)
    by (intros n a r Hin; apply Hall; right; exact Hin).
  destruct (analyzer text) as [r|e] eqn:E.
  - destruct (Hall name analyzer r (or_introl eq_refl) E) as [Hr Hw].
    apply IH; [exact Hrest|]. apply add_weighted_nonneg; assumption.
  - apply IH; assumption.
Qed.

Lemma finish_within_unit (individual : list (string * AnalyzerResult))
      (combined_scores : Scores) :
  nonneg combined_scores ->
  within_unit (e_scores (finish individual combined_scores)).
Proof.
  intros (H1 & H2 & H3). unfold finish. cbv zeta.
  pose proof (sum_values_eq combined_scores) as Hsum.
  set (total := sum_values combined_scores) in *.
  destruct (Qlt_bool_spec 0 total) as [Ht|Ht]; cbn [e_scores].
  - intros k. destruct k; cbn [get map_values positive negative neutral];
      (split; [apply Qdiv_nonneg; assumption
              |apply Qle_shift_div_r; [exact Ht|lra]]).
  - intros k. destruct k; cbn [get]; split; lra.
Qed.

(** X12: when every analyzer that returns gives scores that are not
    negative, and the weights are not negative, every combined score of the
    ensemble lies in [0, 1], and so does its confidence. *)
Theorem ensemble_scores_within_unit (weight_of : string -> Q)
        (analyzers : list (string * Analyzer)) (text : string) :
  (forall name analyzer r,
      In (name, analyzer) analyzers -> analyzer text = Ok r ->
      nonneg (scores r) /\ 0 <= weight_of name) ->
  let r := combine weight_of analyzers text in
  within_unit (e_scores r) /\
  0 <= e_confidence r /\ e_confidence r <= 1.
Proof.
  intros Hall. cbv zeta. rewrite combine_eq.
  assert (Hacc : nonneg (accumulated weight_of analyzers text)).
  { unfold accumulated. apply run_analyzers_nonneg; [exact Hall|].
    unfold nonneg. cbn [positive negative neutral]. repeat split; lra. }
  pose proof (finish_within_unit
                (fst (run_analyzers weight_of analyzers text []
                        (mkScores 0.0 0.0 0.0)))
                _ Hacc) as Hunit.
  split; [exact Hunit|].
  destruct (finish_label
              (fst (run_analyzers weight_of analyzers text []
                      (mkScores 0.0 0.0 0.0)))
              (accumulated weight_of analyzers text)) as [_ Hc].
  cbv zeta in Hc. rewrite Hc. apply Hunit.
Qed.

Lemma ensemble_scores_within_unit_witness :
  let r :=
    combine SentimentAnalyzer._get_analyzer_weight
      [("vader", VaderAnalyzer.analyze Sample.failing);
       ("transformer", TransformerAnalyzer.analyze Sample.failing)]
      "the worst, awful" in
  0 <= e_confidence r /\ e_confidence r <= 1.
Proof.
  cbv zeta.
  apply (ensemble_scores_within_unit SentimentAnalyzer._get_analyzer_weight
           [("vader", VaderAnalyzer.analyze Sample.failing);
            ("transformer", TransformerAnalyzer.analyze Sample.failing)]
           "the worst, awful").
  intros name analyzer r [H|[H|[]]] Hr; injection H as <- <-.
  - vm_compute in Hr. discriminate Hr.
  - vm_compute in Hr. injection Hr as <-.
    split; [|vm_compute; discriminate].
    unfold nonneg. cbn [scores positive negative neutral].
    repeat split; vm_compute; discriminate.
Defined.

(** Labels chosen from two dicts that order their values alike. *)
Lemma max_key_same_order (a b : Scores) :
  (forall k l, get a k < get a l <-> get b k < get b l) ->
  max_key a = max_key b.
Proof.
  intros H. unfold max_key, max_from. cbn [fst snd].
  pose proof (H POSITIVE NEGATIVE) as Hpn.
  pose proof (H NEGATIVE NEUTRAL) as Hnu.
  pose proof (H POSITIVE NEUTRAL) as Hpu.
  cbn [get] in Hpn, Hnu, Hpu.
  destruct (Qlt_bool_spec (positive a) (negative a)) as [A1|A1];
    destruct (Qlt_bool_spec (positive b) (negative b)) as [B1|B1];
    try (exfalso; tauto); cbn [fst snd].
  - destruct (Qlt_bool_spec (negative a) (neutral a)) as [A2|A2];
      destruct (Qlt_bool_spec (negative b) (neutral b)) as [B2|B2];
      try (exfalso; tauto); reflexivity.
  - destruct (Qlt_bool_spec (positive a) (neutral a)) as [A2|A2];
      destruct (Qlt_bool_spec (positive b) (neutral b)) as [B2|B2];
      try (exfalso; tauto); reflexivity.
Qed.

Lemma scaled_same_order (c : Q) (a b : Scores) :
  0 < c ->
  scores_eq b (map_values (fun v => c * v) a) ->
  forall k l, get b k < get b l <-> get a k < get a l.
Proof.
  intros Hc (H1 & H2 & H3) k l. cbn [map_values positive negative neutral] in *.
  assert (Hk : get b k == c * get a k) by (destruct k; assumption).
  assert (Hl : get b l == c * get a l) by (destruct l; assumption).
  rewrite Hk, Hl. apply Qmult_lt_l. exact Hc.
Qed.

Lemma run_analyzers_scaled (c : Q) (w w' : string -> Q) (text : string)
      (analyzers : list (string * Analyzer)) :
  (forall name analyzer,
      In (name, analyzer) analyzers -> w' name == c * w name) ->
  forall individual acc acc',
    scores_eq acc' (map_values (fun v => c * v) acc) ->
    fst (run_analyzers w' analyzers text individual acc')
    = fst (run_analyzers w analyzers text individual acc) /\
    scores_eq (snd (run_analyzers w' analyzers text individual acc'))
      (map_values (fun v => c * v)
         (snd (run_analyzers w analyzers text individual acc))).
Proof.
  induction analyzers as [|[name analyzer] rest IH];
    intros Hw individual acc acc' Hacc.
  - split; [reflexivity|exact Hacc].
  - cbn [run_analyzers].
    assert (Hrest : forall name analyzer,
               In (name, analyzer) rest -> w' name == c * w name)
      by (intros n a Hin; apply (Hw n a); right; exact Hin).
    destruct (analyzer text) as [r|e].
    + apply IH; [exact Hrest|].
      pose proof (Hw name analyzer (or_introl eq_refl)) as Hn.
      destruct Hacc as (H1 & H2 & H3).
      rewrite !add_weighted_values. unfold scores_eq.
      cbn [map_values positive negative neutral] in *.
      rewrite H1, H2, H3, Hn. repeat split; ring.
    + apply IH; assumption.
Qed.

Lemma finish_scaled (c : Q)
      (individual : list (string * AnalyzerResult)) (acc acc' : Scores) :
  0 < c ->
  scores_eq acc' (map_values (fun v => c * v) acc) ->
  let r := finish individual acc in
  let r' := finish individual acc' in
  e_sentiment r' = e_sentiment r /\
  (0 < sum_values acc ->
   scores_eq (e_scores r') (e_scores r)
   /\ e_confidence r' == e_confidence r) /\
  (c == 1 ->
   scores_eq (e_scores r') (e_scores r)
   /\ e_confidence r' == e_confidence r).
Proof.
  intros Hc Hacc. cbv zeta.
  assert (Hsum : sum_values acc' == c * sum_values acc).
  { destruct Hacc as (H1 & H2 & H3).
    cbn [map_values positive negative neutral] in *.
    rewrite !sum_values_eq, H1, H2, H3. ring. }
  (* the scores after normalization, in both runs *)
  assert (Hrel : exists d : Q,
             0 < d /\
             scores_eq (e_scores (finish individual acc'))
               (map_values (fun v => d * v)
                  (e_scores (finish individual acc))) /\
             (0 < sum_values acc \/ c == 1 -> d == 1)).
  { unfold finish. cbv zeta.
    destruct (Qlt_bool_spec 0 (sum_values acc)) as [Ht|Ht];
      destruct (Qlt_bool_spec 0 (sum_values acc')) as [Ht'|Ht'];
      cbn [e_scores].
    - exists 1. split; [lra|]. split; [|intros; reflexivity].
      destruct Hacc as (H1 & H2 & H3). unfold scores_eq.
      cbn [map_values positive negative neutral] in *.
      rewrite H1, H2, H3, Hsum. repeat split; field; lra.
    - exfalso. apply Ht'. rewrite Hsum.
      apply Qmult_lt_0_compat; assumption.
    - exfalso. apply Ht.
      assert (E : sum_values acc == sum_values acc' * / c)
        by (rewrite Hsum; field; lra).
      rewrite E. apply Qmult_lt_0_compat; [exact Ht'|].
      apply Qinv_lt_0_compat, Hc.
    - exists c. split; [exact Hc|]. split; [exact Hacc|].
      intros [H|H]; [contradiction|exact H]. }
  destruct Hrel as (d & Hd & Hs & Hone).
  assert (Hlabel : e_sentiment (finish individual acc')
                   = e_sentiment (finish individual acc)).
  { destruct (finish_label individual acc') as [-> _].
    destruct (finish_label individual acc) as [-> _].
    apply max_key_same_order. apply (scaled_same_order d); assumption. }
  assert (Hsame : d == 1 ->
            scores_eq (e_scores (finish individual acc'))
              (e_scores (finish individual acc))
            /\ e_confidence (finish individual acc')
               == e_confidence (finish individual acc)).
  { intros H1.
    assert (Heq : scores_eq (e_scores (finish individual acc'))
                    (e_scores (finish individual acc))).
    { destruct Hs as (A & B & C). unfold scores_eq.
      cbn [map_values positive negative neutral] in *.
      rewrite A, B, C, H1. repeat split; ring. }
    split; [exact Heq|].
    destruct (finish_label individual acc') as [_ ->].
    destruct (finish_label individual acc) as [_ ->].
    rewrite Hlabel. destruct Heq as (A & B & C).
    destruct (e_sentiment (finish individual acc)); assumption. }
  split; [exact Hlabel|]. split; intros H; apply Hsame, Hone; tauto.
Qed.

(** X14: the two ensembles agree: on every text, [EnsembleAnalyzer] with
    its default arguments returns the label, the individual results, the
    combined scores and the confidence that
    [SentimentAnalyzer._ensemble_analyze] returns. *)
Theorem the_two_ensembles_agree (env : Libraries) (method : string)
        (preprocess : bool) (text : string) :
  let b :=
    SentimentAnalyzer._ensemble_analyze
      (SentimentAnalyzer.init env method preprocess) text in
  exists a,
    EnsembleAnalyzer.analyze (EnsembleAnalyzer.default env) text = Ok a /\
    e_sentiment a = e_sentiment b /\
    individual_results a = individual_results b /\
    scores_eq (e_scores a) (e_scores b) /\
    e_confidence a == e_confidence b.
Proof.
  cbv zeta. eexists. split; [reflexivity|].
  unfold SentimentAnalyzer._ensemble_analyze.
  change (SentimentAnalyzer.analyzers
            (SentimentAnalyzer.init env method preprocess))
    with (EnsembleAnalyzer.analyzers (EnsembleAnalyzer.default env)).
  set (analyzers := EnsembleAnalyzer.analyzers (EnsembleAnalyzer.default env)).
  assert (Hw : forall name analyzer,
             In (name, analyzer) analyzers ->
             EnsembleAnalyzer.weight_of (EnsembleAnalyzer.default env) name
             == 1 * SentimentAnalyzer._get_analyzer_weight name).
  { intros name analyzer [H|[H|[H|[]]]]; injection H as <- _;
      vm_compute; reflexivity. }
  rewrite !combine_eq. unfold accumulated.
  assert (H0 : scores_eq (mkScores 0.0 0.0 0.0)
                 (map_values (fun v => 1 * v) (mkScores 0.0 0.0 0.0))).
  { unfold scores_eq. cbn [map_values positive negative neutral].
    repeat split; ring. }
  destruct (run_analyzers_scaled 1 _ _ text analyzers Hw [] _ _ H0)
    as [Hind Hacc].
  rewrite Hind.
  destruct (finish_scaled 1
              (fst (run_analyzers SentimentAnalyzer._get_analyzer_weight
                      analyzers text [] (mkScores 0.0 0.0 0.0)))
              _ _ ltac:(lra) Hacc) as (Hl & _ & Hone).
  cbv zeta in Hl, Hone.
  destruct (Hone ltac:(reflexivity)) as [Hs Hc].
  split; [exact Hl|]. split; [reflexivity|]. split; assumption.
Qed.

(** ** Statistics *)

Lemma count_partition (sentiments : list SentimentLabel) :
  (SentimentAnalyzer.count POSITIVE sentiments
   + SentimentAnalyzer.count NEGATIVE sentiments
   + SentimentAnalyzer.count NEUTRAL sentiments)%nat
  = List.length sentiments.
Proof.
  unfold SentimentAnalyzer.count.
  induction sentiments as [|l rest IH]; [reflexivity|].
  destruct l; simpl; lia.
Qed.

Lemma Q_of_nat_add (a b : nat) : Q_of_nat (a + b) == Q_of_nat a + Q_of_nat b.
Proof.
  unfold Q_of_nat. rewrite Nat2Z.inj_add, inject_Z_plus. reflexivity.
Qed.

(** The three fractions of a label distribution. *)
Lemma distribution_is_a_distribution (sentiments : list SentimentLabel) :
  sentiments <> [] ->
  let n := Q_of_nat (List.length sentiments) in
  let d :=
    mkScores (Q_of_nat (SentimentAnalyzer.count POSITIVE sentiments) / n)
             (Q_of_nat (SentimentAnalyzer.count NEGATIVE sentiments) / n)
             (Q_of_nat (SentimentAnalyzer.count NEUTRAL sentiments) / n) in
  nonneg d /\ sum_values d == 1.
Proof.
  intros Hne. cbv zeta.
  assert (Hn : 0 < Q_of_nat (List.length sentiments)).
  { apply Q_of_nat_pos. destruct sentiments; [contradiction|simpl; lia]. }
  split.
  - unfold nonneg. cbn [positive negative neutral].
    repeat split; apply Qdiv_nonneg; try exact Hn; apply Q_of_nat_nonneg.
  - rewrite sum_values_eq. cbn [positive negative neutral].
    rewrite <- (count_partition sentiments) at 1 2 3.
    rewrite <- (count_partition sentiments) in Hn.
    rewrite !Q_of_nat_add in *. field. lra.
Qed.

Lemma py_sum_from (xs : list Q) (a : Q) :
  fold_left Qplus xs a == a + py_sum xs.
Proof.
  unfold py_sum. revert a.
  induction xs as [|x xs IH]; intros a; simpl; [ring|].
  rewrite (IH (a + x)), (IH (0 + x)). ring.
Qed.

Lemma py_sum_cons (x : Q) (xs : list Q) : py_sum (x :: xs) == x + py_sum xs.
Proof. unfold py_sum at 1. simpl. rewrite py_sum_from. ring. Qed.

Lemma py_sum_bounds (lo hi : Q) (xs : list Q) :
  Forall (fun x => lo <= x /\ x <= hi) xs ->
  Q_of_nat (List.length xs) * lo <= py_sum xs
  /\ py_sum xs <= Q_of_nat (List.length xs) * hi.
Proof.
  induction 1 as [|x xs [Hlo Hhi] _ [IHlo IHhi]].
  - change (Q_of_nat (List.length (@nil Q))) with 0.
    change (py_sum []) with 0. split; lra.
  - rewrite py_sum_cons.
    change (List.length (x :: xs)) with (1 + List.length xs)%nat.
    rewrite Q_of_nat_add.
    change (Q_of_nat 1) with 1. split; lra.
Qed.

(** X15: for results that are not empty, the label distribution of
    [get_statistics] consists of three fractions in [0, 1] that sum to 1.0
    within 1e-6, and the count is the number of results. *)
Theorem statistics_distribution_sums_to_one (results : list SentimentResult) :
  results <> [] ->
  exists stats,
    SentimentAnalyzer.get_statistics results = Some stats /\
    total_analyzed stats = List.length results /\
    within_unit (sentiment_distribution stats) /\
    about_one (sum_values (sentiment_distribution stats)).
Proof.
  intros Hne. destruct results as [|r results]; [contradiction|].
  eexists. split; [reflexivity|].
  cbn [total_analyzed sentiment_distribution]. split; [reflexivity|].
  destruct (distribution_is_a_distribution
              (map r_sentiment (r :: results))) as [Hnn Hsum];
    [discriminate|].
  cbv zeta in Hnn, Hsum.
  split; [|apply about_one_of_eq, Hsum].
  rewrite sum_values_eq in Hsum. destruct Hnn as (Hp & Hn & Hu).
  intros []; cbn [get]; split; try assumption; lra.
Qed.

Lemma statistics_distribution_sums_to_one_witness :
  exists stats,
    SentimentAnalyzer.get_statistics
      (fst (SentimentAnalyzer.analyze_batch Sample.quirky
              (SentimentAnalyzer.init Sample.quirky "vader" true)
              Sample.batch 0)) = Some stats /\
    about_one (sum_values (sentiment_distribution stats)).
Proof.
  destruct (statistics_distribution_sums_to_one
              (fst (SentimentAnalyzer.analyze_batch Sample.quirky
                      (SentimentAnalyzer.init Sample.quirky "vader" true)
                      Sample.batch 0)))
    as (stats & Hs & _ & _ & Hsum).
  - vm_compute. discriminate.
  - exists stats. split; assumption.
Defined.

(** X16: the averages of [get_statistics] stay in range: when every
    confidence lies in [0, 1] so does the average confidence, and when no
    processing time is negative neither the total nor the average
    processing time is. *)
Theorem statistics_averages (results : list SentimentResult) :
  results <> [] ->
  Forall (fun r => 0 <= r_confidence r /\ r_confidence r <= 1) results ->
  exists stats,
    SentimentAnalyzer.get_statistics results = Some stats /\
    0 <= average_confidence stats /\ average_confidence stats <= 1 /\
    (Forall (fun r => 0 <= processing_time r) results ->
     0 <= total_processing_time stats /\
     0 <= average_processing_time stats).
Proof.
  intros Hne Hall. destruct results as [|r results]; [contradiction|].
  eexists. split; [reflexivity|].
  cbn [average_confidence average_processing_time total_analyzed
         total_processing_time].
  set (rs := r :: results) in *.
  rewrite !length_map.
  assert (Hn : 0 < Q_of_nat (List.length rs))
    by (apply Q_of_nat_pos; simpl; lia).
  assert (Hb : Forall (fun x => 0 <= x /\ x <= 1) (map r_confidence rs)).
  { clear -Hall. induction Hall; simpl; constructor; assumption. }
  destruct (py_sum_bounds 0 1 _ Hb) as [Hlo Hhi].
  rewrite length_map in Hlo, Hhi.
  split; [apply Qdiv_nonneg; [exact Hn|lra]|].
  split; [apply Qle_shift_div_r; [exact Hn|lra]|].
  intros Htimes.
  assert (Ht : 0 <= py_sum (map processing_time rs)).
  { clear -Htimes. induction Htimes as [|x xs Hx _ IH].
    - change (py_sum (map processing_time [])) with 0. lra.
    - cbn [map]. rewrite py_sum_cons. lra. }
  split; [exact Ht|apply Qdiv_nonneg; assumption].
Qed.

Lemma statistics_averages_witness :
  exists stats,
    SentimentAnalyzer.get_statistics
      (fst (SentimentAnalyzer.analyze_batch Sample.quirky
              (SentimentAnalyzer.init Sample.quirky "vader" true)
              Sample.batch 0)) = Some stats /\
    average_confidence stats <= 1.
Proof.
  destruct (statistics_averages
              (fst (SentimentAnalyzer.analyze_batch Sample.quirky
                      (SentimentAnalyzer.init Sample.quirky "vader" true)
                      Sample.batch 0)))
    as (stats & Hs & _ & Hhi & _).
  - vm_compute. discriminate.
  - vm_compute. repeat constructor; discriminate.
  - exists stats. split; assumption.
Defined.

(** ** Single texts and batches, by method *)

Lemma analyze_ensemble (env : Libraries) (sa : SentimentAnalyzer.t)
      (text : string) (clock : nat) :
  SentimentAnalyzer.method sa = "ensemble" ->
  let e :=
    SentimentAnalyzer._ensemble_analyze sa
      (SentimentAnalyzer.processed env sa text) in
  SentimentAnalyzer.analyze env sa text clock
  = (Ok (mkSentimentResult text (e_sentiment e) (e_confidence e) (e_scores e)
           "ensemble"
           (time_time env (S clock) - time_time env clock)),
     S (S clock)).
Proof.
  intros Hm. cbv zeta. unfold SentimentAnalyzer.analyze. cbv zeta.
  rewrite Hm. reflexivity.
Qed.

Lemma analyze_batch_clock_cons (env : Libraries) (sa : SentimentAnalyzer.t)
      (text : string) (rest : list string) (clock : nat) :
  snd (SentimentAnalyzer.analyze_batch env sa (text :: rest) clock)
  = snd (SentimentAnalyzer.analyze_batch env sa rest
           (snd (SentimentAnalyzer.analyze env sa text clock))).
Proof.
  simpl. destruct (SentimentAnalyzer.analyze env sa text clock) as [outcome c].
  cbn [fst snd].
  destruct (SentimentAnalyzer.analyze_batch env sa rest c) as [results c'].
  reflexivity.
Qed.

Lemma analyze_batch_ensemble_clock (env : Libraries)
      (sa : SentimentAnalyzer.t) (texts : list string) :
  SentimentAnalyzer.method sa = "ensemble" ->
  forall clock,
    snd (SentimentAnalyzer.analyze_batch env sa texts clock)
    = (clock + 2 * List.length texts)%nat.
Proof.
  intros Hm. induction texts as [|text rest IH]; intros clock.
  - simpl. lia.
  - rewrite analyze_batch_clock_cons.
    rewrite (analyze_ensemble env sa text clock Hm). cbv zeta. cbn [snd].
    rewrite IH. simpl. lia.
Qed.

(** X17: with the method "ensemble" a single-text analysis always returns:
    it reads the clock exactly twice and carries the ensemble's label,
    confidence and scores for the preprocessed text.  A batch therefore
    never contains a stand-in: it holds the ensemble's own result for every
    text, and reads the clock twice per text. *)
Theorem ensemble_method_always_returns (env : Libraries)
        (sa : SentimentAnalyzer.t) (texts : list string) (clock : nat) :
  SentimentAnalyzer.method sa = "ensemble" ->
  (forall text c,
      exists r,
        SentimentAnalyzer.analyze env sa text c = (Ok r, S (S c))) /\
  snd (SentimentAnalyzer.analyze_batch env sa texts clock)
  = (clock + 2 * List.length texts)%nat /\
  Forall2
    (fun text r =>
       let e :=
         SentimentAnalyzer._ensemble_analyze sa
           (SentimentAnalyzer.processed env sa text) in
       r_text r = text /\ r_sentiment r = e_sentiment e /\
       r_confidence r = e_confidence e /\ r_scores r = e_scores e)
    texts (fst (SentimentAnalyzer.analyze_batch env sa texts clock)).
Proof.
  intros Hm. split; [|split].
  - intros text c. eexists. apply analyze_ensemble, Hm.
  - apply analyze_batch_ensemble_clock, Hm.
  - revert clock. induction texts as [|text rest IH]; intros clock.
    + constructor.
    + rewrite analyze_batch_cons.
      rewrite (analyze_ensemble env sa text clock Hm). cbv zeta.
      cbn [fst snd batch_entry]. constructor; [|apply IH].
      cbn. repeat split.
Qed.

Lemma ensemble_method_always_returns_witness :
  let sa :=
    SentimentAnalyzer.mk "ensemble" true
      (Some (TextPreprocessor.default Sample.failing))
      [("vader", VaderAnalyzer.analyze Sample.failing);
       ("textblob", TextBlobAnalyzer.analyze Sample.failing)] in
  map r_sentiment
    (fst (SentimentAnalyzer.analyze_batch Sample.failing sa Sample.batch 0))
  = [POSITIVE; POSITIVE; POSITIVE] /\
  snd (SentimentAnalyzer.analyze_batch Sample.failing sa Sample.batch 0)
  = 6%nat.
Proof.
  cbv zeta. split; [vm_compute; reflexivity|].
  apply (ensemble_method_always_returns Sample.failing
           (SentimentAnalyzer.mk "ensemble" true
              (Some (TextPreprocessor.default Sample.failing))
              [("vader", VaderAnalyzer.analyze Sample.failing);
               ("textblob", TextBlobAnalyzer.analyze Sample.failing)])
           Sample.batch 0).
  reflexivity.
Defined.

Lemma analyze_unknown_method (env : Libraries) (sa : SentimentAnalyzer.t)
      (text : string) (clock : nat) :
  SentimentAnalyzer.method sa <> "ensemble" ->
  dict_get (SentimentAnalyzer.analyzers sa) (SentimentAnalyzer.method sa)
  = None ->
  SentimentAnalyzer.analyze env sa text clock
  = (Raise (ValueError ("Unknown analysis method: "
                        ++ SentimentAnalyzer.method sa)),
     S clock).
Proof.
  intros Hm Hget. unfold SentimentAnalyzer.analyze. cbv zeta.
  destruct (String.eqb_spec (SentimentAnalyzer.method sa) "ensemble")
    as [E|_]; [contradiction|].
  rewrite Hget. reflexivity.
Qed.

Lemma analyze_batch_unknown_method (env : Libraries)
      (sa : SentimentAnalyzer.t) (texts : list string) :
  SentimentAnalyzer.method sa <> "ensemble" ->
  dict_get (SentimentAnalyzer.analyzers sa) (SentimentAnalyzer.method sa)
  = None ->
  forall clock,
    SentimentAnalyzer.analyze_batch env sa texts clock
    = (map (SentimentAnalyzer.error_result sa) texts,
       (clock + List.length texts)%nat).
Proof.
  intros Hm Hget. induction texts as [|text rest IH]; intros clock.
  - simpl. f_equal. lia.
  - cbn [SentimentAnalyzer.analyze_batch].
    rewrite (analyze_unknown_method env sa text clock Hm Hget), IH.
    simpl. f_equal. lia.
Qed.

Lemma count_stand_ins (sa : SentimentAnalyzer.t) (texts : list string)
      (l : SentimentLabel) :
  SentimentAnalyzer.count l
    (map r_sentiment (map (SentimentAnalyzer.error_result sa) texts))
  = if SentimentLabel_eqb l NEUTRAL then List.length texts else 0%nat.
Proof.
  unfold SentimentAnalyzer.count.
  induction texts as [|text rest IH]; simpl.
  - destruct (SentimentLabel_eqb l NEUTRAL); reflexivity.
  - destruct (SentimentLabel_eqb l NEUTRAL); simpl; rewrite IH; reflexivity.
Qed.

Lemma py_sum_zeros (xs : list Q) :
  Forall (fun x => x == 0) xs -> py_sum xs == 0.
Proof.
  induction 1 as [|x xs Hx _ IH]; [reflexivity|].
  rewrite py_sum_cons, Hx, IH. reflexivity.
Qed.

(** X18: a method name that is neither "ensemble" nor the name of an
    analyzer makes every single-text analysis raise a ValueError that names
    the method, after one reading of the clock.  A batch does not raise: it
    returns the neutral stand-in for every text, and for a batch that is
    not empty the statistics are all neutral (fractions 0, 0, 1) with
    average confidence 0 and total processing time 0. *)
Theorem unknown_method_fills_batch_with_stand_ins (env : Libraries)
        (sa : SentimentAnalyzer.t) (texts : list string) (clock : nat) :
  SentimentAnalyzer.method sa <> "ensemble" ->
  dict_get (SentimentAnalyzer.analyzers sa) (SentimentAnalyzer.method sa)
  = None ->
  (forall text c,
      SentimentAnalyzer.analyze env sa text c
      = (Raise (ValueError ("Unknown analysis method: "
                            ++ SentimentAnalyzer.method sa)),
         S c)) /\
  fst (SentimentAnalyzer.analyze_batch env sa texts clock)
  = map (SentimentAnalyzer.error_result sa) texts /\
  (texts <> [] ->
   exists stats,
     SentimentAnalyzer.get_statistics
       (fst (SentimentAnalyzer.analyze_batch env sa texts clock))
     = Some stats /\
     total_analyzed stats = List.length texts /\
     scores_eq (sentiment_distribution stats) (mkScores 0 0 1) /\
     average_confidence stats == 0 /\
     total_processing_time stats == 0).
Proof.
  intros Hm Hget. split; [|split].
  - intros text c. apply analyze_unknown_method; assumption.
  - rewrite (analyze_batch_unknown_method env sa texts Hm Hget). reflexivity.
  - intros Hne.
    rewrite (analyze_batch_unknown_method env sa texts Hm Hget).
    cbn [fst]. destruct texts as [|text rest]; [contradiction|].
    set (texts := text :: rest) in *.
    eexists. split; [reflexivity|].
    cbn [total_analyzed sentiment_distribution average_confidence
           total_processing_time].
    fold texts. rewrite !count_stand_ins. cbn [SentimentLabel_eqb].
    rewrite !length_map.
    assert (Hn : 0 < Q_of_nat (List.length texts))
      by (apply Q_of_nat_pos; simpl; lia).
    assert (Hc : py_sum (map r_confidence
                           (map (SentimentAnalyzer.error_result sa) texts))
                 == 0).
    { apply py_sum_zeros. clear. induction texts; simpl; constructor;
        [reflexivity|assumption]. }
    assert (Ht : py_sum (map processing_time
                           (map (SentimentAnalyzer.error_result sa) texts))
                 == 0).
    { apply py_sum_zeros. clear. induction texts; simpl; constructor;
        [reflexivity|assumption]. }
    split; [reflexivity|]. split.
    + unfold scores_eq. cbn [positive negative neutral].
      change (Q_of_nat 0) with 0. repeat split; field; lra.
    + rewrite Hc, Ht. split; [field; lra|reflexivity].
Qed.

Lemma unknown_method_fills_batch_with_stand_ins_witness :
  let sa := SentimentAnalyzer.init Sample.healthy "bert" true in
  map r_sentiment
    (fst (SentimentAnalyzer.analyze_batch Sample.healthy sa Sample.batch 0))
  = [NEUTRAL; NEUTRAL; NEUTRAL].
Proof.
  cbv zeta.
  destruct (unknown_method_fills_batch_with_stand_ins Sample.healthy
              (SentimentAnalyzer.init Sample.healthy "bert" true)
              Sample.batch 0) as (_ & Hbatch & _).
  - discriminate.
  - reflexivity.
  - rewrite Hbatch. reflexivity.
Defined.

(** ** [get_analyzer_performance] *)

Lemma analyze_all_raises (analyzer : Analyzer) (texts : list string) :
  (exists text e, In text texts /\ analyzer text = Raise e) ->
  exists e, Performance.analyze_all analyzer texts = Raise e.
Proof.
  induction texts as [|t rest IH]; intros (text & e & Hin & He).
  - destruct Hin.
  - cbn [Performance.analyze_all].
    destruct (analyzer t) as [r|e'] eqn:Et; [|exists e'; reflexivity].
    cbn [bind]. destruct Hin as [->|Hin]; [congruence|].
    destruct IH as [e'' He'']; [exists text, e; tauto|].
    rewrite He''. exists e''. reflexivity.
Qed.

Lemma analyze_all_returns (analyzer : Analyzer) (texts : list string) :
  (forall text, In text texts -> exists r, analyzer text = Ok r) ->
  exists results,
    Performance.analyze_all analyzer texts = Ok results /\
    List.length results = List.length texts.
Proof.
  induction texts as [|t rest IH]; intros Hall.
  - exists []. split; reflexivity.
  - cbn [Performance.analyze_all].
    destruct (Hall t (or_introl eq_refl)) as [r Hr]. rewrite Hr. cbn [bind].
    destruct IH as (results & Hres & Hlen);
      [intros text Hin; apply Hall; right; exact Hin|].
    rewrite Hres. cbn [bind]. exists (r :: results).
    split; [reflexivity|simpl; rewrite Hlen; reflexivity].
Qed.

(** X19: [get_analyzer_performance] stores one entry per configured
    analyzer, under its name and in the dict's order.  For an empty list of
    texts every entry is an error (the division by the number of texts).
    An analyzer that raises on any one text gets an error entry in place of
    its metrics.  An analyzer that returns on every text of a list that is
    not empty gets metrics whose count is the number of texts and whose
    label fractions are not negative and sum to 1.0 within 1e-6. *)
Theorem performance_entries (ens : EnsembleAnalyzer.t)
        (texts : list string) (name : string) (analyzer : Analyzer) :
  In (name, analyzer) (EnsembleAnalyzer.analyzers ens) ->
  let perf := Performance.get_analyzer_performance ens texts in
  map fst perf = map fst (EnsembleAnalyzer.analyzers ens) /\
  In (name, Performance.measure analyzer texts) perf /\
  (texts = [] ->
   Performance.measure analyzer texts
   = Performance.Error Performance.ZeroDivisionError) /\
  ((exists text e, In text texts /\ analyzer text = Raise e) ->
   exists e,
     Performance.measure analyzer texts
     = Performance.Error (Performance.Raised e)) /\
  (texts <> [] ->
   (forall text, In text texts -> exists r, analyzer text = Ok r) ->
   exists avg dist,
     Performance.measure analyzer texts
     = Performance.Metrics avg dist (List.length texts) /\
     nonneg dist /\ about_one (sum_values dist)).
Proof.
  intros Hin. cbv zeta. unfold Performance.get_analyzer_performance.
  split; [rewrite map_map; reflexivity|].
  split; [apply (in_map (fun entry =>
                           (fst entry,
                            Performance.measure (snd entry) texts))
                   _ _ Hin)|].
  split; [intros ->; reflexivity|]. split.
  - intros Hraise. unfold Performance.measure.
    destruct (analyze_all_raises analyzer texts Hraise) as [e ->].
    exists e. reflexivity.
  - intros Hne Hall. unfold Performance.measure.
    destruct (analyze_all_returns analyzer texts Hall)
      as (results & -> & Hlen).
    destruct results as [|r results];
      [destruct texts; [contradiction|discriminate Hlen]|].
    cbn [map]. rewrite <- Hlen. eexists. eexists.
    split; [reflexivity|].
    destruct (distribution_is_a_distribution (map sentiment (r :: results)))
      as [Hnn Hsum]; [discriminate|].
    split; [exact Hnn|apply about_one_of_eq, Hsum].
Qed.

Lemma performance_entries_witness :
  In ("vader",
      Performance.Error (Performance.Raised (LibraryError "empty text")))
     (Performance.get_analyzer_performance
        (EnsembleAnalyzer.default Sample.quirky) Sample.batch).
Proof.
  destruct (performance_entries (EnsembleAnalyzer.default Sample.quirky)
              Sample.batch "vader" (VaderAnalyzer.analyze Sample.quirky))
    as (_ & Hin & _).
  - left. reflexivity.
  - exact Hin.
Defined.

(** ** [validate_text_input] *)

Lemma strip_empty_or_not (s : string) :
  (String.length s =? 0)%nat = true <-> s = EmptyString.
Proof.
  destruct s; simpl; split; intros H; try reflexivity; discriminate H.
Qed.

(** X20: [validate_text_input] accepts a text exactly when its stripped
    form is not empty and not longer than [max_length]; what it accepts is
    that stripped form with its length, which has no leading or trailing
    whitespace and is accepted unchanged when validated again.  The empty
    text and a text of whitespace only are rejected. *)
Theorem validation_accepts_stripped_text (text : string) (max_length : nat) :
  match Helpers.validate_text_input text max_length with
  | Helpers.Accepted cleaned n =>
      cleaned = PyStr.strip text /\
      n = String.length cleaned /\
      (0 < n)%nat /\ (n <= max_length)%nat /\
      PyStr.strip cleaned = cleaned /\
      Helpers.validate_text_input cleaned max_length
      = Helpers.Accepted cleaned n
  | Helpers.Rejected _ =>
      PyStr.strip text = EmptyString
      \/ (max_length < String.length (PyStr.strip text))%nat
  end.
Proof.
  unfold Helpers.validate_text_input at 1.
  destruct text as [|c text]; [left; reflexivity|]. cbv zeta.
  set (cleaned := PyStr.strip (String c text)).
  destruct (String.length cleaned =? 0)%nat eqn:E0.
  - left. apply strip_empty_or_not, E0.
  - destruct (Nat.ltb_spec max_length (String.length cleaned)) as [Hl|Hl].
    + right. exact Hl.
    + assert (Hs : PyStr.strip cleaned = cleaned)
        by apply strip_idempotent.
      apply Nat.eqb_neq in E0.
      repeat split; try lia; try exact Hs.
      unfold Helpers.validate_text_input.
      destruct cleaned as [|d rest] eqn:Ec; [simpl in E0; lia|].
      cbv zeta. rewrite Hs.
      destruct (String.length (String d rest) =? 0)%nat eqn:E1;
        [simpl in E1; discriminate E1|].
      destruct (Nat.ltb_spec max_length (String.length (String d rest)));
        [lia|reflexivity].
Qed.


(** ** The stripping stages only delete *)

Lemma suffix_refl (s : string) : Suffix s s.
Proof. exists EmptyString. reflexivity. Qed.

Lemma suffix_tail (c : ascii) (t s : string) :
  Suffix t s -> Suffix t (String c s).
Proof. intros [pre ->]. exists (String c pre). reflexivity. Qed.

Lemma string_app_assoc (a b c : string) : (a ++ b) ++ c = a ++ b ++ c.
Proof.
  induction a as [|x a IH]; simpl; [reflexivity|]. rewrite IH. reflexivity.
Qed.

Lemma suffix_trans (u t s : string) : Suffix u t -> Suffix t s -> Suffix u s.
Proof.
  intros [p1 ->] [p2 ->]. exists (p2 ++ p1). symmetry. apply string_app_assoc.
Qed.

Lemma match_lit_suffix (lit : string) : hands_on_suffix (Re.match_lit lit).
Proof.
  induction lit as [|d lit IH]; intros prev s k res H; simpl in H.
  - exists prev, s. split; [apply suffix_refl|exact H].
  - destruct s as [|c s]; [discriminate H|].
    destruct (Ascii.eqb c d); [|discriminate H].
    destruct (IH _ _ _ _ H) as (p' & s' & Hs & Hk).
    exists p', s'. split; [apply suffix_tail, Hs|exact Hk].
Qed.

Lemma rep_loop_suffix
      (m : option ascii -> string -> Re.Cont -> option Re.Pos) (k : Re.Cont) :
  hands_on_suffix m ->
  forall fuel lo prev s res,
    Re.rep_loop m k fuel lo prev s = Some res ->
    exists prev' s', Suffix s' s /\ k prev' s' = Some res.
Proof.
  intros Hm. induction fuel as [|fuel IH]; intros lo prev s res H.
  - simpl in H. destruct lo; [|discriminate H].
    exists prev, s. split; [apply suffix_refl|exact H].
  - cbn [Re.rep_loop] in H.
    destruct (m prev s _) as [p|] eqn:E.
    + injection H as ->.
      destruct (Hm _ _ _ _ E) as (p1 & s1 & Hs1 & Hk1).
      destruct (String.length s1 <? String.length s)%nat; [|discriminate Hk1].
      destruct (IH _ _ _ _ Hk1) as (p2 & s2 & Hs2 & Hk2).
      exists p2, s2. split; [apply (suffix_trans _ _ _ Hs2 Hs1)|exact Hk2].
    + destruct lo; [|discriminate H].
      exists prev, s. split; [apply suffix_refl|exact H].
Qed.

Lemma rmatch_suffix (r : Re.regex) : hands_on_suffix (Re.rmatch r).
Proof.
  induction r as [p|lit|r1 IH1 r2 IH2|r1 IH1 r2 IH2|lo r1 IH1|r1 IH1|];
    intros prev s k res H.
  - rewrite rmatch_cls in H. destruct s as [|c s]; [discriminate H|].
    destruct (p c); [|discriminate H].
    exists (Some c), s. split; [apply suffix_tail, suffix_refl|exact H].
  - apply (match_lit_suffix lit _ _ _ _ H).
  - rewrite rmatch_cat in H.
    destruct (IH1 _ _ _ _ H) as (p1 & s1 & Hs1 & Hk1).
    destruct (IH2 _ _ _ _ Hk1) as (p2 & s2 & Hs2 & Hk2).
    exists p2, s2. split; [apply (suffix_trans _ _ _ Hs2 Hs1)|exact Hk2].
  - cbn [Re.rmatch] in H.
    destruct (Re.rmatch r1 prev s k) as [p|] eqn:E.
    + injection H as ->. apply (IH1 _ _ _ _ E).
    + apply (IH2 _ _ _ _ H).
  - rewrite rmatch_rep in H. apply (rep_loop_suffix _ _ IH1 _ _ _ _ _ H).
  - rewrite rmatch_opt in H.
    destruct (Re.rmatch r1 prev s k) as [p|] eqn:E.
    + injection H as ->. apply (IH1 _ _ _ _ E).
    + exists prev, s. split; [apply suffix_refl|exact H].
  - rewrite rmatch_boundary in H.
    destruct (xorb _ _); [|discriminate H].
    exists prev, s. split; [apply suffix_refl|exact H].
Qed.

(** A match ends inside the text: what follows it is a suffix. *)
Lemma match_here_suffix (r : Re.regex) (prev prev' : option ascii)
      (s rest : string) :
  Re.match_here r prev s = Some (prev', rest) -> Suffix rest s.
Proof.
  intros H. destruct (rmatch_suffix r _ _ _ _ H) as (p & s' & Hs & Hk).
  injection Hk as _ <-. exact Hs.
Qed.

Lemma subsequence_refl (s : string) : Subsequence s s.
Proof. induction s; constructor; assumption. Qed.

Lemma subsequence_of_suffix (a t s : string) :
  Subsequence a t -> Suffix t s -> Subsequence a s.
Proof.
  intros Ha [pre ->]. induction pre as [|c pre IH]; simpl;
    [exact Ha|constructor; exact IH].
Qed.

Lemma subsequence_length (a b : string) :
  Subsequence a b -> (String.length a <= String.length b)%nat.
Proof. induction 1; simpl; lia. Qed.

Lemma sub_from_deletes (r : Re.regex) :
  forall fuel prev s, Subsequence (Re.sub_from fuel r "" prev s) s.
Proof.
  induction fuel as [|fuel IH]; intros prev s; [apply subsequence_refl|].
  cbn [Re.sub_from].
  assert (Hcopy : Subsequence
                    match s with
                    | EmptyString => EmptyString
                    | String c s' =>
                        String c (Re.sub_from fuel r "" (Some c) s')
                    end s).
  { destruct s as [|c s]; constructor. apply IH. }
  destruct (Re.match_here r prev s) as [[prev' rest]|] eqn:E;
    [|exact Hcopy].
  destruct (String.length rest <? String.length s)%nat; [|exact Hcopy].
  simpl. apply (subsequence_of_suffix _ rest); [apply IH|].
  apply (match_here_suffix _ _ _ _ _ E).
Qed.

(** X21: the four stripping stages only delete: the output of
    [_remove_html_tags], [_remove_urls], [_remove_emails] and
    [_remove_special_characters] is the input with some characters
    removed, nothing inserted or reordered, and so never longer than the
    input. *)
Theorem stripping_only_deletes (text : string) :
  Subsequence (TextPreprocessor._remove_html_tags text) text /\
  Subsequence (TextPreprocessor._remove_urls text) text /\
  Subsequence (TextPreprocessor._remove_emails text) text /\
  Subsequence (TextPreprocessor._remove_special_characters text) text /\
  (String.length (TextPreprocessor._remove_html_tags text)
   <= String.length text)%nat /\
  (String.length (TextPreprocessor._remove_urls text)
   <= String.length text)%nat /\
  (String.length (TextPreprocessor._remove_emails text)
   <= String.length text)%nat.
Proof.
  unfold TextPreprocessor._remove_html_tags, TextPreprocessor._remove_urls,
    TextPreprocessor._remove_emails,
    TextPreprocessor._remove_special_characters, Re.sub.
  repeat split; try apply subsequence_length; apply sub_from_deletes.
Qed.

(** ** Whitespace-only text *)

Lemma collapse_true_of_spaces (s : string) :
  all_chars PyStr.isspace s = true -> collapse true s = EmptyString.
Proof.
  induction s as [|c s IH]; simpl; [reflexivity|].
  intros H. apply andb_true_iff in H as [Hc Hs]. rewrite Hc. apply IH, Hs.
Qed.

Lemma strip_collapse_of_spaces (s : string) :
  all_chars PyStr.isspace s = true ->
  PyStr.strip (collapse false s) = EmptyString.
Proof.
  destruct s as [|c s]; [reflexivity|]. simpl.
  intros H. apply andb_true_iff in H as [Hc Hs]. rewrite Hc.
  rewrite (collapse_true_of_spaces s Hs). reflexivity.
Qed.

Lemma spaces_lack (d : ascii) (s : string) :
  PyStr.isspace d = false ->
  all_chars PyStr.isspace s = true -> lacks d s = true.
Proof.
  intros Hd. unfold lacks. induction s as [|c s IH]; simpl; [reflexivity|].
  intros H. apply andb_true_iff in H as [Hc Hs]. rewrite (IH Hs), andb_true_r.
  apply negb_true_iff. destruct (Ascii.eqb_spec c d) as [->|_];
    [congruence|reflexivity].
Qed.

Lemma isspace_basic_lower (c : ascii) :
  implb (PyStr.isspace c)
        (TextPreprocessor.basic_char c
         && PyStr.isspace (PyStr.lower_char c)) = true.
Proof. destruct c as [[] [] [] [] [] [] [] []]; reflexivity. Qed.

(** X23: text made of whitespace only is normalized to the empty string,
    under every configuration in which the token stages do not run; the
    empty string is what the analyzers are then given. *)
Theorem whitespace_only_text_becomes_empty (env : Libraries)
        (config : TextPreprocessor.t) (text : string) :
  all_chars PyStr.isspace text = true ->
  NLTK_AVAILABLE env
  && (TextPreprocessor.remove_stopwords config
      || TextPreprocessor.lemmatize config
      || TextPreprocessor.stem config) = false ->
  TextPreprocessor.preprocess env config text = EmptyString.
Proof.
  intros Hsp Hnltk.
  rewrite (preprocess_plain env config text);
    try exact Hnltk; try (apply spaces_lack; [reflexivity|exact Hsp]).
  cbv zeta. apply strip_collapse_of_spaces.
  assert (Hkept : all_chars PyStr.isspace
                    (if TextPreprocessor.remove_special_chars config
                     then filter_chars TextPreprocessor.basic_char text
                     else text) = true).
  { destruct (TextPreprocessor.remove_special_chars config); [|exact Hsp].
    apply filter_chars_keeps, Hsp. }
  destruct (TextPreprocessor.lowercase config); [|exact Hkept].
  apply all_chars_lower; [|exact Hkept].
  intros c. pose proof (isspace_basic_lower c) as H.
  destruct (PyStr.isspace c); [|reflexivity]. simpl in *.
  apply andb_true_iff in H as [_ H]. exact H.
Qed.

Lemma whitespace_only_text_becomes_empty_witness :
  SentimentAnalyzer.processed Sample.healthy
    (SentimentAnalyzer.init Sample.healthy "vader" true) "    "
  = EmptyString.
Proof.
  apply (whitespace_only_text_becomes_empty Sample.healthy
           (TextPreprocessor.default Sample.healthy) "    "); reflexivity.
Defined.

(** ** [clean_for_analysis] *)

(** One match of a repeated class taken alone: it takes the whole run. *)
Lemma class_loop (p : ascii -> bool) (fuel : nat) :
  forall lo prev s,
    (String.length s < fuel)%nat -> (lo <= 1)%nat ->
    exists prev',
      Re.rep_loop (Re.rmatch (Re.Cls p)) (fun q rest => Some (q, rest))
        fuel lo prev s
      = if match s with String c _ => p c | EmptyString => false end
        then Some (prev', drop_while p s)
        else match lo with O => Some (prev, s) | S _ => None end.
Proof.
  induction fuel as [|fuel IH]; intros lo prev s Hlen Hlo; [lia|].
  cbn [Re.rep_loop]. rewrite rmatch_cls.
  destruct s as [|c s]; [exists prev; reflexivity|].
  destruct (p c) eqn:Ec; [|exists prev; reflexivity].
  assert (Hlt : (String.length s <? String.length (String c s))%nat = true)
    by (apply Nat.ltb_lt; simpl; lia).
  rewrite Hlt.
  assert (Hs : (String.length s < fuel)%nat) by (simpl in Hlen; lia).
  destruct (IH (pred lo) (Some c) s Hs ltac:(lia)) as [p' Hp'].
  rewrite Hp'. replace (pred lo) with 0%nat by lia.
  cbn [drop_while]. rewrite Ec.
  destruct s as [|d s]; [exists (Some c); reflexivity|].
  destruct (p d) eqn:Ed.
  - exists p'. reflexivity.
  - exists (Some c). cbn [drop_while]. rewrite Ed. reflexivity.
Qed.

Lemma blank_is_space (c : ascii) :
  implb (PyStr.is_code 32 c || PyStr.is_code 9 c) (PyStr.isspace c) = true.
Proof. destruct c as [[] [] [] [] [] [] [] []]; reflexivity. Qed.

Lemma sub_from_blanks (fuel : nat) :
  forall prev s,
    (String.length s < fuel)%nat -> single_spaced s = true ->
    Re.sub_from fuel TextPreprocessor.blanks_pattern " " prev s = s.
Proof.
  induction fuel as [|fuel IH]; intros prev s Hlen Hss; [lia|].
  cbn [Re.sub_from]. unfold Re.match_here, TextPreprocessor.blanks_pattern.
  rewrite rmatch_rep.
  destruct (class_loop (fun c => PyStr.is_code 32 c || PyStr.is_code 9 c)
              (S (String.length s)) 1 prev s ltac:(lia) ltac:(lia))
    as [p' Hp'].
  rewrite Hp'. clear Hp'.
  destruct s as [|c s]; [reflexivity|].
  assert (Hs : (String.length s < fuel)%nat) by (simpl in Hlen; lia).
  cbn [single_spaced] in Hss. apply andb_true_iff in Hss as [Hc Hrest].
  destruct (PyStr.is_code 32 c || PyStr.is_code 9 c) eqn:Eb.
  - pose proof (blank_is_space c) as Hsp. rewrite Eb in Hsp. simpl in Hsp.
    rewrite Hsp in Hc. apply andb_true_iff in Hc as [Hc Hn].
    apply Ascii.eqb_eq in Hc. apply negb_true_iff in Hn.
    cbn [drop_while]. rewrite Eb.
    assert (Hd : drop_while
                   (fun c => PyStr.is_code 32 c || PyStr.is_code 9 c) s = s).
    { destruct s as [|d s]; [reflexivity|]. cbn [drop_while].
      simpl in Hn. pose proof (blank_is_space d) as Hbd. rewrite Hn in Hbd.
      destruct (PyStr.is_code 32 d || PyStr.is_code 9 d);
        [discriminate Hbd|reflexivity]. }
    rewrite Hd.
    assert (Hlt : (String.length s <? String.length (String c s))%nat = true)
      by (apply Nat.ltb_lt; simpl; lia).
    rewrite Hlt, (IH _ _ Hs Hrest), Hc. reflexivity.
  - rewrite (IH _ _ Hs Hrest). reflexivity.
Qed.

Lemma single_spaced_lacks_newline (s : string) :
  single_spaced s = true -> lacks (ascii_of_nat 10) s = true.
Proof.
  unfold lacks. induction s as [|c s IH]; simpl; [reflexivity|].
  intros H. apply andb_true_iff in H as [Hc Hs]. rewrite (IH Hs), andb_true_r.
  apply negb_true_iff.
  destruct (Ascii.eqb_spec c (ascii_of_nat 10)) as [->|_]; [|reflexivity].
  vm_compute in Hc. discriminate Hc.
Qed.

Lemma blank_lines_need_newline (prev : option ascii) (t : string) :
  lacks (ascii_of_nat 10) t = true ->
  Re.match_here TextPreprocessor.blank_lines_pattern prev t = None.
Proof.
  intros H. unfold Re.match_here, TextPreprocessor.blank_lines_pattern.
  rewrite rmatch_cat, rmatch_lit. apply match_lit_lacks, H.
Qed.

(** X24: [clean_for_analysis] leaves tidy plain text alone: for text
    without [<], [:] and [@] whose only whitespace is single spaces, it
    returns the text with its leading and trailing space removed, letter
    case and punctuation untouched. *)
Theorem clean_for_analysis_keeps_tidy_text (text : string) :
  lacks "<" text = true -> lacks ":" text = true -> lacks "@" text = true ->
  single_spaced text = true ->
  TextPreprocessor.clean_for_analysis text = PyStr.strip text.
Proof.
  intros Hb Hc Ha Hss. unfold TextPreprocessor.clean_for_analysis.
  pose proof (remove_html_without_bracket text) as Hhtml.
  pose proof (remove_urls_without_colon text) as Hurl.
  pose proof (remove_emails_without_at text) as Hemail.
  destruct text as [|c text]; [reflexivity|]. cbv zeta.
  rewrite (Hhtml Hb), (Hurl Hc), (Hemail Ha).
  unfold Re.sub at 2. rewrite sub_from_blanks by (try lia; exact Hss).
  unfold Re.sub.
  rewrite (sub_from_no_match _ _
             (fun d => negb (Ascii.eqb d (ascii_of_nat 10)))).
  - reflexivity.
  - intros prev t Ht. exact (blank_lines_need_newline prev t Ht).
  - exact (single_spaced_lacks_newline _ Hss).
Qed.

Lemma clean_for_analysis_keeps_tidy_text_witness :
  TextPreprocessor.clean_for_analysis " I LOVE it, really! "
  = "I LOVE it, really!".
Proof.
  rewrite (clean_for_analysis_keeps_tidy_text " I LOVE it, really! ");
    reflexivity.
Defined.

(** ** What the ensemble's verdict depends on *)

Lemma finish_of_equal_scores
      (individual individual' : list (string * AnalyzerResult))
      (acc acc' : Scores) :
  scores_eq acc' acc ->
  e_sentiment (finish individual' acc') = e_sentiment (finish individual acc)
  /\ scores_eq (e_scores (finish individual' acc'))
       (e_scores (finish individual acc))
  /\ e_confidence (finish individual' acc')
     == e_confidence (finish individual acc).
Proof.
  intros (H1 & H2 & H3).
  assert (Hacc : scores_eq acc' (map_values (fun v => 1 * v) acc)).
  { unfold scores_eq. cbn [map_values positive negative neutral].
    rewrite H1, H2, H3. repeat split; ring. }
  destruct (finish_scaled 1 individual acc acc' ltac:(lra) Hacc)
    as (Hl & _ & Hone).
  cbv zeta in Hl, Hone. destruct (Hone ltac:(reflexivity)) as [Hs Hc].
  change (e_sentiment (finish individual' acc'))
    with (e_sentiment (finish individual acc')).
  change (e_scores (finish individual' acc'))
    with (e_scores (finish individual acc')).
  change (e_confidence (finish individual' acc'))
    with (e_confidence (finish individual acc')).
  split; [exact Hl|]. split; [exact Hs|exact Hc].
Qed.

Lemma run_analyzers_without_zero_weights (w : string -> Q) (text : string)
      (analyzers : list (string * Analyzer)) :
  forall individual individual' acc acc',
    scores_eq acc' acc ->
    scores_eq
      (snd (run_analyzers w
              (filter (fun entry => negb (Qeq_bool (w (fst entry)) 0))
                 analyzers)
              text individual' acc'))
      (snd (run_analyzers w analyzers text individual acc)).
Proof.
  induction analyzers as [|[name analyzer] rest IH];
    intros individual individual' acc acc' Hacc; [exact Hacc|].
  cbn [filter fst]. destruct (Qeq_bool (w name) 0) eqn:Ew; cbn [negb].
  - apply Qeq_bool_iff in Ew. cbn [run_analyzers].
    destruct (analyzer text) as [r|e]; [|apply IH; exact Hacc].
    apply IH. destruct Hacc as (H1 & H2 & H3).
    rewrite add_weighted_values. unfold scores_eq.
    cbn [positive negative neutral]. rewrite H1, H2, H3, Ew.
    repeat split; ring.
  - cbn [run_analyzers].
    destruct (analyzer text) as [r|e]; [|apply IH; exact Hacc].
    apply IH. destruct Hacc as (H1 & H2 & H3).
    rewrite !add_weighted_values. unfold scores_eq.
    cbn [positive negative neutral]. rewrite H1, H2, H3.
    repeat split; reflexivity.
Qed.

(** X25: an analyzer whose weight is 0 has no say: leaving the analyzers of
    weight 0 out of the ensemble changes neither the label nor the combined
    scores nor the confidence. *)
Theorem zero_weight_analyzers_have_no_say (w : string -> Q)
        (analyzers : list (string * Analyzer)) (text : string) :
  let weighted :=
    filter (fun entry => negb (Qeq_bool (w (fst entry)) 0)) analyzers in
  e_sentiment (combine w weighted text)
  = e_sentiment (combine w analyzers text) /\
  scores_eq (e_scores (combine w weighted text))
    (e_scores (combine w analyzers text)) /\
  e_confidence (combine w weighted text)
  == e_confidence (combine w analyzers text).
Proof.
  cbv zeta. rewrite !combine_eq. apply finish_of_equal_scores.
  unfold accumulated. apply run_analyzers_without_zero_weights.
  repeat split; reflexivity.
Qed.

Lemma run_analyzers_by_scores (w : string -> Q) (text : string)
      (analyzers analyzers' : list (string * Analyzer)) :
  Forall2
    (fun entry entry' =>
       fst entry = fst entry' /\
       match snd entry text, snd entry' text with
       | Ok r, Ok r' => scores r = scores r'
       | Raise _, Raise _ => True
       | _, _ => False
       end)
    analyzers analyzers' ->
  forall individual individual' acc,
    snd (run_analyzers w analyzers text individual acc)
    = snd (run_analyzers w analyzers' text individual' acc).
Proof.
  induction 1 as [|[name a] [name' a'] rest rest' [Hn Hr] _ IH];
    intros individual individual' acc; [reflexivity|].
  cbn [fst snd] in Hn, Hr. subst name'. cbn [run_analyzers].
  destruct (a text) as [r|e], (a' text) as [r'|e']; try contradiction.
  - rewrite !add_weighted_values, Hr. apply IH.
  - apply IH.
Qed.

(** X26: the ensemble reads only the scores of its analyzers: two sets of
    analyzers that, name by name, fail on the same texts and return the
    same scores give the same label, combined scores and confidence,
    whatever labels and confidences the analyzers themselves report. *)
Theorem ensemble_reads_scores_only (w : string -> Q) (text : string)
        (analyzers analyzers' : list (string * Analyzer)) :
  Forall2
    (fun entry entry' =>
       fst entry = fst entry' /\
       match snd entry text, snd entry' text with
       | Ok r, Ok r' => scores r = scores r'
       | Raise _, Raise _ => True
       | _, _ => False
       end)
    analyzers analyzers' ->
  e_sentiment (combine w analyzers text)
  = e_sentiment (combine w analyzers' text) /\
  e_scores (combine w analyzers text) = e_scores (combine w analyzers' text) /\
  e_confidence (combine w analyzers text)
  = e_confidence (combine w analyzers' text).
Proof.
  intros H. rewrite !combine_eq. unfold accumulated.
  rewrite (run_analyzers_by_scores w text analyzers analyzers' H [] []).
  repeat split.
Qed.

Lemma ensemble_reads_scores_only_witness :
  let relabelled (text : string) : Res AnalyzerResult :=
    match TextBlobAnalyzer.analyze Sample.healthy text with
    | Ok r => Ok (mkResult NEGATIVE 0.0 (scores r))
    | Raise e => Raise e
    end in
  e_sentiment
    (combine SentimentAnalyzer._get_analyzer_weight
       [("textblob", TextBlobAnalyzer.analyze Sample.healthy)]
       "I love this!")
  = e_sentiment
      (combine SentimentAnalyzer._get_analyzer_weight
         [("textblob", relabelled)] "I love this!").
Proof.
  cbv zeta.
  apply (ensemble_reads_scores_only SentimentAnalyzer._get_analyzer_weight
           "I love this!"
           [("textblob", TextBlobAnalyzer.analyze Sample.healthy)]).
  repeat constructor.
Defined.

(** X27: with the method "transformer" a single-text analysis always
    returns, with or without a loaded model: the result carries what
    [TransformerAnalyzer.analyze] returns for the preprocessed text, and a
    batch holds no stand-in. *)
Theorem transformer_method_always_returns (env : Libraries)
        (preprocess : bool) (texts : list string) (clock : nat) :
  let sa := SentimentAnalyzer.init env "transformer" preprocess in
  (forall text c,
      exists r a,
        SentimentAnalyzer.analyze env sa text c = (Ok r, S (S c)) /\
        TransformerAnalyzer.analyze env
          (SentimentAnalyzer.processed env sa text) = Ok a /\
        r_text r = text /\ r_sentiment r = sentiment a /\
        r_confidence r = confidence a /\ r_scores r = scores a) /\
  Forall2
    (fun text r =>
       exists c,
         fst (SentimentAnalyzer.analyze env sa text c) = Ok r)
    texts (fst (SentimentAnalyzer.analyze_batch env sa texts clock)).
Proof.
  cbv zeta.
  set (sa := SentimentAnalyzer.init env "transformer" preprocess).
  assert (Hone : forall text c,
             exists r a,
               SentimentAnalyzer.analyze env sa text c = (Ok r, S (S c)) /\
               TransformerAnalyzer.analyze env
                 (SentimentAnalyzer.processed env sa text) = Ok a /\
               r_text r = text /\ r_sentiment r = sentiment a /\
               r_confidence r = confidence a /\ r_scores r = scores a).
  { intros text c. unfold SentimentAnalyzer.analyze. cbv zeta.
    change (String.eqb (SentimentAnalyzer.method sa) "ensemble") with false.
    change (dict_get (SentimentAnalyzer.analyzers sa)
              (SentimentAnalyzer.method sa))
      with (Some (TransformerAnalyzer.analyze env)).
    cbv iota.
    assert (Hret : exists a,
               TransformerAnalyzer.analyze env
                 (SentimentAnalyzer.processed env sa text) = Ok a).
    { unfold TransformerAnalyzer.analyze.
      destruct (pipeline env) as [pipe|]; [|eexists; reflexivity].
      destruct (TransformerAnalyzer.infer pipe _); eexists; reflexivity. }
    destruct Hret as [a Ha]. rewrite Ha.
    eexists. exists a. repeat split. }
  split; [exact Hone|].
  revert clock. induction texts as [|text rest IH]; intros clock.
  - constructor.
  - rewrite analyze_batch_cons. constructor; [|apply IH].
    exists clock. destruct (Hone text clock) as (r & a & Hr & _).
    rewrite Hr. reflexivity.
Qed.
